(** * Terra workflow scale-test tools: embedding and verification

  A shallow embedding of
  - [scripts/monitor_response_times_v2.py]  (module [Monitor]),
  - [scripts/workflow_info.py]              (module [WorkflowInfo]),
  - [terra_workflow_scale_test_tools/workflow_status.py]
                                            (module [WorkflowStatus]),
  over a small model of the Python values, exceptions and library calls
  they use (modules [Py], [PyFloat], [Datetime], [Env], [Requests]).

  The definitions come first; the theorems about them follow. *)

From Stdlib Require Import ZArith List String Ascii Bool Lia.
From Stdlib Require Import Permutation Sorted Orders Mergesort.
From Stdlib Require Import PrimFloat FloatOps SpecFloat Uint63.
Import ListNotations.

Set Warnings "-register-all".

Open Scope string_scope.
Open Scope list_scope.
Open Scope Z_scope.

(* ================================================================== *)
(** * Python values, exceptions and the effect monad *)
(* ================================================================== *)

Module Py.

(** Values as [json.loads] and the scripts build them.  A [str] is the
    sequence of its UTF-8 bytes; a dict keeps its keys in insertion
    order, and all dicts of these scripts have [str] keys. *)
Inductive pyval : Type :=
| VNone
| VBool (b : bool)
| VInt (n : Z)
| VFloat (x : float)
| VStr (s : string)
| VList (l : list pyval)
| VDict (d : list (string * pyval)).

(** The exception classes the scripts and their libraries raise.  All
    of them derive from [Exception]. *)
Inductive exn : Type :=
| AssertionError (msg : string)
| KeyError (key : string)
| IndexError
| AttributeError
| TypeError
| ValueError
| OverflowError
| JSONDecodeError
| HTTPError (status : Z)
| RequestException            (* transport failure of [requests] *)
| GoogleAuthError.            (* [google.auth] found or refreshed no credential *)

Definition result (A : Type) : Type := (exn + A)%type.

(** ** f-strings

    An f-string is kept as its fragments: the text [str()] gives for an
    interpolated value is not computed. *)
Inductive fragment : Type :=
| Lit (s : string)
| Fmt (v : pyval)
| FmtExn (e : exn).

Definition fstring : Type := list fragment.

(** ** Insertion-ordered dicts with [str] keys *)

Definition dict (A : Type) : Type := list (string * A).

Fixpoint dict_get {A} (d : dict A) (k : string) : option A :=
  match d with
  | [] => None
  | (k', v) :: d' => if String.eqb k' k then Some v else dict_get d' k
  end.

(** [d[k] = v]: an existing key keeps its position, a new one goes last. *)
Fixpoint dict_set {A} (d : dict A) (k : string) (v : A) : dict A :=
  match d with
  | [] => [(k, v)]
  | (k', v') :: d' =>
      if String.eqb k' k then (k', v) :: d' else (k', v') :: dict_set d' k v
  end.

Definition dict_keys {A} (d : dict A) : list string := map fst d.

Definition dict_contains {A} (d : dict A) (k : string) : bool :=
  match dict_get d k with Some _ => true | None => false end.

(** [v[k]] for a [str] key [k]. *)
Definition subscript (v : pyval) (k : string) : result pyval :=
  match v with
  | VDict d => match dict_get d k with
               | Some x => inr x
               | None => inl (KeyError k)
               end
  | _ => inl TypeError
  end.

(** [v.get(k)]: only a dict has the method. *)
Definition method_get (v : pyval) (k : string) : result pyval :=
  match v with
  | VDict d => match dict_get d k with
               | Some x => inr x
               | None => inr VNone
               end
  | _ => inl AttributeError
  end.

(** [for x in v]: the elements of a list, the keys of a dict, the
    characters of a str. *)
Definition iterate (v : pyval) : result (list pyval) :=
  match v with
  | VList l => inr l
  | VDict d => inr (map (fun kv => VStr (fst kv)) d)
  | VStr s => inr (map (fun c => VStr (String c EmptyString)) (list_ascii_of_string s))
  | _ => inl TypeError
  end.

(** [v == s] for a str [s]. *)
Definition eq_str (v : pyval) (s : string) : bool :=
  match v with
  | VStr s' => String.eqb s' s
  | _ => false
  end.

(** [v in l] for a list [l] of strs. *)
Definition in_str_list (v : pyval) (l : list string) : bool :=
  existsb (eq_str v) l.

Definition is_none (v : pyval) : bool :=
  match v with VNone => true | _ => false end.

(** ** str methods *)

(** [s.startswith(p)] *)
Definition str_startswith (s p : string) : bool := String.prefix p s.

(** [s.split(sep)] for a separator of one character. *)
Fixpoint str_split (sep : ascii) (s : string) : list string :=
  match s with
  | EmptyString => [EmptyString]
  | String c s' =>
      if Ascii.eqb c sep then EmptyString :: str_split sep s'
      else match str_split sep s' with
           | [] => [String c EmptyString]
           | w :: ws => String c w :: ws
           end
  end.

(** [s.replace(old, new)] for an [old] of one character. *)
Fixpoint str_replace (old : ascii) (new : string) (s : string) : string :=
  match s with
  | EmptyString => EmptyString
  | String c s' =>
      if Ascii.eqb c old then new ++ str_replace old new s'
      else String c (str_replace old new s')
  end.

(** [l[-1]] *)
Fixpoint index_last {A} (l : list A) : result A :=
  match l with
  | [] => inl IndexError
  | [x] => inr x
  | _ :: l' => index_last l'
  end.

(** [sorted(l)] on strs: ascending by code point, which on UTF-8 bytes
    is the byte-wise lexicographic order. *)
Module StrOrder <: TotalLeBool.
Definition t := string.
Definition leb := String.leb.
Definition leb_total : forall a1 a2, leb a1 a2 = true \/ leb a2 a1 = true :=
  String.leb_total.
End StrOrder.

Module StrSort := Sort StrOrder.

Definition sorted (l : list string) : list string := StrSort.sort l.

(** ** A state and exception monad

    A computation runs on a state [S] and ends with a value or a raised
    exception; the state it reached is kept in both cases. *)
Definition M (S A : Type) : Type := S -> result A * S.

Definition ret {S A} (a : A) : M S A := fun s => (inr a, s).

Definition raise {S A} (e : exn) : M S A := fun s => (inl e, s).

Definition bind {S A B} (m : M S A) (k : A -> M S B) : M S B :=
  fun s => match m s with
           | (inr a, s') => k a s'
           | (inl e, s') => (inl e, s')
           end.

Definition lift {S A} (r : result A) : M S A := fun s => (r, s).

Definition get_state {S} : M S S := fun s => (inr s, s).

Definition modify {S} (f : S -> S) : M S unit := fun s => (inr tt, f s).

(** [try: m  except Exception as ex: h ex] *)
Definition try_except {S A} (m : M S A) (h : exn -> M S A) : M S A :=
  fun s => match m s with
           | (inr a, s') => (inr a, s')
           | (inl e, s') => h e s'
           end.

(** [assert c, msg] *)
Definition py_assert {S} (c : bool) (msg : string) : M S unit :=
  if c then ret tt else raise (AssertionError msg).

(** Run a computation on the second component of the state. *)
Definition on_snd {L S A} (m : M S A) : M (L * S) A :=
  fun ls => let '(r, s') := m (snd ls) in (r, (fst ls, s')).

(** Run a computation on the first component of the state. *)
Definition on_fst {L S A} (m : M L A) : M (L * S) A :=
  fun ls => let '(r, l') := m (fst ls) in (r, (l', snd ls)).

End Py.

Import Py.

Declare Scope py_scope.
Delimit Scope py_scope with py.
Notation "x <- m ;; k" := (bind m (fun x => k))
  (at level 100, m at next level, right associativity) : py_scope.
Notation "' p <- m ;; k" := (bind m (fun x => let 'p := x in k))
  (at level 100, p pattern, m at next level, right associativity) : py_scope.
Notation "m ;; k" := (bind m (fun _ => k))
  (at level 100, right associativity) : py_scope.
Open Scope py_scope.

(* ================================================================== *)
(** * Floats: binary64, as Python's [float] *)
(* ================================================================== *)

Module PyFloat.

Definition is_nan (x : float) : bool :=
  match Prim2SF x with S754_nan => true | _ => false end.

(** The integer part of a finite float, towards zero ([modf]'s). *)
Definition trunc (x : float) : option Z :=
  match Prim2SF x with
  | S754_zero _ => Some 0
  | S754_finite s m e =>
      let a := if e <? 0 then Z.shiftr (Z.pos m) (- e) else Z.shiftl (Z.pos m) e in
      Some (if s then - a else a)
  | _ => None
  end.

(** The nearest integer of a finite float, ties to even. *)
Definition round_half_even (x : float) : option Z :=
  match Prim2SF x with
  | S754_zero _ => Some 0
  | S754_finite s m e =>
      let a :=
        if e <? 0 then
          let q := Z.shiftr (Z.pos m) (- e) in
          let r := Z.pos m - Z.shiftl q (- e) in
          let half := Z.shiftl 1 (- e - 1) in
          if r <? half then q
          else if half <? r then q + 1
          else if Z.even q then q else q + 1
        else Z.shiftl (Z.pos m) e in
      Some (if s then - a else a)
  | _ => None
  end.

(** The float of an integer below 2^63 in magnitude: exact below 2^53. *)
Definition of_Z (z : Z) : float :=
  if z <? 0 then PrimFloat.opp (PrimFloat.of_uint63 (Uint63.of_Z (- z)))
  else PrimFloat.of_uint63 (Uint63.of_Z z).

(** [round(x, 3)]: the float nearest to the decimal with three places
    nearest to [x] (ties to even).  A float that is an integer, nan and
    the infinities are returned as they are. *)
Definition round3 (x : float) : float :=
  match Prim2SF x with
  | S754_finite s m e =>
      if 0 <=? e then x
      else
        let n := Z.pos m * 1000 in
        let q := Z.shiftr n (- e) in
        let r := n - Z.shiftl q (- e) in
        let half := Z.shiftl 1 (- e - 1) in
        let k := if r <? half then q
                 else if half <? r then q + 1
                 else if Z.even q then q else q + 1 in
        match k with
        | Z.pos p =>
            SF2Prim (SFdiv prec emax (S754_finite s p 0) (S754_finite false 1000 0))
        | _ => SF2Prim (S754_zero s)
        end
  | _ => x
  end.

End PyFloat.

(* ================================================================== *)
(** * [datetime]: UTC timestamps and their display *)
(* ================================================================== *)

Module Datetime.

Record datetime : Type := mk_datetime {
  year : Z; month : Z; day : Z;
  hour : Z; minute : Z; second : Z;
  microsecond : Z
}.

(** Seconds and microseconds of a float timestamp, the microseconds
    rounded half to even, as [datetime.fromtimestamp] takes them. *)
Definition timeval_of_float (t : float) : result (Z * Z) :=
  if PyFloat.is_nan t then inl ValueError
  else match PyFloat.trunc t with
       | None => inl OverflowError
       | Some ip =>
           if (ip <? - 2 ^ 63) || (2 ^ 63 <=? ip) then inl OverflowError
           else
             let frac := PrimFloat.sub t (PyFloat.of_Z ip) in
             match PyFloat.round_half_even (PrimFloat.mul frac 1000000%float) with
             | None => inl OverflowError
             | Some us =>
                 if 1000000 <=? us then inr (ip + 1, us - 1000000)
                 else if us <? 0 then inr (ip - 1, us + 1000000)
                 else inr (ip, us)
             end
       end.

(** The proleptic Gregorian date of a day number counted from 1970-01-01. *)
Definition civil_from_days (days : Z) : Z * Z * Z :=
  let z := days + 719468 in
  let era := z / 146097 in
  let doe := z - era * 146097 in
  let yoe := (doe - doe / 1460 + doe / 36524 - doe / 146096) / 365 in
  let doy := doe - (365 * yoe + yoe / 4 - yoe / 100) in
  let mp := (5 * doy + 2) / 153 in
  let d := doy - (153 * mp + 2) / 5 + 1 in
  let m := if mp <? 10 then mp + 3 else mp - 9 in
  let y := yoe + era * 400 in
  (if m <=? 2 then y + 1 else y, m, d).

(** [datetime.fromtimestamp(t, timezone.utc)] *)
Definition fromtimestamp_utc (t : float) : result datetime :=
  match timeval_of_float t with
  | inl e => inl e
  | inr (secs, us) =>
      let days := secs / 86400 in
      let rem := secs mod 86400 in
      let '(y, m, d) := civil_from_days days in
      if (y - 1900 <? - 2 ^ 31) || (2 ^ 31 <=? y - 1900) then inl OverflowError
      else if (y <? 1) || (9999 <? y) then inl ValueError
      else inr (mk_datetime y m d (rem / 3600) (rem mod 3600 / 60) (rem mod 60) us)
  end.

Definition digit (n : Z) : ascii := ascii_of_N (48 + Z.to_N (n mod 10)).

(** The last [width] decimal digits of [n], zero padded. *)
Fixpoint zero_padded (width : nat) (n : Z) : string :=
  match width with
  | O => EmptyString
  | S w => zero_padded w (n / 10) ++ String (digit n) EmptyString
  end.

(** [dt.strftime("%Y/%m/%d %H:%M:%S")] *)
Definition strftime_Ymd_HMS_slashes (dt : datetime) : string :=
  zero_padded 4 (year dt) ++ "/" ++ zero_padded 2 (month dt) ++ "/"
  ++ zero_padded 2 (day dt) ++ " " ++ zero_padded 2 (hour dt) ++ ":"
  ++ zero_padded 2 (minute dt) ++ ":" ++ zero_padded 2 (second dt).

End Datetime.

(* ================================================================== *)
(** * The environment of a run *)
(* ================================================================== *)

Module Env.

Inductive http_method : Type := GET | POST.

(** A request as [requests.get] / [requests.post] is given it.  [data]
    holds the value whose [json.dumps] text is the body. *)
Record request : Type := mk_request {
  method : http_method;
  url : string;
  headers : dict fstring;
  data : option pyval
}.

(** A [requests.Response].  [json_body] is [None] when the body is not
    JSON, so that [json()] raises. *)
Record response : Type := mk_response {
  status_code : Z;
  reason : string;
  request_url : string;
  json_body : option pyval
}.

Inductive log_level : Type := DEBUG | WARNING.

(** A row of a csv file: the values handed to the csv writer, before it
    quotes and prints them. *)
Definition csv_row : Type := list pyval.

(** What a run reads from and writes to.  The clock, the credential
    provider and the servers are oracles, each consulted by the number of
    calls made so far; every call is taken to return.  [sent] lists the
    calls of [requests.get] and [requests.post], one entry for each call,
    and [server] gives what the call returns or raises: the exchanges
    that [requests] makes within one call, when it follows a redirect,
    are not told apart. *)
Record world : Type := mk_world {
  clock : nat -> float;
  clock_reads : nat;
  credentials : nat -> result string;
  credential_calls : nat;
  server : nat -> request -> result response;
  sent : list request;
  log : list (log_level * fstring);
  stdout : list fstring;
  slept : list Z;
  files : dict (list csv_row);
  run_date_time_stamp : string
}.

Definition set_clock_reads (n : nat) (w : world) : world :=
  mk_world (clock w) n (credentials w) (credential_calls w) (server w)
           (sent w) (log w) (stdout w) (slept w) (files w) (run_date_time_stamp w).

Definition set_credential_calls (n : nat) (w : world) : world :=
  mk_world (clock w) (clock_reads w) (credentials w) n (server w)
           (sent w) (log w) (stdout w) (slept w) (files w) (run_date_time_stamp w).

Definition set_sent (l : list request) (w : world) : world :=
  mk_world (clock w) (clock_reads w) (credentials w) (credential_calls w) (server w)
           l (log w) (stdout w) (slept w) (files w) (run_date_time_stamp w).

Definition set_log (l : list (log_level * fstring)) (w : world) : world :=
  mk_world (clock w) (clock_reads w) (credentials w) (credential_calls w) (server w)
           (sent w) l (stdout w) (slept w) (files w) (run_date_time_stamp w).

Definition set_stdout (l : list fstring) (w : world) : world :=
  mk_world (clock w) (clock_reads w) (credentials w) (credential_calls w) (server w)
           (sent w) (log w) l (slept w) (files w) (run_date_time_stamp w).

Definition set_slept (l : list Z) (w : world) : world :=
  mk_world (clock w) (clock_reads w) (credentials w) (credential_calls w) (server w)
           (sent w) (log w) (stdout w) l (files w) (run_date_time_stamp w).

Definition set_files (f : dict (list csv_row)) (w : world) : world :=
  mk_world (clock w) (clock_reads w) (credentials w) (credential_calls w) (server w)
           (sent w) (log w) (stdout w) (slept w) f (run_date_time_stamp w).

(** [time.time()] *)
Definition time_time : M world float :=
  fun w => (inr (clock w (clock_reads w)), set_clock_reads (S (clock_reads w)) w).

(** [time.sleep(seconds)] *)
Definition time_sleep (seconds : Z) : M world unit :=
  modify (fun w => set_slept (slept w ++ [seconds]) w).

(** [creds, projects = google.auth.default(); creds.refresh(...); creds.token] *)
Definition google_auth_token : M world string :=
  fun w => (credentials w (credential_calls w),
            set_credential_calls (S (credential_calls w)) w).

(** One round trip: the request is recorded as sent, and the server's
    answer or the transport's exception comes back. *)
Definition send (rq : request) : M world response :=
  fun w => (server w (List.length (sent w)) rq, set_sent (sent w ++ [rq]) w).

Definition logger_debug (msg : fstring) : M world unit :=
  modify (fun w => set_log (log w ++ [(DEBUG, msg)]) w).

Definition logger_warning (msg : fstring) : M world unit :=
  modify (fun w => set_log (log w ++ [(WARNING, msg)]) w).

Definition print (msg : fstring) : M world unit :=
  modify (fun w => set_stdout (stdout w ++ [msg]) w).

(** [Path(name).exists()] *)
Definition path_exists (name : string) : M world bool :=
  fun w => (inr (dict_contains (files w) name), w).

(** [open(name, 'a')]: the file is created when it is missing. *)
Definition open_append (name : string) : M world unit :=
  modify (fun w => if dict_contains (files w) name then w
                   else set_files (dict_set (files w) name []) w).

(** One row written through a handle opened for appending. *)
Definition append_row (name : string) (row : csv_row) : M world unit :=
  modify (fun w =>
    let old := match dict_get (files w) name with Some rows => rows | None => [] end in
    set_files (dict_set (files w) name (old ++ [row])) w).

End Env.

(* ================================================================== *)
(** * [requests]: what the scripts use of a response *)
(* ================================================================== *)

Module Requests.
Import Env.

(** [requests.get(url, headers=headers)] *)
Definition get (url : string) (headers : dict fstring) : M world response :=
  send (mk_request GET url headers None).

(** [requests.post(url, headers=headers, data=json.dumps(body))] *)
Definition post (url : string) (headers : dict fstring) (body : pyval) : M world response :=
  send (mk_request POST url headers (Some body)).

(** [resp.raise_for_status()]: an [HTTPError] for a client error
    (400 to 499) or a server error (500 to 599), and nothing otherwise. *)
Definition raise_for_status (resp : response) : result unit :=
  if (400 <=? status_code resp) && (status_code resp <? 500) then
    inl (HTTPError (status_code resp))
  else if (500 <=? status_code resp) && (status_code resp <? 600) then
    inl (HTTPError (status_code resp))
  else inr tt.

(** [resp.ok]: whether [raise_for_status] would return. *)
Definition ok (resp : response) : bool :=
  match raise_for_status resp with
  | inl _ => false
  | inr _ => true
  end.

(** [resp.json()] *)
Definition json (resp : response) : result pyval :=
  match json_body resp with
  | Some v => inr v
  | None => inl JSONDecodeError
  end.

End Requests.

(* ================================================================== *)
(** * [scripts/monitor_response_times_v2.py] *)
(* ================================================================== *)

Module Monitor.
Import Env.
Local Open Scope string_scope.

(** ** [DeploymentInfo] *)

Record TerraDeploymentInfo : Type := mk_terra {
  bond_host : string;
  bond_provider : string;
  martha_host : string
}.

Record Gen3DeploymentInfo : Type := mk_gen3 {
  gen3_host : string;
  public_drs_uri : string;
  cloud_uri_scheme : string
}.

Definition terra_bdc_dev : TerraDeploymentInfo :=
  mk_terra "broad-bond-dev.appspot.com" "fence"
           "us-central1-broad-dsde-dev.cloudfunctions.net".

Definition gen3_bdc_staging : Gen3DeploymentInfo :=
  mk_gen3 "staging.gen3.biodatacatalyst.nhlbi.nih.gov"
          "drs://dg.712C:dg.712C/fa640b0e-9779-452f-99a6-16d833d15bd0"
          "gs".

Definition terra_factory : TerraDeploymentInfo := terra_bdc_dev.
Definition gen3_factory : Gen3DeploymentInfo := gen3_bdc_staging.

(** The class attributes of [TerraMethods] and [Gen3Methods]. *)
Definition terra_info : TerraDeploymentInfo := terra_factory.
Definition gen3_info : Gen3DeploymentInfo := gen3_factory.

(** ** [MonitoringUtilityMethods] *)

(** The argument is not used: the clock is read instead. *)
Definition format_timestamp_as_utc (seconds_since_epoch : float) : M world string :=
  now <- time_time ;;
  dt <- lift (Datetime.fromtimestamp_utc now) ;;
  ret (Datetime.strftime_Ymd_HMS_slashes dt).

Definition monitoring_info (start_time : float) (resp : response) : M world (dict pyval) :=
  now <- time_time ;;
  let response_duration := PyFloat.round3 (PrimFloat.sub now start_time) in
  let response_code := status_code resp in
  let response_reason := reason resp in
  ret [("start_time", VFloat start_time);
       ("response_duration", VFloat response_duration);
       ("response_code", VInt response_code);
       ("response_reason", VStr response_reason)].

Definition recorded_metrics : list string :=
  ["start_time"; "response_duration"; "response_code"; "response_reason"].

Definition str_in (s : string) (l : list string) : bool := existsb (String.eqb s) l.

(** The inner loop of [flatten_monitoring_info_dict], over the items of
    one operation's monitoring info. *)
Fixpoint flatten_metrics (operation_name : string) (items : dict pyval)
         (flattened : dict pyval) : M world (dict pyval) :=
  match items with
  | [] => ret flattened
  | (metric, value) :: rest =>
      if str_in metric recorded_metrics then
        value' <- (if String.eqb metric "start_time" then
                     match value with
                     | VFloat x => s <- format_timestamp_as_utc x ;; ret (VStr s)
                     | _ => ret value
                     end
                   else ret value) ;;
        flatten_metrics operation_name rest
          (dict_set flattened (operation_name ++ "." ++ metric) value')
      else flatten_metrics operation_name rest flattened
  end.

(** The outer loop, over the operations in insertion order. *)
Fixpoint flatten_operations (items : dict (dict pyval))
         (flattened : dict pyval) : M world (dict pyval) :=
  match items with
  | [] => ret flattened
  | (operation_name, mon_info) :: rest =>
      flattened' <- flatten_metrics operation_name mon_info flattened ;;
      flatten_operations rest flattened'
  end.

Definition flatten_monitoring_info_dict (monitoring_info_dict : dict (dict pyval))
  : M world (dict pyval) :=
  flatten_operations monitoring_info_dict [].

Definition get_output_filename_with_run_timestamp (output_file_basename suffix : string)
  : M world string :=
  w <- get_state ;;
  ret (output_file_basename ++ "_" ++ run_date_time_stamp w ++ "." ++ suffix).

(** ** [csv.DictWriter] *)

(** [DictWriter._dict_to_list] with the default [extrasaction="raise"]
    and [restval=""]. *)
Definition dict_to_list (fieldnames : list string) (rowdict : dict pyval) : result csv_row :=
  if forallb (fun k => str_in k fieldnames) (dict_keys rowdict) then
    inr (map (fun key => match dict_get rowdict key with
                         | Some v => v
                         | None => VStr ""
                         end) fieldnames)
  else inl ValueError.

Definition writerow (csvfile : string) (fieldnames : list string) (rowdict : dict pyval)
  : M world unit :=
  row <- lift (dict_to_list fieldnames rowdict) ;;
  append_row csvfile row.

Definition writeheader (csvfile : string) (fieldnames : list string) : M world unit :=
  writerow csvfile fieldnames (map (fun f => (f, VStr f)) fieldnames).

Definition write_monitoring_info_to_csv (monitoring_info_dict : dict (dict pyval))
           (output_file_basename : string) : M world unit :=
  output_filename <- get_output_filename_with_run_timestamp output_file_basename "csv" ;;
  file_exists <- path_exists output_filename ;;
  let write_header := if file_exists then false else true in
  row_info <- flatten_monitoring_info_dict monitoring_info_dict ;;
  open_append output_filename ;;
  let fieldnames := sorted (dict_keys row_info) in
  (if write_header then writeheader output_filename fieldnames else ret tt) ;;
  writerow output_filename fieldnames row_info.

(** ** [TerraMethods] *)

Definition bearer_headers (token : pyval) : dict fstring :=
  [("authorization", [Lit "Bearer "; Fmt token]);
   ("content-type", [Lit "application/json"])].

Definition log_request_url (resp : response) : M world unit :=
  logger_debug [Lit "Request URL: "; Fmt (VStr (request_url resp))].

Definition get_terra_user_pet_sa_token : M world string := google_auth_token.

Definition get_fence_token_from_bond (terra_user_token : string)
  : M world (pyval * dict pyval) :=
  let headers := bearer_headers (VStr terra_user_token) in
  start_time <- time_time ;;
  resp <- Requests.get ("https://" ++ bond_host terra_info ++ "/api/link/v1/"
                        ++ bond_provider terra_info ++ "/accesstoken") headers ;;
  log_request_url resp ;;
  token <- (if Requests.ok resp
            then (body <- lift (Requests.json resp) ;; lift (method_get body "token"))
            else ret VNone) ;;
  mon_info <- monitoring_info start_time resp ;;
  ret (token, mon_info).

Definition get_service_account_key_from_bond (terra_user_token : string)
  : M world (pyval * dict pyval) :=
  let headers := bearer_headers (VStr terra_user_token) in
  start_time <- time_time ;;
  resp <- Requests.get ("https://" ++ bond_host terra_info ++ "/api/link/v1/"
                        ++ bond_provider terra_info ++ "/serviceaccount/key") headers ;;
  log_request_url resp ;;
  sa_key <- (if Requests.ok resp
             then (body <- lift (Requests.json resp) ;; lift (method_get body "data"))
             else ret VNone) ;;
  mon_info <- monitoring_info start_time resp ;;
  ret (sa_key, mon_info).

Definition get_martha_drs_response (terra_user_token : string) (drs_uri : option string)
  : M world (pyval * dict pyval) :=
  let drs_uri := match drs_uri with
                 | None => public_drs_uri gen3_info
                 | Some u => u
                 end in
  let headers := bearer_headers (VStr terra_user_token) in
  let data := VDict [("url", VStr drs_uri)] in
  start_time <- time_time ;;
  resp <- Requests.post ("https://" ++ martha_host terra_info ++ "/martha_v3/")
                        headers data ;;
  log_request_url resp ;;
  resp_json <- (if Requests.ok resp then lift (Requests.json resp) else ret VNone) ;;
  mon_info <- monitoring_info start_time resp ;;
  ret (resp_json, mon_info).

(** ** [Gen3Methods] *)

(** [drs_uri.split(":")[-1]], as both index lookups compute it. *)
Definition object_id_of (drs_uri : string) : result string :=
  index_last (str_split ":" drs_uri).

Definition get_gen3_drs_resolution (drs_uri : option string)
  : M world (pyval * dict pyval) :=
  let drs_uri := match drs_uri with
                 | None => public_drs_uri gen3_info
                 | Some u => u
                 end in
  py_assert (str_startswith drs_uri "drs://") "" ;;
  object_id <- lift (object_id_of drs_uri) ;;
  let headers := [("content-type", [Lit "application/json"])] in
  start_time <- time_time ;;
  resp <- Requests.get ("https://" ++ gen3_host gen3_info ++ "/ga4gh/drs/v1/objects/"
                        ++ object_id) headers ;;
  log_request_url resp ;;
  resp_json <- (if Requests.ok resp then lift (Requests.json resp) else ret VNone) ;;
  mon_info <- monitoring_info start_time resp ;;
  ret (resp_json, mon_info).

(** The loop of [_get_drs_access_id] over the access methods. *)
Fixpoint first_access_id (access_methods : list pyval) (cloud_uri_scheme : string)
  : result pyval :=
  match access_methods with
  | [] => inr VNone
  | access_method :: rest =>
      match subscript access_method "type" with
      | inl e => inl e
      | inr ty =>
          if eq_str ty cloud_uri_scheme then subscript access_method "access_id"
          else first_access_id rest cloud_uri_scheme
      end
  end.

Definition _get_drs_access_id (drs_response : pyval) (cloud_uri_scheme : string)
  : result pyval :=
  match subscript drs_response "access_methods" with
  | inl e => inl e
  | inr ams =>
      match iterate ams with
      | inl e => inl e
      | inr access_methods => first_access_id access_methods cloud_uri_scheme
      end
  end.

Definition get_gen3_drs_access (fence_user_token : pyval) (drs_uri : option string)
           (access_id : string) : M world (pyval * dict pyval) :=
  let drs_uri := match drs_uri with
                 | None => public_drs_uri gen3_info
                 | Some u => u
                 end in
  py_assert (str_startswith drs_uri "drs://") "" ;;
  object_id <- lift (object_id_of drs_uri) ;;
  let headers := bearer_headers fence_user_token in
  start_time <- time_time ;;
  resp <- Requests.get ("https://" ++ gen3_host gen3_info ++ "/ga4gh/drs/v1/objects/"
                        ++ object_id ++ "/access/" ++ access_id) headers ;;
  log_request_url resp ;;
  access_url <- (if Requests.ok resp
                 then (body <- lift (Requests.json resp) ;; lift (method_get body "url"))
                 else ret VNone) ;;
  mon_info <- monitoring_info start_time resp ;;
  ret (access_url, mon_info).

Definition get_fence_userinfo (fence_user_token : pyval) : M world (pyval * dict pyval) :=
  let headers := [("authorization", [Lit "Bearer "; Fmt fence_user_token]);
                  ("content-type", [Lit "application/json"]);
                  ("accept", [Lit "*/*"])] in
  start_time <- time_time ;;
  resp <- Requests.get ("https://" ++ gen3_host gen3_info ++ "/user/user/") headers ;;
  log_request_url resp ;;
  resp_json <- (if Requests.ok resp then lift (Requests.json resp) else ret VNone) ;;
  mon_info <- monitoring_info start_time resp ;;
  ret (resp_json, mon_info).

(** ** [ResponseTimeMonitor.DrsFlowResponseTimeReporter] *)

(** [monitoring_infos[hop] = mon_info] on the local dict of the flow. *)
Definition record_hop (hop : string) (mon_info : dict pyval)
  : M (dict (dict pyval) * world) unit :=
  modify (fun s => (dict_set (fst s) hop mon_info, snd s)).

(** The body of the [try] block.  Its state is the dict [monitoring_infos]
    and the world: what was recorded before an exception stays recorded. *)
Definition drs_flow : M (dict (dict pyval) * world) unit :=
  terra_user_token <- on_snd get_terra_user_pet_sa_token ;;
  '(drs_metadata, mon_info) <- on_snd (get_gen3_drs_resolution None) ;;
  record_hop "indexd_get_metadata" mon_info ;;
  '(fence_user_token, mon_info) <- on_snd (get_fence_token_from_bond terra_user_token) ;;
  record_hop "bond_get_access_token" mon_info ;;
  py_assert (negb (is_none fence_user_token)) "Failed to get Fence user token." ;;
  '(sa_key, mon_info) <- on_snd (get_service_account_key_from_bond terra_user_token) ;;
  record_hop "bond_get_sa_key" mon_info ;;
  '(access_url, mon_info) <- on_snd (get_gen3_drs_access fence_user_token None "gs") ;;
  record_hop "fence_get_signed_url" mon_info ;;
  ret tt.

(** The body of [measure_response_times] after [monitoring_infos = dict()]:
    the [try] statement, then [return monitoring_infos], which is reached
    only when the [try] statement completes. *)
Definition try_drs_flow : M (dict (dict pyval) * world) (dict (dict pyval)) :=
  try_except drs_flow
    (fun ex => on_snd (logger_warning [Lit "Exception occurred: "; FmtExn ex])) ;;
  on_fst get_state.

(** The local variable [monitoring_infos] lives for the call. *)
Definition measure_response_times : M world (dict (dict pyval)) :=
  fun w =>
    let '(outcome, (_, w')) := try_drs_flow ([], w) in
    (outcome, w').

Definition measure_and_report (output_filename : string) : M world unit :=
  monitoring_infos <- measure_response_times ;;
  write_monitoring_info_to_csv monitoring_infos output_filename.

(** ** [ResponseTimeMonitor] *)

(** The decorator [catch_exceptions]: the job's exception is printed as a
    traceback and swallowed.  [None] stands for the wrapper's plain
    return, [Some tt] for [schedule.CancelJob]. *)
Definition catch_exceptions (cancel_on_failure : bool) (job_func : M world unit)
  : M world (option unit) :=
  try_except (job_func ;; ret None)
    (fun ex => print [FmtExn ex] ;;
               if cancel_on_failure then ret (Some tt) else ret None).

Definition check_drs_flow_response_times : M world (option unit) :=
  catch_exceptions false (measure_and_report "drs_flow_response_times").

End Monitor.

(* ================================================================== *)
(** * The two [WorkflowDAO] classes *)
(* ================================================================== *)

(** [s.lower()] on the letters A to Z; the other bytes are kept. *)
Definition ascii_lower (c : ascii) : ascii :=
  let n := N_of_ascii c in
  if ((65 <=? n) && (n <=? 90))%N then ascii_of_N (n + 32) else c.

Fixpoint str_lower (s : string) : string :=
  match s with
  | EmptyString => EmptyString
  | String c s' => String (ascii_lower c) (str_lower s')
  end.

(** ** [scripts/workflow_info.py] *)

Module WorkflowInfo.
Import Env.
Local Open Scope string_scope.

Definition TERRA_DEPLOYMENT_TIER : string := "alpha".

Definition FIRECLOUD_API_URL : string :=
  "https://firecloud-orchestration.dsde-" ++ TERRA_DEPLOYMENT_TIER ++ ".broadinstitute.org".

Record WorkflowDAO : Type := mk_dao {
  workspace_namespace : string;
  workspace_name : string;
  wf_submission_id : string;
  workflow_info : pyval
}.

Definition init (workspace_namespace workspace_name wf_submission_id : string) : WorkflowDAO :=
  mk_dao workspace_namespace workspace_name wf_submission_id VNone.

Definition set_workflow_info (v : pyval) (self : WorkflowDAO) : WorkflowDAO :=
  mk_dao (workspace_namespace self) (workspace_name self) (wf_submission_id self) v.

Definition _get_terra_user_token : M world string := google_auth_token.

Definition update : M (WorkflowDAO * world) unit :=
  terra_user_token <- on_snd _get_terra_user_token ;;
  let headers := [("authorization", [Lit "Bearer "; Fmt (VStr terra_user_token)]);
                  ("content-type", [Lit "application/json"])] in
  self <- on_fst get_state ;;
  resp <- on_snd (Requests.get
            (FIRECLOUD_API_URL ++ "/api/workspaces/" ++ workspace_namespace self ++ "/"
             ++ workspace_name self ++ "/submissions/" ++ wf_submission_id self)
            headers) ;;
  on_snd (print [Lit "Request URL: "; Fmt (VStr (request_url resp))]) ;;
  lift (Requests.raise_for_status resp) ;;
  info <- (if Requests.ok resp then lift (Requests.json resp) else ret VNone) ;;
  on_fst (modify (set_workflow_info info)).

Definition get_workflow_info : M (WorkflowDAO * world) pyval :=
  self <- on_fst get_state ;;
  (if is_none (workflow_info self) then update else ret tt) ;;
  self <- on_fst get_state ;;
  ret (workflow_info self).

Definition is_in_process : M (WorkflowDAO * world) bool :=
  let IN_PROCESS_STATUS_LIST := ["Queued"; "Submitted"; "Running"] in
  info <- get_workflow_info ;;
  status <- lift (subscript info "status") ;;
  ret (in_str_list status IN_PROCESS_STATUS_LIST).

Section DatetimeLibrary.

(** [datetime.fromisoformat] and [datetime.strftime] for any format are
    taken as they come from the library. *)
Variable datetime : Type.
Variable fromisoformat : string -> result datetime.
Variable strftime : datetime -> string -> result string.

Definition get_submission_time (strftime_format_string : option string)
  : M (WorkflowDAO * world) pyval :=
  info <- get_workflow_info ;;
  submission_date <- lift (subscript info "submissionDate") ;;
  match strftime_format_string with
  | Some format =>
      iso_submission_date <- match submission_date with
                             | VStr s => ret (str_replace "Z" "+00:00" s)
                             | _ => raise AttributeError
                             end ;;
      dt <- lift (fromisoformat iso_submission_date) ;;
      formatted <- lift (strftime dt format) ;;
      ret (VStr formatted)
  | None => ret submission_date
  end.

End DatetimeLibrary.

End WorkflowInfo.

(** ** [terra_workflow_scale_test_tools/workflow_status.py] *)

Module WorkflowStatus.
Import Env.
Local Open Scope string_scope.

Record WorkflowDAO : Type := mk_dao {
  terra_deployment_tier : string;
  workspace_namespace : string;
  workspace_name : string;
  wf_submission_id : string;
  firecloud_api_url : string;
  workflow_info : pyval
}.

Definition init (terra_deployment_tier workspace_namespace workspace_name
                 wf_submission_id : string) : WorkflowDAO :=
  mk_dao terra_deployment_tier workspace_namespace workspace_name wf_submission_id
         ("https://firecloud-orchestration.dsde-" ++ str_lower terra_deployment_tier
          ++ ".broadinstitute.org")
         VNone.

Definition set_workflow_info (v : pyval) (self : WorkflowDAO) : WorkflowDAO :=
  mk_dao (terra_deployment_tier self) (workspace_namespace self) (workspace_name self)
         (wf_submission_id self) (firecloud_api_url self) v.

Definition _get_terra_user_token : M world string := google_auth_token.

Definition update : M (WorkflowDAO * world) unit :=
  terra_user_token <- on_snd _get_terra_user_token ;;
  let headers := [("authorization", [Lit "Bearer "; Fmt (VStr terra_user_token)]);
                  ("content-type", [Lit "application/json"])] in
  self <- on_fst get_state ;;
  resp <- on_snd (Requests.get
            (firecloud_api_url self ++ "/api/workspaces/" ++ workspace_namespace self ++ "/"
             ++ workspace_name self ++ "/submissions/" ++ wf_submission_id self)
            headers) ;;
  lift (Requests.raise_for_status resp) ;;
  info <- (if Requests.ok resp then lift (Requests.json resp) else ret VNone) ;;
  on_fst (modify (set_workflow_info info)).

Definition get_workflow_info : M (WorkflowDAO * world) pyval :=
  self <- on_fst get_state ;;
  (if is_none (workflow_info self) then update else ret tt) ;;
  self <- on_fst get_state ;;
  ret (workflow_info self).

Definition get_submission_status : M (WorkflowDAO * world) pyval :=
  info <- get_workflow_info ;;
  lift (subscript info "status").

Definition is_in_process : M (WorkflowDAO * world) bool :=
  let in_process_status_list := ["Queued"; "Submitted"; "Running"] in
  info <- get_workflow_info ;;
  status <- lift (subscript info "status") ;;
  ret (in_str_list status in_process_status_list).

Section DatetimeLibrary.

(** [datetime.fromisoformat] and [datetime.strftime] for any format are
    taken as they come from the library. *)
Variable datetime : Type.
Variable fromisoformat : string -> result datetime.
Variable strftime : datetime -> string -> result string.

Definition get_submission_time (strftime_format_string : option string)
  : M (WorkflowDAO * world) pyval :=
  info <- get_workflow_info ;;
  submission_date <- lift (subscript info "submissionDate") ;;
  match strftime_format_string with
  | Some format =>
      iso_submission_date <- match submission_date with
                             | VStr s => ret (str_replace "Z" "+00:00" s)
                             | _ => raise AttributeError
                             end ;;
      dt <- lift (fromisoformat iso_submission_date) ;;
      formatted <- lift (strftime dt format) ;;
      ret (VStr formatted)
  | None => ret submission_date
  end.

End DatetimeLibrary.

(** An f-string whose value is a [str] stays a list of fragments; inside
    another f-string its fragments are spliced in. *)
Definition get_method_configuration_display_name : M (WorkflowDAO * world) fstring :=
  info <- get_workflow_info ;;
  method_configuration_namespace <- lift (subscript info "methodConfigurationNamespace") ;;
  info <- get_workflow_info ;;
  method_configuration_name <- lift (subscript info "methodConfigurationName") ;;
  ret [Fmt method_configuration_namespace; Lit "/"; Fmt method_configuration_name].

Definition get_submitter : M (WorkflowDAO * world) pyval :=
  info <- get_workflow_info ;;
  lift (subscript info "submitter").

Definition get_submission_id : M (WorkflowDAO * world) pyval :=
  info <- get_workflow_info ;;
  lift (subscript info "submissionId").

Definition get_submission_entity_display_name : M (WorkflowDAO * world) fstring :=
  info <- get_workflow_info ;;
  submission_entity <- lift (subscript info "submissionEntity") ;;
  entity_type <- lift (subscript submission_entity "entityType") ;;
  entity_name <- lift (subscript submission_entity "entityName") ;;
  ret [Fmt entity_type; Lit ":"; Fmt entity_name].

Definition get_use_call_cache : M (WorkflowDAO * world) pyval :=
  info <- get_workflow_info ;;
  lift (subscript info "useCallCache").

Definition get_user_comment : M (WorkflowDAO * world) pyval :=
  info <- get_workflow_info ;;
  lift (subscript info "userComment").

(** [sep.join(parts)] on f-strings. *)
Fixpoint join (sep : string) (parts : list fstring) : fstring :=
  match parts with
  | [] => []
  | [part] => part
  | part :: rest => (part ++ Lit sep :: join sep rest)%list
  end.

Definition newline : string := String "010"%char EmptyString.

Section Summary.

Variable datetime : Type.
Variable fromisoformat : string -> result datetime.
Variable strftime : datetime -> string -> result string.

(** The elements of the list are evaluated in order, before the join. *)
Definition get_workflow_summary_display_string : M (WorkflowDAO * world) fstring :=
  method_configuration <- get_method_configuration_display_name ;;
  submitter <- get_submitter ;;
  submitted <- get_submission_time datetime fromisoformat strftime
                 (Some "%Y/%m/%d %H:%M:%S") ;;
  submission_id <- get_submission_id ;;
  submission_entity <- get_submission_entity_display_name ;;
  use_call_cache <- get_use_call_cache ;;
  status <- get_submission_status ;;
  user_comment <- get_user_comment ;;
  ret (join newline
         [(Lit "Method Configuration: " :: method_configuration)%list;
          [Lit "Submitter: "; Fmt submitter];
          [Lit "Submitted: "; Fmt submitted; Lit " UTC"];
          [Lit "Submission Id: "; Fmt submission_id];
          (Lit "Submission Entity: " :: submission_entity)%list;
          [Lit "Use Call Cache: "; Fmt use_call_cache];
          [Lit "Submission Status: "; Fmt status];
          [Lit "User Comment: "; Fmt user_comment]]).

End Summary.

Definition sleep_seconds : Z := 30.

(** [wait_for_workflow_to_complete]: the [while] loop, run for at most
    [fuel] tests of its condition.  [Some tt] is the function's return,
    [None] a loop that is still running when the fuel is spent. *)
Fixpoint wait_for_workflow_to_complete (fuel : nat) : M (WorkflowDAO * world) (option unit) :=
  match fuel with
  | O => ret None
  | S fuel' =>
      in_process <- is_in_process ;;
      if in_process then
        status <- get_submission_status ;;
        on_snd (print [Lit "Submission status: "; Fmt status]) ;;
        on_snd (print [Lit "Sleeping for "; Fmt (VInt sleep_seconds); Lit " seconds ..."]) ;;
        on_snd (time_sleep sleep_seconds) ;;
        on_snd (print [Lit "Getting current submission status ... "]) ;;
        update ;;
        wait_for_workflow_to_complete fuel'
      else
        status <- get_submission_status ;;
        on_snd (print [Lit "Final Submission status: "; Fmt status]) ;;
        ret (Some tt)
  end.

End WorkflowStatus.

(* ================================================================== *)
(** * Vocabulary of the statements *)
(* ================================================================== *)

Import Env.

(** Unfolds the monad and the primitive actions of the environment. *)
Ltac unfold_monad :=
  unfold py_assert, bind, ret, raise, lift, modify, get_state, try_except,
    on_snd, on_fst in *.

Ltac unfold_env :=
  unfold Requests.get, Requests.post, send, time_time, time_sleep, google_auth_token,
    logger_debug, logger_warning, print, path_exists, open_append, append_row in *.

(** Whether the character [c] occurs in [s]. *)
Fixpoint occurs (c : ascii) (s : string) : bool :=
  match s with
  | EmptyString => false
  | String c' s' => Ascii.eqb c' c || occurs c s'
  end.

(** Whether the access method's type is the scheme. *)
Definition has_type (cloud_uri_scheme : string) (access_method : pyval) : bool :=
  match subscript access_method "type" with
  | inr ty => eq_str ty cloud_uri_scheme
  | inl _ => false
  end.

(** The access method carries a type, and it is not the scheme. *)
Definition other_type (cloud_uri_scheme : string) (access_method : pyval) : Prop :=
  exists ty, subscript access_method "type" = inr ty /\
             eq_str ty cloud_uri_scheme = false.

(** The in-process statuses, as the specification names them. *)
Definition in_process_status (status : pyval) : Prop :=
  status = VStr "Queued" \/ status = VStr "Submitted" \/ status = VStr "Running".

(** ** Inputs of the examples *)

(** A fresh world: the clock reads [now n] at its [n]-th reading, the
    credential provider always issues "token", and the [n]-th request gets
    [answer n]. *)
Definition example_world (now : nat -> float)
           (answer : nat -> request -> result response) : world :=
  mk_world now 0 (fun _ => inr "token") 0 answer [] [] [] [] [] "20240101_120000".

(** A clock for the examples: it reads 2023-11-14 22:13:20 UTC first and
    advances by a quarter of a second at each of the next readings, up to
    the fourth. *)
Definition example_clock : nat -> float :=
  fun n =>
    match n with
    | 0%nat => 1700000000%float
    | 1%nat => 1700000000.25%float
    | 2%nat => 1700000000.5%float
    | 3%nat => 1700000000.75%float
    | _ => 1700000001%float
    end.

(** A server that gives every request the same response. *)
Definition always (resp : response) : nat -> request -> result response :=
  fun _ _ => inr resp.

(** The DAO of the package's [__main__], before its first fetch. *)
Definition example_dao : WorkflowStatus.WorkflowDAO :=
  WorkflowStatus.init "ALPHA" "drs-billing-project"
    "DRS Data Access Scale Testing - Alpha" "32f74aa9-7779-4d28-aec7-641d26307beb".

(** The same DAO holding a fetched snapshot. *)
Definition example_dao_with (snapshot : pyval) : WorkflowStatus.WorkflowDAO :=
  WorkflowStatus.set_workflow_info snapshot example_dao.

(** The submission endpoint answering 200 with the given JSON body. *)
Definition ok_response (body : pyval) : response :=
  mk_response 200 "OK"
    "https://firecloud-orchestration.dsde-alpha.broadinstitute.org/api/workspaces/drs-billing-project/DRS%20Data%20Access%20Scale%20Testing%20-%20Alpha/submissions/32f74aa9-7779-4d28-aec7-641d26307beb"
    (Some body).

(** The DAO of the script, holding a fetched snapshot. *)
Definition example_script_dao_with (snapshot : pyval) : WorkflowInfo.WorkflowDAO :=
  WorkflowInfo.set_workflow_info snapshot
    (WorkflowInfo.init "drs-billing-project" "DRS Data Access Scale Testing - Alpha"
       "32f74aa9-7779-4d28-aec7-641d26307beb").

(** What both [get_submission_time] compute from a stored snapshot. *)
Definition submission_time_of {datetime : Type}
           (fromisoformat : string -> result datetime)
           (strftime : datetime -> string -> result string)
           (snapshot : pyval) (strftime_format_string : option string)
  : result pyval :=
  match subscript snapshot "submissionDate" with
  | inl e => inl e
  | inr submission_date =>
      match strftime_format_string with
      | None => inr submission_date
      | Some format =>
          match submission_date with
          | VStr s =>
              match fromisoformat (str_replace "Z" "+00:00" s) with
              | inl e => inl e
              | inr dt => match strftime dt format with
                          | inl e => inl e
                          | inr formatted => inr (VStr formatted)
                          end
              end
          | _ => inl AttributeError
          end
      end
  end.


(** The request [update] sends for a DAO of the package. *)
Definition submission_request (self : WorkflowStatus.WorkflowDAO) (terra_user_token : string)
  : request :=
  mk_request GET
    (WorkflowStatus.firecloud_api_url self ++ "/api/workspaces/"
     ++ WorkflowStatus.workspace_namespace self ++ "/"
     ++ WorkflowStatus.workspace_name self ++ "/submissions/"
     ++ WorkflowStatus.wf_submission_id self)%string
    [("authorization", [Lit "Bearer "; Fmt (VStr terra_user_token)]);
     ("content-type", [Lit "application/json"])]
    None.

(** The world in which the loop of [wait_for_workflow_to_complete] calls
    [update], one iteration after it found [status] in process in [w]. *)
Definition world_before_update (status : pyval) (w : world) : world :=
  let w1 := set_stdout (stdout w ++ [[Lit "Submission status: "; Fmt status]]) w in
  let w2 := set_stdout (stdout w1 ++ [[Lit "Sleeping for "; Fmt (VInt 30);
                                       Lit " seconds ..."]]) w1 in
  let w3 := set_slept (slept w2 ++ [30]) w2 in
  set_stdout (stdout w3 ++ [[Lit "Getting current submission status ... "]]) w3.

(** The monitoring info of a probe that starts in [w] and gets [resp]:
    the clock is read once before the request and once after it. *)
Definition probe_record (w : world) (resp : response) : dict pyval :=
  let start_time := clock w (clock_reads w) in
  let end_time := clock w (S (clock_reads w)) in
  [("start_time", VFloat start_time);
   ("response_duration", VFloat (PyFloat.round3 (PrimFloat.sub end_time start_time)));
   ("response_code", VInt (status_code resp));
   ("response_reason", VStr (reason resp))].

(** A probe call returned a null body together with the record of [resp]. *)
Definition null_body_with_record (w : world) (resp : response)
           (outcome : result (pyval * dict pyval) * world) : Prop :=
  fst outcome = inr (VNone, probe_record w resp) /\
  dict_get (probe_record w resp) "response_code" = Some (VInt (status_code resp)) /\
  dict_get (probe_record w resp) "response_reason" = Some (VStr (reason resp)).

(** The URI a lookup works on is a DRS URI. *)
Definition is_drs_uri (drs_uri : option string) : Prop :=
  match drs_uri with
  | Some u => str_startswith u "drs://" = true
  | None => True
  end.

(** The hops of the DRS flow, in the order of its steps. *)
Definition drs_flow_hops : list string :=
  ["indexd_get_metadata"; "bond_get_access_token"; "bond_get_sa_key";
   "fence_get_signed_url"].

(** The fixed UTC display of a timestamp, as the specification words it:
    the date and time of [t] in UTC, printed as "%Y/%m/%d %H:%M:%S". *)
Definition utc_display (t : float) : result string :=
  match Datetime.fromtimestamp_utc t with
  | inl e => inl e
  | inr dt => inr (Datetime.strftime_Ymd_HMS_slashes dt)
  end.

(** The monitoring info of a metadata lookup that started at
    2023-11-14 22:13:20 UTC and took a quarter of a second. *)
Definition example_hop_info : dict pyval :=
  [("start_time", VFloat 1700000000%float);
   ("response_duration", VFloat 0.25%float);
   ("response_code", VInt 200);
   ("response_reason", VStr "OK")].


(** ** The columns of the csv file *)

(** The hop of a column "hop.field": the text before the last '.'. *)
Definition hop_of_column (column : string) : string :=
  String.concat "." (removelast (str_split "." column)).

(** A list without its repetitions of the element just before. *)
Fixpoint dedup_adjacent (l : list string) : list string :=
  match l with
  | [] => []
  | x :: rest =>
      match rest with
      | [] => [x]
      | y :: _ => if String.eqb x y then dedup_adjacent rest else x :: dedup_adjacent rest
      end
  end.

(** The hops in the order in which the columns show them. *)
Definition hop_order (columns : list string) : list string :=
  dedup_adjacent (map hop_of_column columns).

(** The texts of a header row. *)
Definition header_columns (row : csv_row) : list string :=
  flat_map (fun v => match v with VStr s => [s] | _ => [] end) row.

(** The keys "hop.field" of the flattened row, as the specification
    names them: for each hop, one per recorded field it holds. *)
Definition flat_keys (monitoring_info_dict : dict (dict pyval)) : list string :=
  flat_map (fun hop =>
              map (fun metric => (fst hop ++ "." ++ metric)%string)
                  (filter (fun metric => Monitor.str_in metric Monitor.recorded_metrics)
                          (dict_keys (snd hop))))
           monitoring_info_dict.

(** The name of the csv file of a run. *)
Definition csv_filename (output_file_basename : string) (w : world) : string :=
  (output_file_basename ++ "_" ++ run_date_time_stamp w ++ ".csv")%string.

(** The cells of a row under the given columns. *)
Definition data_row (fieldnames : list string) (row_info : dict pyval) : csv_row :=
  map (fun key => match dict_get row_info key with
                  | Some v => v
                  | None => VStr ""
                  end) fieldnames.

(** Ascending order of strs. *)
Definition str_le (a b : string) : Prop := String.leb a b = true.

(** A flow result of two hops, the metadata lookup recorded first. *)
Definition example_flow_result : dict (dict pyval) :=
  [("indexd_get_metadata", example_hop_info);
   ("bond_get_access_token",
    [("start_time", VFloat 1700000000.25%float);
     ("response_duration", VFloat 0.5%float);
     ("response_code", VInt 401);
     ("response_reason", VStr "Unauthorized")])].

(** ** Decoding the body of a response *)

(** [resp.json().get(key)] *)
Definition decoded_field (resp : response) (key : string) : result pyval :=
  match json_body resp with
  | None => inl JSONDecodeError
  | Some (VDict fields) =>
      inr (match dict_get fields key with Some v => v | None => VNone end)
  | Some _ => inl AttributeError
  end.

(** [resp.json()] *)
Definition decoded_body (resp : response) : result pyval :=
  match json_body resp with
  | None => inl JSONDecodeError
  | Some body => inr body
  end.

(** The value a probe returns for a decoded body: the body with the
    record of the response, or the exception of the decoding. *)
Definition with_record (decoded : result pyval) (w : world) (resp : response)
  : result (pyval * dict pyval) :=
  match decoded with
  | inl e => inl e
  | inr v => inr (v, probe_record w resp)
  end.

(** A server for the DRS flow that answers every request 200 with a body
    that holds a token, a key and a URL. *)
Definition all_ok : nat -> request -> result response :=
  fun _ rq =>
    inr (mk_response 200 "OK" (url rq)
           (Some (VDict [("token", VStr "fence-token");
                         ("data", VDict []);
                         ("url", VStr "https://storage.example.org/signed")]))).

(** ** Counting the polls *)

(** Between [w] and [w'], [n] tokens were acquired and [n] requests sent. *)
Definition polled (w w' : world) (n : nat) : Prop :=
  credential_calls w' = (credential_calls w + n)%nat /\
  List.length (sent w') = (List.length (sent w) + n)%nat.

(** ** The values of a flattened row *)

(** Whether flattening stores the value of [metric] as it is: every value
    but a [float] start time, which is replaced by a display string. *)
Definition kept_as_is (metric : string) (value : pyval) : bool :=
  negb (String.eqb metric "start_time" &&
        match value with VFloat _ => true | _ => false end).

(** What the row holds under [key] for the [value] of [metric]. *)
Definition flattened_entry (row_info : dict pyval) (key metric : string)
           (value : pyval) : Prop :=
  if kept_as_is metric value then dict_get row_info key = Some value
  else exists s, dict_get row_info key = Some (VStr s).

(** ** Getters of the snapshot *)

(** [m] reads the snapshot.  With a snapshot stored it leaves the DAO and
    the world as they are.  With none stored it does what [update] does
    and then what it does on the DAO that [update] leaves: it raises the
    exception of [update]; it raises [TypeError] when the fetched body is
    the JSON null; otherwise it goes on as on the fetched snapshot. *)
Definition snapshot_reader {A} (m : M (WorkflowStatus.WorkflowDAO * world) A) : Prop :=
  forall self w,
    (WorkflowStatus.workflow_info self <> VNone -> snd (m (self, w)) = (self, w)) /\
    (WorkflowStatus.workflow_info self = VNone ->
     match WorkflowStatus.update (self, w) with
     | (inl e, s) => m (self, w) = (inl e, s)
     | (inr _, (self', w')) =>
         (WorkflowStatus.workflow_info self' = VNone ->
          m (self, w) = (inl TypeError, (self', w'))) /\
         (WorkflowStatus.workflow_info self' <> VNone -> m (self, w) = m (self', w'))
     end).

(** The fields of the snapshot that the summary reads. *)
Definition summary_fields : list string :=
  ["methodConfigurationNamespace"; "methodConfigurationName"; "submitter";
   "submissionDate"; "submissionId"; "submissionEntity"; "useCallCache"; "status";
   "userComment"].

(** [m] only reads a stored snapshot: it leaves the DAO and the world as
    they are when a snapshot is stored. *)
Definition reads_only {A} (m : M (WorkflowStatus.WorkflowDAO * world) A) : Prop :=
  forall self w,
    WorkflowStatus.workflow_info self <> VNone -> snd (m (self, w)) = (self, w).

(* ================================================================== *)
(** * Theorems *)
(* ================================================================== *)

(* ================================================================== *)
(** * Strings: splitting at a character *)
(* ================================================================== *)

Lemma str_split_not_nil (sep : ascii) (s : string) : str_split sep s <> [].
Proof.
  destruct s as [|c s]; simpl; [discriminate|].
  destruct (Ascii.eqb c sep); [discriminate|].
  destruct (str_split sep s); discriminate.
Qed.

(** Without the separator the string is the only piece. *)
Lemma str_split_no_sep (sep : ascii) (s : string) :
  occurs sep s = false -> str_split sep s = [s].
Proof.
  induction s as [|c s IH]; simpl; intros H; [reflexivity|].
  apply orb_false_iff in H as [Hc Hs].
  rewrite Hc, (IH Hs). reflexivity.
Qed.

(** A split into one piece found no separator. *)
Lemma str_split_single (sep : ascii) (s w : string) :
  str_split sep s = [w] -> occurs sep s = false.
Proof.
  revert w. induction s as [|c s IH]; simpl; intros w H; [reflexivity|].
  pose proof (str_split_not_nil sep s) as Hne.
  destruct (Ascii.eqb c sep); simpl.
  - destruct (str_split sep s); [congruence | discriminate].
  - destruct (str_split sep s) as [|w' ws] eqn:E; [congruence|].
    injection H as _ ->. exact (IH w' eq_refl).
Qed.

Lemma occurs_after_sep (sep : ascii) (before after : string) :
  occurs sep (before ++ String sep after)%string = true.
Proof.
  induction before as [|c b IH]; simpl.
  - rewrite Ascii.eqb_refl. reflexivity.
  - rewrite IH. apply orb_true_r.
Qed.

(** The last piece of a split: the whole string when the separator does
    not occur, and otherwise what follows its last occurrence. *)
Lemma index_last_str_split (sep : ascii) (s : string) :
  (occurs sep s = false /\ index_last (str_split sep s) = inr s) \/
  (exists before after,
      s = (before ++ String sep after)%string /\
      occurs sep after = false /\
      index_last (str_split sep s) = inr after).
Proof.
  induction s as [|c s IH]; simpl.
  - left. split; reflexivity.
  - destruct (Ascii.eqb c sep) eqn:Hc; simpl.
    + apply Ascii.eqb_eq in Hc. subst c. right.
      destruct IH as [[Hno Hlast] | (before & after & Hs & Hno & Hlast)].
      * exists EmptyString, s. simpl. repeat split; trivial.
        rewrite (str_split_no_sep _ _ Hno). reflexivity.
      * exists (String sep before), after. simpl. rewrite <- Hs.
        repeat split; trivial.
        destruct (str_split sep s) eqn:E; [discriminate Hlast | exact Hlast].
    + pose proof (str_split_not_nil sep s) as Hne.
      destruct (str_split sep s) as [|w ws] eqn:E; [congruence|].
      destruct IH as [[Hno Hlast] | (before & after & Hs & Hno & Hlast)].
      * left. split; trivial.
        rewrite (str_split_no_sep _ _ Hno) in E. injection E as <- <-. reflexivity.
      * right. exists (String c before), after. simpl. rewrite <- Hs.
        repeat split; trivial.
        destruct ws as [|w' ws']; [|exact Hlast].
        (* a single piece would mean that the separator does not occur *)
        apply str_split_single in E.
        rewrite Hs, occurs_after_sep in E. discriminate.
Qed.

(* ================================================================== *)
(** * The DRS object id *)
(* ================================================================== *)

(** A URI that starts with "drs://" holds a colon. *)
Lemma drs_prefix_has_colon (drs_uri : string) :
  str_startswith drs_uri "drs://" = true -> occurs ":" drs_uri = true.
Proof.
  unfold str_startswith. intros H. apply String.prefix_correct in H.
  destruct drs_uri as [|c1 [|c2 [|c3 [|c4 s]]]]; try discriminate H.
  cbn in H. injection H as _ _ _ -> _. cbn.
  rewrite !orb_true_r. reflexivity.
Qed.

Lemma object_id_of_drs_uri (drs_uri : string) :
  str_startswith drs_uri "drs://" = true ->
  exists before object_id,
    drs_uri = (before ++ ":" ++ object_id)%string /\
    occurs ":" object_id = false /\
    Monitor.object_id_of drs_uri = inr object_id.
Proof.
  intros Hpre. apply drs_prefix_has_colon in Hpre.
  unfold Monitor.object_id_of.
  destruct (index_last_str_split ":" drs_uri)
    as [[Hno _] | (before & after & Hs & Hno & Hlast)].
  - congruence.
  - exists before, after. auto.
Qed.

(** The request of the metadata lookup names the object id. *)
Lemma drs_resolution_request (drs_uri object_id : string) (w : world) :
  str_startswith drs_uri "drs://" = true ->
  Monitor.object_id_of drs_uri = inr object_id ->
  sent (snd (Monitor.get_gen3_drs_resolution (Some drs_uri) w)) =
  sent w ++ [mk_request GET
               ("https://staging.gen3.biodatacatalyst.nhlbi.nih.gov/ga4gh/drs/v1/objects/"
                ++ object_id)%string
               [("content-type", [Lit "application/json"])] None].
Proof.
  intros Hpre Hid. unfold Monitor.get_gen3_drs_resolution.
  rewrite Hpre, Hid. unfold Monitor.log_request_url, Monitor.monitoring_info.
  unfold_monad. unfold_env. simpl.
  destruct (server w _ _) as [e|resp]; simpl; [reflexivity|].
  destruct (Requests.ok resp); simpl; [|reflexivity].
  destruct (Requests.json resp); reflexivity.
Qed.

(** The request of the signed-URL lookup names the object id. *)
Lemma drs_access_request (token : pyval) (drs_uri object_id access_id : string) (w : world) :
  str_startswith drs_uri "drs://" = true ->
  Monitor.object_id_of drs_uri = inr object_id ->
  sent (snd (Monitor.get_gen3_drs_access token (Some drs_uri) access_id w)) =
  sent w ++ [mk_request GET
               ("https://staging.gen3.biodatacatalyst.nhlbi.nih.gov/ga4gh/drs/v1/objects/"
                ++ object_id ++ "/access/" ++ access_id)%string
               (Monitor.bearer_headers token) None].
Proof.
  intros Hpre Hid. unfold Monitor.get_gen3_drs_access.
  rewrite Hpre, Hid. unfold Monitor.log_request_url, Monitor.monitoring_info.
  unfold_monad. unfold_env. simpl.
  destruct (server w _ _) as [e|resp]; simpl; [reflexivity|].
  destruct (Requests.ok resp); simpl; [|reflexivity].
  destruct (Requests.json resp) as [e|body]; simpl; [reflexivity|].
  destruct (method_get body "url"); reflexivity.
Qed.

(** C5.  For a URI that starts with "drs://", the object id of the two
    data-index lookups is the part of the URI after its last colon: the
    URI is [before ++ ":" ++ object_id] with no colon in [object_id], and
    both requests name that [object_id] in their URL.  For the URI
    drs://dg.712C:dg.712C/fa640b0e-9779-452f-99a6-16d833d15bd0 it is
    dg.712C/fa640b0e-9779-452f-99a6-16d833d15bd0. *)
Theorem C5_object_id_after_last_colon :
  (forall drs_uri : string,
      str_startswith drs_uri "drs://" = true ->
      exists before object_id,
        drs_uri = (before ++ ":" ++ object_id)%string /\
        occurs ":" object_id = false /\
        Monitor.object_id_of drs_uri = inr object_id /\
        (forall w,
            map url (sent (snd (Monitor.get_gen3_drs_resolution (Some drs_uri) w))) =
            map url (sent w) ++
            [("https://staging.gen3.biodatacatalyst.nhlbi.nih.gov/ga4gh/drs/v1/objects/"
              ++ object_id)%string]) /\
        (forall token access_id w,
            map url (sent (snd (Monitor.get_gen3_drs_access token (Some drs_uri) access_id w))) =
            map url (sent w) ++
            [("https://staging.gen3.biodatacatalyst.nhlbi.nih.gov/ga4gh/drs/v1/objects/"
              ++ object_id ++ "/access/" ++ access_id)%string])) /\
  Monitor.object_id_of "drs://dg.712C:dg.712C/fa640b0e-9779-452f-99a6-16d833d15bd0"
  = inr "dg.712C/fa640b0e-9779-452f-99a6-16d833d15bd0".
Proof.
  split; [|reflexivity].
  intros drs_uri Hpre.
  destruct (object_id_of_drs_uri drs_uri Hpre) as (before & object_id & Hs & Hno & Hid).
  exists before, object_id. repeat split; trivial.
  - intros w. rewrite (drs_resolution_request _ _ w Hpre Hid), map_app. reflexivity.
  - intros token access_id w.
    rewrite (drs_access_request token _ _ access_id w Hpre Hid), map_app. reflexivity.
Qed.

(** C5 at the public URI of the staging deployment. *)
Lemma C5_witness :
  str_startswith "drs://dg.712C:dg.712C/fa640b0e-9779-452f-99a6-16d833d15bd0" "drs://" = true /\
  exists before object_id,
    "drs://dg.712C:dg.712C/fa640b0e-9779-452f-99a6-16d833d15bd0"
    = (before ++ ":" ++ object_id)%string /\
    occurs ":" object_id = false /\
    Monitor.object_id_of "drs://dg.712C:dg.712C/fa640b0e-9779-452f-99a6-16d833d15bd0"
    = inr object_id.
Proof.
  split; [reflexivity|].
  destruct (proj1 C5_object_id_after_last_colon
              "drs://dg.712C:dg.712C/fa640b0e-9779-452f-99a6-16d833d15bd0" eq_refl)
    as (before & object_id & Hs & Hno & Hid & _).
  exists before, object_id. auto.
Defined.

(* ================================================================== *)
(** * Selecting an access method *)
(* ================================================================== *)

(** The scan passes over the access methods of another type. *)
Lemma first_access_id_skips (before rest : list pyval) (cloud_uri_scheme : string) :
  (forall am, In am before -> other_type cloud_uri_scheme am) ->
  Monitor.first_access_id (before ++ rest) cloud_uri_scheme =
  Monitor.first_access_id rest cloud_uri_scheme.
Proof.
  induction before as [|am before IH]; intros Hbefore; [reflexivity|].
  destruct (Hbefore am (or_introl eq_refl)) as (ty & Hty & Hne).
  cbn [app Monitor.first_access_id]. rewrite Hty, Hne.
  apply IH. intros am' Hin. apply Hbefore. right. exact Hin.
Qed.

(** Every list is of another type throughout, or has a first access
    method that has the type of the scheme or no type at all. *)
Lemma first_reached_access_method (access_methods : list pyval) (cloud_uri_scheme : string) :
  (forall am, In am access_methods -> other_type cloud_uri_scheme am) \/
  (exists before am after,
      access_methods = before ++ am :: after /\
      (forall am', In am' before -> other_type cloud_uri_scheme am') /\
      (has_type cloud_uri_scheme am = true \/ exists e, subscript am "type" = inl e)).
Proof.
  induction access_methods as [|am rest IH].
  - left. intros am [].
  - destruct (subscript am "type") as [e | ty] eqn:Hty.
    + right. exists [], am, rest. split; [reflexivity|]. split; [intros am' []|].
      right. exists e. exact Hty.
    + destruct (eq_str ty cloud_uri_scheme) eqn:Heq.
      * right. exists [], am, rest. split; [reflexivity|]. split; [intros am' []|].
        left. unfold has_type. rewrite Hty. exact Heq.
      * assert (Ham : other_type cloud_uri_scheme am) by (exists ty; split; assumption).
        destruct IH as [Hall | (before & am0 & after & -> & Hbefore & Hreached)].
        -- left. intros am' [<- | Hin]; [exact Ham | exact (Hall am' Hin)].
        -- right. exists (am :: before), am0, after. split; [reflexivity|].
           split; [|exact Hreached].
           intros am' [<- | Hin]; [exact Ham | exact (Hbefore am' Hin)].
Qed.

(** C6, as stated, fails on the code in two ways.  An access method of
    the scheme that gives an [access_url] and no [access_id] makes the
    selection raise [KeyError], so that no access id is returned for the
    first method of that type.  And on a list in which no access method
    has the type "az" but the first one carries no type, the selection
    for "az" raises [KeyError] instead of returning [None]. *)
Lemma C6_counterexample :
  let url_only := VDict [("type", VStr "gs");
                         ("access_url", VDict [("url", VStr "gs://bucket/object")])] in
  let untyped := VDict [("access_id", VStr "Y")] in
  let gs := VDict [("type", VStr "gs"); ("access_id", VStr "X")] in
  has_type "gs" url_only = true /\
  Monitor._get_drs_access_id (VDict [("access_methods", VList [url_only])]) "gs"
  = inl (KeyError "access_id") /\
  forallb (fun am => negb (has_type "az" am)) [untyped; gs] = true /\
  Monitor._get_drs_access_id (VDict [("access_methods", VList [untyped; gs])]) "az"
  = inl (KeyError "type").
Proof. vm_compute. repeat split. Qed.

(** C6, amended.  [_get_drs_access_id] scans the access methods in their
    order and stops at the first one that has the type of the scheme or
    that has no type to read.  When the methods before it carry another
    type: a method of the type of the scheme gives the result of
    [access_method['access_id']], its [access_id] entry or a [KeyError]
    when it has none; a method without a type gives the exception of
    [access_method['type']]; the methods after it are not looked at.
    When every access method carries another type the result is [None],
    without raising.  Every list is in one of these cases.  The list
    [{type:"s3",...}, {type:"gs", access_id:"X"}] gives "X" for "gs" and
    [None] for "az", whatever else the entries hold. *)
Theorem C6_first_reached_access_method :
  (forall (drs_response : pyval) (access_methods : list pyval) (cloud_uri_scheme : string),
      subscript drs_response "access_methods" = inr (VList access_methods) ->
      let result := Monitor._get_drs_access_id drs_response cloud_uri_scheme in
      (forall before am after,
          access_methods = before ++ am :: after ->
          (forall am', In am' before -> other_type cloud_uri_scheme am') ->
          (has_type cloud_uri_scheme am = true -> result = subscript am "access_id") /\
          (forall e, subscript am "type" = inl e -> result = inl e)) /\
      ((forall am, In am access_methods -> other_type cloud_uri_scheme am) ->
       result = inr VNone) /\
      ((forall am, In am access_methods -> other_type cloud_uri_scheme am) \/
       (exists before am after,
           access_methods = before ++ am :: after /\
           (forall am', In am' before -> other_type cloud_uri_scheme am') /\
           (has_type cloud_uri_scheme am = true \/ exists e, subscript am "type" = inl e)))) /\
  (forall s3_fields gs_fields other_fields : dict pyval,
      let drs_response :=
        VDict (("access_methods",
                VList [VDict (("type", VStr "s3") :: s3_fields);
                       VDict (("type", VStr "gs") :: ("access_id", VStr "X") :: gs_fields)])
               :: other_fields) in
      Monitor._get_drs_access_id drs_response "gs" = inr (VStr "X") /\
      Monitor._get_drs_access_id drs_response "az" = inr VNone).
Proof.
  split.
  - intros drs_response access_methods cloud_uri_scheme Hams result.
    assert (Hresult : result = Monitor.first_access_id access_methods cloud_uri_scheme).
    { subst result. unfold Monitor._get_drs_access_id. rewrite Hams. reflexivity. }
    rewrite Hresult. clear Hresult result Hams. split; [|split].
    + intros before am after -> Hbefore.
      rewrite (first_access_id_skips before (am :: after) cloud_uri_scheme Hbefore).
      cbn [Monitor.first_access_id]. split.
      * unfold has_type. intros Hmatch.
        destruct (subscript am "type") as [e | ty]; [discriminate Hmatch|].
        rewrite Hmatch. reflexivity.
      * intros e He. rewrite He. reflexivity.
    + intros Hall.
      rewrite <- (app_nil_r access_methods).
      rewrite (first_access_id_skips access_methods [] cloud_uri_scheme Hall).
      reflexivity.
    + apply first_reached_access_method.
  - intros s3_fields gs_fields other_fields. split; reflexivity.
Qed.

(** C6 amended, at the list of the example and at a list whose access
    method of the scheme gives a URL and no access id. *)
Lemma C6_witness :
  let s3 := VDict [("type", VStr "s3"); ("access_id", VStr "Y")] in
  let gs := VDict [("type", VStr "gs"); ("access_id", VStr "X")] in
  let url_only := VDict [("type", VStr "gs");
                         ("access_url", VDict [("url", VStr "gs://bucket/object")])] in
  Monitor._get_drs_access_id (VDict [("access_methods", VList [s3; gs])]) "gs"
  = inr (VStr "X") /\
  Monitor._get_drs_access_id (VDict [("access_methods", VList [s3; gs])]) "az"
  = inr VNone /\
  Monitor._get_drs_access_id (VDict [("access_methods", VList [s3; url_only; gs])]) "gs"
  = inl (KeyError "access_id").
Proof.
  intros s3 gs url_only.
  assert (Hgs : forall am, In am [s3] -> other_type "gs" am)
    by (intros am [<- | []]; exists (VStr "s3"); split; reflexivity).
  assert (Haz : forall am, In am [s3; gs] -> other_type "az" am).
  { intros am [<- | [<- | []]];
      [exists (VStr "s3") | exists (VStr "gs")]; split; reflexivity. }
  split; [|split].
  - exact (proj1 (proj1 (proj1 C6_first_reached_access_method
                           (VDict [("access_methods", VList [s3; gs])]) [s3; gs] "gs"
                           eq_refl)
                    [s3] gs [] eq_refl Hgs) eq_refl).
  - exact (proj1 (proj2 (proj1 C6_first_reached_access_method
                           (VDict [("access_methods", VList [s3; gs])]) [s3; gs] "az"
                           eq_refl)) Haz).
  - exact (proj1 (proj1 (proj1 C6_first_reached_access_method
                           (VDict [("access_methods", VList [s3; url_only; gs])])
                           [s3; url_only; gs] "gs" eq_refl)
                    [s3] url_only [gs] eq_refl Hgs) eq_refl).
Defined.

(* ================================================================== *)
(** * The workflow status poller *)
(* ================================================================== *)

Lemma is_none_false (v : pyval) : v <> VNone -> is_none v = false.
Proof. destruct v; simpl; congruence. Qed.

Lemma eq_str_true (v : pyval) (s : string) : eq_str v s = true <-> v = VStr s.
Proof.
  destruct v; simpl; split; try discriminate.
  - intros H. apply String.eqb_eq in H. congruence.
  - intros [= ->]. apply String.eqb_refl.
Qed.

Lemma in_process_statuses_spec (status : pyval) :
  in_str_list status ["Queued"; "Submitted"; "Running"] = true <-> in_process_status status.
Proof.
  unfold in_str_list, in_process_status. cbn [existsb].
  rewrite !orb_true_iff, !eq_str_true. intuition discriminate.
Qed.

(** With a snapshot stored, [get_workflow_info] hands it out and touches
    nothing. *)
Lemma get_workflow_info_stored (self : WorkflowStatus.WorkflowDAO) (w : world) :
  WorkflowStatus.workflow_info self <> VNone ->
  WorkflowStatus.get_workflow_info (self, w) =
  (inr (WorkflowStatus.workflow_info self), (self, w)).
Proof.
  intros H. unfold WorkflowStatus.get_workflow_info. unfold_monad. cbn.
  rewrite (is_none_false _ H). reflexivity.
Qed.

Lemma is_in_process_stored (self : WorkflowStatus.WorkflowDAO) (w : world) :
  WorkflowStatus.workflow_info self <> VNone ->
  WorkflowStatus.is_in_process (self, w) =
  (match subscript (WorkflowStatus.workflow_info self) "status" with
   | inl e => inl e
   | inr status => inr (in_str_list status ["Queued"; "Submitted"; "Running"])
   end, (self, w)).
Proof.
  intros H. unfold WorkflowStatus.is_in_process, bind at 1.
  rewrite (get_workflow_info_stored self w H). unfold_monad.
  destruct (subscript _ _); reflexivity.
Qed.

Lemma get_submission_status_stored (self : WorkflowStatus.WorkflowDAO) (w : world) :
  WorkflowStatus.workflow_info self <> VNone ->
  WorkflowStatus.get_submission_status (self, w) =
  (subscript (WorkflowStatus.workflow_info self) "status", (self, w)).
Proof.
  intros H. unfold WorkflowStatus.get_submission_status, bind.
  rewrite (get_workflow_info_stored self w H). reflexivity.
Qed.

Lemma subscript_not_none (v x : pyval) (k : string) : subscript v k = inr x -> v <> VNone.
Proof. intros H ->. discriminate H. Qed.

(** C7.  On a fetched snapshot with a status field, [is_in_process]
    returns true exactly when the status is the string "Queued",
    "Submitted" or "Running", and false for any other value; on a false
    answer [wait_for_workflow_to_complete] prints the final status and
    returns, without a further request. *)
Theorem C7_is_in_process_iff
        (self : WorkflowStatus.WorkflowDAO) (w : world) (status : pyval) :
  subscript (WorkflowStatus.workflow_info self) "status" = inr status ->
  exists in_process : bool,
    WorkflowStatus.is_in_process (self, w) = (inr in_process, (self, w)) /\
    (in_process = true <-> in_process_status status) /\
    (in_process = false ->
     forall fuel,
       WorkflowStatus.wait_for_workflow_to_complete (S fuel) (self, w) =
       (inr (Some tt),
        (self, set_stdout (stdout w ++ [[Lit "Final Submission status: "; Fmt status]]) w))).
Proof.
  intros Hst. pose proof (subscript_not_none _ _ _ Hst) as Hsome.
  exists (in_str_list status ["Queued"; "Submitted"; "Running"]).
  assert (Hin : WorkflowStatus.is_in_process (self, w) =
                (inr (in_str_list status ["Queued"; "Submitted"; "Running"]), (self, w))).
  { rewrite (is_in_process_stored self w Hsome), Hst. reflexivity. }
  split; [exact Hin|]. split; [apply in_process_statuses_spec|].
  intros Hfalse fuel. cbn [WorkflowStatus.wait_for_workflow_to_complete].
  unfold bind at 1. rewrite Hin, Hfalse.
  unfold bind at 1. rewrite (get_submission_status_stored self w Hsome), Hst.
  reflexivity.
Qed.

(** C7 on the snapshot [{"status": "Succeeded"}]: the answer is false and
    the loop prints the final status and returns. *)
Lemma C7_witness :
  let self := example_dao_with (VDict [("status", VStr "Succeeded")]) in
  let w := example_world (fun _ => 0%float) (fun _ _ => inl RequestException) in
  subscript (WorkflowStatus.workflow_info self) "status" = inr (VStr "Succeeded") /\
  WorkflowStatus.is_in_process (self, w) = (inr false, (self, w)) /\
  WorkflowStatus.wait_for_workflow_to_complete 1 (self, w) =
  (inr (Some tt),
   (self, set_stdout [[Lit "Final Submission status: "; Fmt (VStr "Succeeded")]] w)).
Proof.
  intros self w.
  destruct (C7_is_in_process_iff self w (VStr "Succeeded") eq_refl)
    as (in_process & Hin & Hiff & Hloop).
  assert (Hfalse : in_process = false).
  { destruct in_process; [|reflexivity].
    destruct (proj1 Hiff eq_refl) as [H | [H | H]]; discriminate H. }
  split; [reflexivity|]. subst in_process. split; [exact Hin|].
  exact (Hloop eq_refl 0%nat).
Defined.

(** The snapshot [{"status": "Running"}] is in process. *)
Example is_in_process_running (w : world) :
  let self := example_dao_with (VDict [("status", VStr "Running")]) in
  WorkflowStatus.is_in_process (self, w) = (inr true, (self, w)).
Proof. reflexivity. Qed.

(** C8, as stated, fails on a DAO that has not fetched yet: there
    [is_in_process] sends a request and stores the snapshot it gets. *)
Lemma C8_counterexample :
  let w := example_world (fun _ => 0%float)
                         (always (ok_response (VDict [("status", VStr "Running")]))) in
  let after := WorkflowStatus.is_in_process (example_dao, w) in
  fst after = inr true /\
  WorkflowStatus.workflow_info example_dao = VNone /\
  WorkflowStatus.workflow_info (fst (snd after)) = VDict [("status", VStr "Running")] /\
  sent w = [] /\
  map url (sent (snd (snd after))) =
  ["https://firecloud-orchestration.dsde-alpha.broadinstitute.org/api/workspaces/drs-billing-project/DRS Data Access Scale Testing - Alpha/submissions/32f74aa9-7779-4d28-aec7-641d26307beb"].
Proof. vm_compute. repeat split. Qed.

(** C8, amended.  When a snapshot is stored, [is_in_process] answers from
    it: the DAO and the world are left as they were (no request is sent,
    no credential is asked for, the snapshot stays), and the answer is
    the membership of the stored status in the in-process list. *)
Theorem C8_is_in_process_reads_stored_snapshot
        (self : WorkflowStatus.WorkflowDAO) (w : world) :
  WorkflowStatus.workflow_info self <> VNone ->
  snd (WorkflowStatus.is_in_process (self, w)) = (self, w) /\
  sent (snd (snd (WorkflowStatus.is_in_process (self, w)))) = sent w /\
  WorkflowStatus.workflow_info (fst (snd (WorkflowStatus.is_in_process (self, w))))
  = WorkflowStatus.workflow_info self /\
  fst (WorkflowStatus.is_in_process (self, w)) =
  match subscript (WorkflowStatus.workflow_info self) "status" with
  | inl e => inl e
  | inr status => inr (in_str_list status ["Queued"; "Submitted"; "Running"])
  end.
Proof.
  intros H. rewrite (is_in_process_stored self w H). cbn [fst snd].
  repeat split.
Qed.

(** C8 amended, on the snapshot [{"status": "Running"}]. *)
Lemma C8_witness :
  let self := example_dao_with (VDict [("status", VStr "Running")]) in
  let w := example_world (fun _ => 0%float) (fun _ _ => inl RequestException) in
  WorkflowStatus.workflow_info self <> VNone /\
  snd (WorkflowStatus.is_in_process (self, w)) = (self, w) /\
  fst (WorkflowStatus.is_in_process (self, w)) = inr true.
Proof.
  intros self w.
  assert (H : WorkflowStatus.workflow_info self <> VNone) by discriminate.
  destruct (C8_is_in_process_reads_stored_snapshot self w H) as (Hs & _ & _ & Ha).
  split; [exact H|]. split; [exact Hs|]. rewrite Ha. reflexivity.
Defined.

(* ================================================================== *)
(** * The script's DAO and the package's DAO *)
(* ================================================================== *)

Lemma script_get_workflow_info_stored (self : WorkflowInfo.WorkflowDAO) (w : world) :
  WorkflowInfo.workflow_info self <> VNone ->
  WorkflowInfo.get_workflow_info (self, w) =
  (inr (WorkflowInfo.workflow_info self), (self, w)).
Proof.
  intros H. unfold WorkflowInfo.get_workflow_info. unfold_monad. cbn.
  rewrite (is_none_false _ H). reflexivity.
Qed.

Section SubmissionTime.

Variable datetime : Type.
Variable fromisoformat : string -> result datetime.
Variable strftime : datetime -> string -> result string.

Lemma script_get_submission_time_stored
      (self : WorkflowInfo.WorkflowDAO) (w : world) (fmt : option string) :
  WorkflowInfo.workflow_info self <> VNone ->
  WorkflowInfo.get_submission_time datetime fromisoformat strftime fmt (self, w) =
  (submission_time_of fromisoformat strftime (WorkflowInfo.workflow_info self) fmt, (self, w)).
Proof.
  intros H. unfold WorkflowInfo.get_submission_time, bind at 1.
  rewrite (script_get_workflow_info_stored self w H).
  unfold submission_time_of. unfold_monad.
  destruct (subscript _ _) as [e|date]; [reflexivity|].
  destruct fmt as [format|]; [|reflexivity].
  destruct date; try reflexivity.
  destruct (fromisoformat _) as [e|dt]; [reflexivity|].
  destruct (strftime dt format); reflexivity.
Qed.

Lemma package_get_submission_time_stored
      (self : WorkflowStatus.WorkflowDAO) (w : world) (fmt : option string) :
  WorkflowStatus.workflow_info self <> VNone ->
  WorkflowStatus.get_submission_time datetime fromisoformat strftime fmt (self, w) =
  (submission_time_of fromisoformat strftime (WorkflowStatus.workflow_info self) fmt, (self, w)).
Proof.
  intros H. unfold WorkflowStatus.get_submission_time, bind at 1.
  rewrite (get_workflow_info_stored self w H).
  unfold submission_time_of. unfold_monad.
  destruct (subscript _ _) as [e|date]; [reflexivity|].
  destruct fmt as [format|]; [|reflexivity].
  destruct date; try reflexivity.
  destruct (fromisoformat _) as [e|dt]; [reflexivity|].
  destruct (strftime dt format); reflexivity.
Qed.

End SubmissionTime.

Lemma script_is_in_process_stored (self : WorkflowInfo.WorkflowDAO) (w : world) :
  WorkflowInfo.workflow_info self <> VNone ->
  WorkflowInfo.is_in_process (self, w) =
  (match subscript (WorkflowInfo.workflow_info self) "status" with
   | inl e => inl e
   | inr status => inr (in_str_list status ["Queued"; "Submitted"; "Running"])
   end, (self, w)).
Proof.
  intros H. unfold WorkflowInfo.is_in_process, bind at 1.
  rewrite (script_get_workflow_info_stored self w H). unfold_monad.
  destruct (subscript _ _); reflexivity.
Qed.

(** C10.  A DAO of the script and a DAO of the package that hold the same
    snapshot agree: [is_in_process] gives the same answer or raises the
    same exception in both, and so does [get_submission_time], with and
    without a format string and whatever [fromisoformat] and [strftime]
    do; neither call changes its DAO or its world. *)
Theorem C10_dao_variants_agree
        (script : WorkflowInfo.WorkflowDAO) (package : WorkflowStatus.WorkflowDAO)
        (snapshot : pyval) (w1 w2 : world) :
  snapshot <> VNone ->
  WorkflowInfo.workflow_info script = snapshot ->
  WorkflowStatus.workflow_info package = snapshot ->
  (fst (WorkflowInfo.is_in_process (script, w1)) =
   fst (WorkflowStatus.is_in_process (package, w2)) /\
   snd (WorkflowInfo.is_in_process (script, w1)) = (script, w1) /\
   snd (WorkflowStatus.is_in_process (package, w2)) = (package, w2)) /\
  (forall (datetime : Type) (fromisoformat : string -> result datetime)
          (strftime : datetime -> string -> result string)
          (strftime_format_string : option string),
      fst (WorkflowInfo.get_submission_time datetime fromisoformat strftime
             strftime_format_string (script, w1)) =
      fst (WorkflowStatus.get_submission_time datetime fromisoformat strftime
             strftime_format_string (package, w2)) /\
      snd (WorkflowInfo.get_submission_time datetime fromisoformat strftime
             strftime_format_string (script, w1)) = (script, w1) /\
      snd (WorkflowStatus.get_submission_time datetime fromisoformat strftime
             strftime_format_string (package, w2)) = (package, w2)).
Proof.
  intros Hsome Hscript Hpackage.
  assert (H1 : WorkflowInfo.workflow_info script <> VNone) by congruence.
  assert (H2 : WorkflowStatus.workflow_info package <> VNone) by congruence.
  split.
  - rewrite (script_is_in_process_stored script w1 H1), (is_in_process_stored package w2 H2).
    cbn [fst snd]. rewrite Hscript, Hpackage. repeat split.
  - intros datetime fromisoformat strftime fmt.
    rewrite (script_get_submission_time_stored _ _ _ script w1 fmt H1).
    rewrite (package_get_submission_time_stored _ _ _ package w2 fmt H2).
    cbn [fst snd]. rewrite Hscript, Hpackage. repeat split.
Qed.

(** C10 on a snapshot of a running submission, with a [fromisoformat]
    that keeps the text and a [strftime] that returns it. *)
Lemma C10_witness :
  let snapshot := VDict [("status", VStr "Running");
                         ("submissionDate", VStr "2021-03-04T05:06:07.089Z")] in
  let script := example_script_dao_with snapshot in
  let package := example_dao_with snapshot in
  let w := example_world (fun _ => 0%float) (fun _ _ => inl RequestException) in
  snapshot <> VNone /\
  WorkflowInfo.workflow_info script = snapshot /\
  WorkflowStatus.workflow_info package = snapshot /\
  fst (WorkflowInfo.is_in_process (script, w)) = inr true /\
  fst (WorkflowStatus.is_in_process (package, w)) = inr true /\
  fst (WorkflowInfo.get_submission_time string (fun s => inr s) (fun dt _ => inr dt)
         (Some "%Y/%m/%d %H:%M:%S") (script, w)) =
  fst (WorkflowStatus.get_submission_time string (fun s => inr s) (fun dt _ => inr dt)
         (Some "%Y/%m/%d %H:%M:%S") (package, w)).
Proof.
  intros snapshot script package w.
  assert (Hsome : snapshot <> VNone) by discriminate.
  destruct (C10_dao_variants_agree script package snapshot w w Hsome eq_refl eq_refl)
    as [(Hin & _ & _) Htime].
  split; [exact Hsome|]. split; [reflexivity|]. split; [reflexivity|].
  split; [reflexivity|]. split; [rewrite <- Hin; reflexivity|].
  exact (proj1 (Htime string (fun s => inr s) (fun dt _ => inr dt)
                      (Some "%Y/%m/%d %H:%M:%S"))).
Defined.

(* ================================================================== *)
(** * Failures of the status request *)
(* ================================================================== *)

(** What [update] does once the credential provider issued a token: it
    raises what the transport raised, or the [HTTPError] of
    [raise_for_status], or the decoding error of [json()], and otherwise
    stores the decoded body. *)
Lemma update_outcome (self : WorkflowStatus.WorkflowDAO) (w : world) (token : string) :
  credentials w (credential_calls w) = inr token ->
  let w' := set_sent (sent w ++ [submission_request self token])
                     (set_credential_calls (S (credential_calls w)) w) in
  WorkflowStatus.update (self, w) =
  match server w (List.length (sent w)) (submission_request self token) with
  | inl e => (inl e, (self, w'))
  | inr resp =>
      match Requests.raise_for_status resp with
      | inl e => (inl e, (self, w'))
      | inr _ =>
          match Requests.json resp with
          | inl e => (inl e, (self, w'))
          | inr body => (inr tt, (WorkflowStatus.set_workflow_info body self, w'))
          end
      end
  end.
Proof.
  intros Htok w'. unfold WorkflowStatus.update, WorkflowStatus._get_terra_user_token.
  unfold_monad. unfold_env. cbn. rewrite Htok. cbn.
  fold (submission_request self token).
  destruct (server w _ _) as [e|resp]; [reflexivity|].
  unfold Requests.ok.
  destruct (Requests.raise_for_status resp) as [e|[]]; [reflexivity|].
  destruct (Requests.json resp); reflexivity.
Qed.

(** One iteration of the loop on a stored in-process status: the two
    status lines and the sleep, then [update], then the loop again. *)
Lemma wait_iteration (self : WorkflowStatus.WorkflowDAO) (w : world) (status : pyval)
      (fuel : nat) :
  subscript (WorkflowStatus.workflow_info self) "status" = inr status ->
  in_process_status status ->
  WorkflowStatus.wait_for_workflow_to_complete (S fuel) (self, w) =
  match WorkflowStatus.update (self, world_before_update status w) with
  | (inl e, s) => (inl e, s)
  | (inr _, s) => WorkflowStatus.wait_for_workflow_to_complete fuel s
  end.
Proof.
  intros Hst Hin. pose proof (subscript_not_none _ _ _ Hst) as Hsome.
  apply in_process_statuses_spec in Hin.
  cbn [WorkflowStatus.wait_for_workflow_to_complete].
  unfold bind at 1. rewrite (is_in_process_stored self w Hsome), Hst, Hin.
  unfold bind at 1. rewrite (get_submission_status_stored self w Hsome), Hst.
  unfold_monad. unfold print, time_sleep, modify. cbn [fst snd].
  reflexivity.
Qed.


Lemma ok_false_iff (resp : response) :
  Requests.ok resp = false <-> 400 <= status_code resp < 600.
Proof.
  unfold Requests.ok, Requests.raise_for_status.
  destruct (Z.leb_spec 400 (status_code resp));
    destruct (Z.ltb_spec (status_code resp) 500);
    destruct (Z.leb_spec 500 (status_code resp));
    destruct (Z.ltb_spec (status_code resp) 600); cbn; split; intros; try lia;
    try reflexivity; try discriminate.
Qed.




(* ================================================================== *)
(** * Probes and error statuses *)
(* ================================================================== *)

Lemma probe_record_fields (w : world) (resp : response) :
  dict_get (probe_record w resp) "response_code" = Some (VInt (status_code resp)) /\
  dict_get (probe_record w resp) "response_reason" = Some (VStr (reason resp)).
Proof. split; reflexivity. Qed.

Lemma effective_uri_object_id (drs_uri : option string) :
  is_drs_uri drs_uri ->
  let u := match drs_uri with
           | None => Monitor.public_drs_uri Monitor.gen3_info
           | Some u => u
           end in
  str_startswith u "drs://" = true /\ exists object_id, Monitor.object_id_of u = inr object_id.
Proof.
  intros H u.
  assert (Hpre : str_startswith u "drs://" = true).
  { destruct drs_uri as [x|]; [exact H | reflexivity]. }
  split; [exact Hpre|].
  destruct (object_id_of_drs_uri u Hpre) as (_ & object_id & _ & _ & Hid).
  exists object_id. exact Hid.
Qed.

(** Runs a probe whose request is answered by [resp] with [ok] false. *)
Ltac run_failed_probe Hsrv Hok :=
  unfold Monitor.log_request_url, Monitor.monitoring_info;
  unfold_monad; unfold_env; cbn;
  rewrite Hsrv; cbn; rewrite Hok; reflexivity.

(** C4, as stated, fails for a status outside 200..299 that is no client
    or server error: [resp.ok] holds, so the body is decoded.  A 304
    without a JSON body makes the probe raise, and a 300 with a JSON body
    yields that body's token, not [None]. *)
Lemma C4_counterexample :
  let not_modified := mk_response 304 "Not Modified" "https://example.org/accesstoken" None in
  let choices := mk_response 300 "Multiple Choices" "https://example.org/accesstoken"
                             (Some (VDict [("token", VStr "abc")])) in
  let now := example_clock in
  (status_code not_modified <? 200) || (299 <? status_code not_modified) = true /\
  fst (Monitor.get_fence_token_from_bond "token" (example_world now (always not_modified)))
  = inl JSONDecodeError /\
  (status_code choices <? 200) || (299 <? status_code choices) = true /\
  fst (Monitor.get_fence_token_from_bond "token" (example_world now (always choices)))
  = inr (VStr "abc", probe_record (example_world now (always choices)) choices).
Proof. vm_compute. repeat split. Qed.

(** C4, amended.  When the response to a probe has a client or server
    error status (400 to 599, where [resp.ok] is false), each of the six
    probe calls returns, without raising, a null body together with the
    monitoring info of the response, which records the response's status
    code and reason. *)
Theorem C4_error_status_is_data
        (w : world) (resp : response) (terra_user_token : string)
        (fence_user_token : pyval) (drs_uri : option string) (access_id : string) :
  (forall rq, server w (List.length (sent w)) rq = inr resp) ->
  400 <= status_code resp < 600 ->
  is_drs_uri drs_uri ->
  null_body_with_record w resp (Monitor.get_fence_token_from_bond terra_user_token w) /\
  null_body_with_record w resp (Monitor.get_service_account_key_from_bond terra_user_token w) /\
  null_body_with_record w resp (Monitor.get_martha_drs_response terra_user_token drs_uri w) /\
  null_body_with_record w resp (Monitor.get_gen3_drs_resolution drs_uri w) /\
  null_body_with_record w resp (Monitor.get_gen3_drs_access fence_user_token drs_uri access_id w) /\
  null_body_with_record w resp (Monitor.get_fence_userinfo fence_user_token w).
Proof.
  intros Hsrv Herr Huri. apply ok_false_iff in Herr as Hok.
  destruct (effective_uri_object_id drs_uri Huri) as [Hpre [object_id Hid]].
  unfold null_body_with_record.
  repeat split; try apply probe_record_fields.
  - unfold Monitor.get_fence_token_from_bond. run_failed_probe Hsrv Hok.
  - unfold Monitor.get_service_account_key_from_bond. run_failed_probe Hsrv Hok.
  - unfold Monitor.get_martha_drs_response. run_failed_probe Hsrv Hok.
  - unfold Monitor.get_gen3_drs_resolution. rewrite Hpre, Hid. run_failed_probe Hsrv Hok.
  - unfold Monitor.get_gen3_drs_access. rewrite Hpre, Hid. run_failed_probe Hsrv Hok.
  - unfold Monitor.get_fence_userinfo. run_failed_probe Hsrv Hok.
Qed.

(** C4 amended, on a 401 from every endpoint. *)
Lemma C4_witness :
  let resp := mk_response 401 "Unauthorized" "https://example.org/" None in
  let w := example_world example_clock (always resp) in
  (forall rq, server w (List.length (sent w)) rq = inr resp) /\
  400 <= status_code resp < 600 /\
  is_drs_uri None /\
  null_body_with_record w resp (Monitor.get_fence_token_from_bond "token" w).
Proof.
  intros resp w.
  assert (Hsrv : forall rq, server w (List.length (sent w)) rq = inr resp)
    by (intros rq; reflexivity).
  assert (Herr : 400 <= status_code resp < 600) by (cbn; lia).
  split; [exact Hsrv|]. split; [exact Herr|]. split; [exact I|].
  exact (proj1 (C4_error_status_is_data w resp "token" (VStr "fence") None "gs"
                  Hsrv Herr I)).
Defined.

(* ================================================================== *)
(** * The DRS flow *)
(* ================================================================== *)





(* ================================================================== *)
(** * The display of a hop's start time *)
(* ================================================================== *)

(** [format_timestamp_as_utc] displays the reading of the clock, whatever
    its argument is. *)
Lemma format_timestamp_reads_clock (seconds_since_epoch : float) (w : world) :
  Monitor.format_timestamp_as_utc seconds_since_epoch w =
  (utc_display (clock w (clock_reads w)), set_clock_reads (S (clock_reads w)) w).
Proof.
  unfold Monitor.format_timestamp_as_utc, utc_display. unfold_monad. unfold_env.
  destruct (Datetime.fromtimestamp_utc _); reflexivity.
Qed.

(** C1 fails on the code.  A hop that started at 1700000000.0
    (2023-11-14 22:13:20 UTC) and is flattened when the clock reads
    1700000090.0 gets the start time "2023/11/14 22:14:50", the display of
    the clock, while the display of its own timestamp is
    "2023/11/14 22:13:20"; in general the result of
    [format_timestamp_as_utc] is the same for any two arguments. *)
Theorem C1_start_time_displays_the_clock :
  let w := example_world (fun _ => 1700000090%float) (fun _ _ => inl RequestException) in
  fst (Monitor.flatten_monitoring_info_dict [("indexd_get_metadata", example_hop_info)] w)
  = inr [("indexd_get_metadata.start_time", VStr "2023/11/14 22:14:50");
         ("indexd_get_metadata.response_duration", VFloat 0.25%float);
         ("indexd_get_metadata.response_code", VInt 200);
         ("indexd_get_metadata.response_reason", VStr "OK")] /\
  dict_get example_hop_info "start_time" = Some (VFloat 1700000000%float) /\
  utc_display 1700000000%float = inr "2023/11/14 22:13:20" /\
  (forall (t t' : float) (w' : world),
      Monitor.format_timestamp_as_utc t w' = Monitor.format_timestamp_as_utc t' w').
Proof.
  split; [vm_compute; reflexivity|].
  split; [reflexivity|].
  split; [vm_compute; reflexivity|].
  intros t t' w'. rewrite !format_timestamp_reads_clock. reflexivity.
Qed.

(* ================================================================== *)
(** * The columns of the csv file *)
(* ================================================================== *)

(** C2, as stated, fails: for the hops recorded in the order
    indexd_get_metadata, bond_get_access_token the header that is written
    starts with the columns of bond_get_access_token. *)
Lemma C2_counterexample :
  let w := example_world example_clock (fun _ _ => inl RequestException) in
  let after := Monitor.write_monitoring_info_to_csv example_flow_result
                 "drs_flow_response_times" w in
  dict_keys example_flow_result = ["indexd_get_metadata"; "bond_get_access_token"] /\
  fst after = inr tt /\
  (exists header row,
      files (snd after) = [("drs_flow_response_times_20240101_120000.csv", [header; row])] /\
      header_columns header =
      ["bond_get_access_token.response_code"; "bond_get_access_token.response_duration";
       "bond_get_access_token.response_reason"; "bond_get_access_token.start_time";
       "indexd_get_metadata.response_code"; "indexd_get_metadata.response_duration";
       "indexd_get_metadata.response_reason"; "indexd_get_metadata.start_time"] /\
      hop_order (header_columns header) = ["bond_get_access_token"; "indexd_get_metadata"]).
Proof.
  split; [reflexivity|]. split; [vm_compute; reflexivity|].
  do 2 eexists. split; [vm_compute; reflexivity|].
  split; vm_compute; reflexivity.
Qed.

(** ** The order of strs *)

Lemma ascii_compare_refl (c : ascii) : Ascii.compare c c = Eq.
Proof. unfold Ascii.compare. apply N.compare_refl. Qed.

Lemma ascii_compare_trans (c1 c2 c3 : ascii) (r : comparison) :
  Ascii.compare c1 c2 = r -> Ascii.compare c2 c3 = r -> Ascii.compare c1 c3 = r.
Proof.
  unfold Ascii.compare. destruct r; intros H1 H2.
  - apply N.compare_eq_iff in H1. apply N.compare_eq_iff in H2.
    apply N.compare_eq_iff. congruence.
  - apply N.compare_lt_iff in H1. apply N.compare_lt_iff in H2.
    apply N.compare_lt_iff. exact (N.lt_trans _ _ _ H1 H2).
  - apply N.compare_gt_iff in H1. apply N.compare_gt_iff in H2.
    apply N.compare_gt_iff. exact (N.lt_trans _ _ _ H2 H1).
Qed.

Lemma str_le_trans (a b c : string) : str_le a b -> str_le b c -> str_le a c.
Proof.
  unfold str_le, String.leb. revert b c.
  induction a as [|x a IH]; intros [|y b] [|z c]; cbn; try congruence.
  destruct (Ascii.compare x y) eqn:Hxy; try congruence;
    destruct (Ascii.compare y z) eqn:Hyz; try congruence; intros H1 H2.
  - rewrite (ascii_compare_trans x y z Eq Hxy Hyz). exact (IH b c H1 H2).
  - apply Ascii.compare_eq_iff in Hxy. subst y. rewrite Hyz. reflexivity.
  - apply Ascii.compare_eq_iff in Hyz. subst z. rewrite Hxy. reflexivity.
  - rewrite (ascii_compare_trans x y z Lt Hxy Hyz). reflexivity.
Qed.

Lemma str_le_antisym (a b : string) : str_le a b -> str_le b a -> a = b.
Proof. apply String.leb_antisym. Qed.

Lemma sorted_is_sorted (l : list string) : StronglySorted str_le (sorted l).
Proof.
  apply Sorted_StronglySorted.
  - intros a b c. apply str_le_trans.
  - exact (StrSort.Sorted_sort l).
Qed.

Lemma sorted_is_permutation (l : list string) : Permutation l (sorted l).
Proof. exact (StrSort.Permuted_sort l). Qed.

(** Two ascending lists with the same elements are the same list. *)
Lemma ascending_unique (l1 l2 : list string) :
  StronglySorted str_le l1 -> StronglySorted str_le l2 -> Permutation l1 l2 -> l1 = l2.
Proof.
  revert l2. induction l1 as [|a l1 IH]; intros l2 H1 H2 Hperm.
  - apply Permutation_nil in Hperm. congruence.
  - destruct l2 as [|b l2].
    + apply Permutation_sym, Permutation_nil in Hperm. discriminate.
    + apply StronglySorted_inv in H1 as [H1 Ha], H2 as [H2 Hb].
      rewrite Forall_forall in Ha, Hb.
      assert (a = b) as ->.
      { assert (Hin_a : In a (b :: l2))
          by (apply (Permutation_in _ Hperm); left; reflexivity).
        assert (Hin_b : In b (a :: l1))
          by (apply (Permutation_in _ (Permutation_sym Hperm)); left; reflexivity).
        destruct Hin_a as [-> | Hin_a]; [reflexivity|].
        destruct Hin_b as [-> | Hin_b]; [reflexivity|].
        apply str_le_antisym; auto. }
      f_equal. apply IH; trivial. exact (Permutation_cons_inv Hperm).
Qed.

(** [sorted] gives the same list for the same set of distinct strs. *)
Lemma sorted_same_elements (l1 l2 : list string) :
  NoDup l1 -> NoDup l2 -> (forall k, In k l1 <-> In k l2) -> sorted l1 = sorted l2.
Proof.
  intros N1 N2 Hin. apply ascending_unique; try apply sorted_is_sorted.
  eapply Permutation_trans; [apply Permutation_sym, sorted_is_permutation|].
  eapply Permutation_trans; [|apply sorted_is_permutation].
  apply NoDup_Permutation; assumption.
Qed.

(** ** Dicts *)

Lemma dict_set_keys_in {A} (d : dict A) (k : string) (v : A) (k' : string) :
  In k' (dict_keys (dict_set d k v)) <-> k' = k \/ In k' (dict_keys d).
Proof.
  induction d as [|[k0 v0] d IH]; cbn.
  - intuition congruence.
  - destruct (String.eqb_spec k0 k) as [-> | Hne]; cbn.
    + intuition congruence.
    + unfold dict_keys in IH. rewrite IH. intuition congruence.
Qed.

Lemma dict_set_keys_nodup {A} (d : dict A) (k : string) (v : A) :
  NoDup (dict_keys d) -> NoDup (dict_keys (dict_set d k v)).
Proof.
  induction d as [|[k0 v0] d IH]; cbn; intros H.
  - constructor; [intros []|constructor].
  - destruct (String.eqb_spec k0 k) as [-> | Hne]; cbn; [exact H|].
    inversion H as [|? ? Hnin Hnd]; subst. constructor.
    + intros Hin. apply (dict_set_keys_in d k v k0) in Hin.
      destruct Hin as [-> | Hin]; [congruence | exact (Hnin Hin)].
    + exact (IH Hnd).
Qed.

Lemma dict_get_set_same {A} (d : dict A) (k : string) (v : A) :
  dict_get (dict_set d k v) k = Some v.
Proof.
  induction d as [|[k0 v0] d IH]; cbn.
  - rewrite String.eqb_refl. reflexivity.
  - destruct (String.eqb_spec k0 k) as [-> | Hne]; cbn.
    + rewrite String.eqb_refl. reflexivity.
    + destruct (String.eqb_spec k0 k); [congruence | exact IH].
Qed.

Lemma str_in_spec (s : string) (l : list string) :
  Monitor.str_in s l = true <-> In s l.
Proof.
  unfold Monitor.str_in. rewrite existsb_exists. split.
  - intros (x & Hin & Heq). apply String.eqb_eq in Heq. congruence.
  - intros Hin. exists s. split; [exact Hin | apply String.eqb_refl].
Qed.

(** ** Flattening *)

Lemma set_clock_reads_same (w : world) : w = set_clock_reads (clock_reads w) w.
Proof. destruct w; reflexivity. Qed.

(** The value a recorded metric is flattened to: only the clock moves. *)
Lemma flattened_value_frame (metric : string) (value v' : pyval) (w w' : world) :
  (if String.eqb metric "start_time" then
     match value with
     | VFloat x => s <- Monitor.format_timestamp_as_utc x ;; ret (VStr s)
     | _ => ret value
     end
   else ret value) w = (inr v', w') ->
  exists n, w' = set_clock_reads n w.
Proof.
  intros H.
  assert (Hret : forall v, ret v w = (inr v', w') -> exists n, w' = set_clock_reads n w).
  { unfold ret. intros v [= _ <-]. exists (clock_reads w). apply set_clock_reads_same. }
  destruct (String.eqb metric "start_time"); [|exact (Hret _ H)].
  destruct value; try exact (Hret _ H).
  unfold bind in H. rewrite format_timestamp_reads_clock in H.
  destruct (utc_display _); [discriminate H|].
  unfold ret in H. injection H as _ <-. eexists. reflexivity.
Qed.

Lemma flatten_metrics_spec (operation_name : string) (items flattened out : dict pyval)
      (w w1 : world) :
  Monitor.flatten_metrics operation_name items flattened w = (inr out, w1) ->
  (forall k, In k (dict_keys out) <->
             In k (dict_keys flattened) \/
             In k (map (fun metric => (operation_name ++ "." ++ metric)%string)
                       (filter (fun metric => Monitor.str_in metric Monitor.recorded_metrics)
                               (dict_keys items)))) /\
  (NoDup (dict_keys flattened) -> NoDup (dict_keys out)) /\
  (exists n, w1 = set_clock_reads n w).
Proof.
  revert flattened w. induction items as [|[metric value] rest IH]; intros flattened w H.
  - cbn in H. unfold ret in H. injection H as <- <-. cbn.
    split; [intuition|]. split; [trivial|].
    exists (clock_reads w). apply set_clock_reads_same.
  - cbn [Monitor.flatten_metrics] in H. cbn [dict_keys map fst filter].
    destruct (Monitor.str_in metric Monitor.recorded_metrics) eqn:Hrec.
    + unfold bind at 1 in H.
      match type of H with
      | context [match ?m w with _ => _ end] =>
          destruct (m w) as [[e | v'] w'] eqn:Hstep
      end; [discriminate H|].
      apply flattened_value_frame in Hstep as [n ->].
      apply IH in H as (Hin & Hnd & [n1 ->]).
      split; [|split].
      * intros k. rewrite Hin, dict_set_keys_in. cbn [map In]. fold (dict_keys rest).
        intuition.
      * intros N. apply Hnd, dict_set_keys_nodup, N.
      * exists n1. reflexivity.
    + apply IH in H. exact H.
Qed.

Lemma flatten_operations_spec (items : dict (dict pyval)) (flattened out : dict pyval)
      (w w1 : world) :
  Monitor.flatten_operations items flattened w = (inr out, w1) ->
  (forall k, In k (dict_keys out) <-> In k (dict_keys flattened) \/ In k (flat_keys items)) /\
  (NoDup (dict_keys flattened) -> NoDup (dict_keys out)) /\
  (exists n, w1 = set_clock_reads n w).
Proof.
  revert flattened w. induction items as [|[operation_name mon_info] rest IH];
    intros flattened w H.
  - cbn in H. unfold ret in H. injection H as <- <-. cbn.
    split; [intuition|]. split; [trivial|].
    exists (clock_reads w). apply set_clock_reads_same.
  - cbn [Monitor.flatten_operations] in H. unfold bind at 1 in H.
    destruct (Monitor.flatten_metrics operation_name mon_info flattened w)
      as [[e | flattened'] w'] eqn:Hstep; [discriminate H|].
    apply flatten_metrics_spec in Hstep as (Hin1 & Hnd1 & [n ->]).
    apply IH in H as (Hin & Hnd & [n1 ->]).
    split; [|split].
    + intros k. rewrite Hin, Hin1. unfold flat_keys. cbn [flat_map fst snd].
      rewrite in_app_iff. intuition.
    + intros N. apply Hnd, Hnd1, N.
    + exists n1. reflexivity.
Qed.

(** The keys of the flattened row are the "hop.field" keys, each once. *)
Lemma flatten_keys (monitoring_info_dict : dict (dict pyval)) (row_info : dict pyval)
      (w w1 : world) :
  Monitor.flatten_monitoring_info_dict monitoring_info_dict w = (inr row_info, w1) ->
  (forall k, In k (dict_keys row_info) <-> In k (flat_keys monitoring_info_dict)) /\
  NoDup (dict_keys row_info) /\
  (exists n, w1 = set_clock_reads n w).
Proof.
  intros H. apply flatten_operations_spec in H as (Hin & Hnd & Hw).
  split; [|split].
  - intros k. rewrite Hin. cbn. intuition.
  - apply Hnd. constructor.
  - exact Hw.
Qed.

Lemma flat_keys_permutation (d1 d2 : dict (dict pyval)) :
  Permutation d1 d2 -> forall k, In k (flat_keys d1) <-> In k (flat_keys d2).
Proof.
  intros Hperm k. unfold flat_keys. rewrite !in_flat_map.
  split; intros (hop & Hin & Hk); exists hop; split; trivial.
  - exact (Permutation_in _ Hperm Hin).
  - exact (Permutation_in _ (Permutation_sym Hperm) Hin).
Qed.

(** ** Writing the row *)

Lemma dict_to_list_row (fieldnames : list string) (row_info : dict pyval) :
  (forall k, In k (dict_keys row_info) -> In k fieldnames) ->
  Monitor.dict_to_list fieldnames row_info = inr (data_row fieldnames row_info).
Proof.
  intros Hin. unfold Monitor.dict_to_list.
  replace (forallb _ _) with true; [reflexivity|].
  symmetry. apply forallb_forall. intros k Hk. apply str_in_spec, Hin, Hk.
Qed.

Lemma dict_get_header (fieldnames : list string) (k : string) :
  In k fieldnames -> dict_get (map (fun f => (f, VStr f)) fieldnames) k = Some (VStr k).
Proof.
  induction fieldnames as [|f rest IH]; cbn; [intros []|].
  intros Hin. destruct (String.eqb_spec f k) as [-> | Hne]; [reflexivity|].
  destruct Hin as [-> | Hin]; [congruence | exact (IH Hin)].
Qed.

Lemma dict_to_list_header (fieldnames : list string) :
  Monitor.dict_to_list fieldnames (map (fun f => (f, VStr f)) fieldnames)
  = inr (map VStr fieldnames).
Proof.
  rewrite dict_to_list_row.
  - f_equal. unfold data_row. apply map_ext_in. intros k Hk.
    rewrite (dict_get_header _ _ Hk). reflexivity.
  - intros k. unfold dict_keys. rewrite map_map. cbn. rewrite map_id. trivial.
Qed.

(** What [write_monitoring_info_to_csv] leaves in the file of the run:
    a new file gets the header and the row, an existing one the row. *)
Lemma write_csv_rows (monitoring_info_dict : dict (dict pyval)) (basename : string)
      (row_info : dict pyval) (w w1 : world) :
  Monitor.flatten_monitoring_info_dict monitoring_info_dict w = (inr row_info, w1) ->
  let fieldnames := sorted (dict_keys row_info) in
  exists w2,
    Monitor.write_monitoring_info_to_csv monitoring_info_dict basename w = (inr tt, w2) /\
    dict_get (files w2) (csv_filename basename w) =
    Some (match dict_get (files w) (csv_filename basename w) with
          | Some rows => rows ++ [data_row fieldnames row_info]
          | None => [map VStr fieldnames; data_row fieldnames row_info]
          end).
Proof.
  intros Hflat fieldnames. subst fieldnames.
  destruct (flatten_keys _ _ _ _ Hflat) as (_ & _ & [n ->]).
  assert (Hrow : Monitor.dict_to_list (sorted (dict_keys row_info)) row_info
                 = inr (data_row (sorted (dict_keys row_info)) row_info)).
  { apply dict_to_list_row. intros k Hk.
    exact (Permutation_in _ (sorted_is_permutation _) Hk). }
  unfold Monitor.write_monitoring_info_to_csv,
    Monitor.get_output_filename_with_run_timestamp, Monitor.writeheader, Monitor.writerow.
  unfold_monad. unfold_env. unfold modify. cbn [fst snd].
  change (basename ++ "_" ++ run_date_time_stamp w ++ "." ++ "csv")%string
    with (csv_filename basename w).
  rewrite Hflat, Hrow, dict_to_list_header.
  change (files (set_clock_reads n w)) with (files w).
  unfold dict_contains.
  destruct (dict_get (files w) (csv_filename basename w)) as [rows|] eqn:Hfile.
  - eexists. split; [reflexivity|].
    change (files (set_clock_reads n w)) with (files w).
    rewrite Hfile. apply dict_get_set_same.
  - eexists. split; [reflexivity|].
    cbn [files set_files]. rewrite !dict_get_set_same. reflexivity.
Qed.

(** C2, amended.  When the flow result is flattened to [row_info], the
    columns of the csv file are the flattened keys "hop.field" in
    ascending order of their code points, [sorted(row_info.keys())]: a new
    file gets them as its header, the row is written under them, and each
    key is a column once.  The order does not follow the insertion order
    of the hops: any reordering of the flow result gives the same
    columns. *)
Theorem C2_columns_in_ascending_key_order
        (monitoring_info_dict : dict (dict pyval)) (basename : string)
        (row_info : dict pyval) (w w1 : world) :
  Monitor.flatten_monitoring_info_dict monitoring_info_dict w = (inr row_info, w1) ->
  let fieldnames := sorted (dict_keys row_info) in
  (exists w2,
      Monitor.write_monitoring_info_to_csv monitoring_info_dict basename w = (inr tt, w2) /\
      dict_get (files w2) (csv_filename basename w) =
      Some (match dict_get (files w) (csv_filename basename w) with
            | Some rows => rows ++ [data_row fieldnames row_info]
            | None => [map VStr fieldnames; data_row fieldnames row_info]
            end)) /\
  StronglySorted str_le fieldnames /\
  NoDup fieldnames /\
  (forall k, In k fieldnames <-> In k (flat_keys monitoring_info_dict)) /\
  (forall (reordered : dict (dict pyval)) (row_info' : dict pyval) (w' w1' : world),
      Permutation monitoring_info_dict reordered ->
      Monitor.flatten_monitoring_info_dict reordered w' = (inr row_info', w1') ->
      sorted (dict_keys row_info') = fieldnames).
Proof.
  intros Hflat fieldnames.
  destruct (flatten_keys _ _ _ _ Hflat) as (Hkeys & Hnd & _).
  pose proof (sorted_is_permutation (dict_keys row_info)) as Hperm.
  split; [exact (write_csv_rows _ basename _ _ _ Hflat)|].
  split; [apply sorted_is_sorted|].
  split; [exact (Permutation_NoDup Hperm Hnd)|].
  split.
  - intros k. rewrite <- Hkeys. split; apply Permutation_in;
      [apply Permutation_sym|]; exact Hperm.
  - intros reordered row_info' w' w1' Hre Hflat'.
    destruct (flatten_keys _ _ _ _ Hflat') as (Hkeys' & Hnd' & _).
    apply sorted_same_elements; trivial.
    intros k. rewrite Hkeys, Hkeys'. symmetry. apply flat_keys_permutation, Hre.
Qed.

(** C2 amended, on the flow result of two hops and on its reversal: both
    give the columns of bond_get_access_token first. *)
Lemma C2_witness :
  let w := example_world example_clock (fun _ _ => inl RequestException) in
  exists row_info w1 row_info' w1',
    Monitor.flatten_monitoring_info_dict example_flow_result w = (inr row_info, w1) /\
    Monitor.flatten_monitoring_info_dict (rev example_flow_result) w = (inr row_info', w1') /\
    sorted (dict_keys row_info') = sorted (dict_keys row_info) /\
    sorted (dict_keys row_info) =
    ["bond_get_access_token.response_code"; "bond_get_access_token.response_duration";
     "bond_get_access_token.response_reason"; "bond_get_access_token.start_time";
     "indexd_get_metadata.response_code"; "indexd_get_metadata.response_duration";
     "indexd_get_metadata.response_reason"; "indexd_get_metadata.start_time"].
Proof.
  intros w.
  destruct (Monitor.flatten_monitoring_info_dict example_flow_result w)
    as [[e | row_info] w1] eqn:Hflat; [vm_compute in Hflat; discriminate Hflat|].
  destruct (Monitor.flatten_monitoring_info_dict (rev example_flow_result) w)
    as [[e | row_info'] w1'] eqn:Hflat'; [vm_compute in Hflat'; discriminate Hflat'|].
  destruct (C2_columns_in_ascending_key_order example_flow_result
              "drs_flow_response_times" row_info w w1 Hflat)
    as (_ & _ & _ & _ & Hsame).
  exists row_info, w1, row_info', w1'.
  split; [reflexivity|]. split; [reflexivity|].
  split; [exact (Hsame _ _ _ _ (Permutation_rev _) Hflat')|].
  vm_compute in Hflat. injection Hflat as <- _. vm_compute. reflexivity.
Defined.

(* ================================================================== *)
(** * Further properties of the monitor *)
(* ================================================================== *)

(** ** Access methods *)

(** X1.  [_get_drs_access_id] stops at the first access method whose type
    is the scheme: when the methods before it carry another type, the
    result is that method's [access_id] entry (a [KeyError] when it has
    none), and the methods after it are never looked at, whatever they
    are. *)
Theorem X1_access_id_stops_at_first_match
        (drs_response : pyval) (before after : list pyval) (access_method : pyval)
        (cloud_uri_scheme : string) :
  subscript drs_response "access_methods" = inr (VList (before ++ access_method :: after)) ->
  (forall am, In am before ->
              exists ty, subscript am "type" = inr ty /\ eq_str ty cloud_uri_scheme = false) ->
  has_type cloud_uri_scheme access_method = true ->
  Monitor._get_drs_access_id drs_response cloud_uri_scheme =
  match access_method with
  | VDict fields => match dict_get fields "access_id" with
                    | Some access_id => inr access_id
                    | None => inl (KeyError "access_id")
                    end
  | _ => inl TypeError
  end.
Proof.
  intros Hams Hbefore Hmatch.
  unfold Monitor._get_drs_access_id. rewrite Hams. clear Hams. cbn [iterate].
  induction before as [|am before IH]; cbn [app Monitor.first_access_id].
  - unfold has_type in Hmatch.
    destruct (subscript access_method "type") as [e|ty]; [discriminate Hmatch|].
    rewrite Hmatch. destruct access_method; reflexivity.
  - destruct (Hbefore am (or_introl eq_refl)) as (ty & Hty & Hne).
    rewrite Hty, Hne. apply IH. intros am' Hin. apply Hbefore. right. exact Hin.
Qed.

(** X1 on a list whose entry after the match is not even an object. *)
Lemma X1_witness :
  let s3 := VDict [("type", VStr "s3"); ("access_id", VStr "Y")] in
  let gs := VDict [("type", VStr "gs"); ("access_id", VStr "X")] in
  let drs_response := VDict [("access_methods", VList [s3; gs; VNone])] in
  subscript drs_response "access_methods" = inr (VList ([s3] ++ gs :: [VNone])) /\
  has_type "gs" gs = true /\
  Monitor._get_drs_access_id drs_response "gs" = inr (VStr "X").
Proof.
  intros s3 gs drs_response.
  assert (Hbefore : forall am, In am [s3] ->
            exists ty, subscript am "type" = inr ty /\ eq_str ty "gs" = false).
  { intros am [<- | []]. exists (VStr "s3"). split; reflexivity. }
  split; [reflexivity|]. split; [reflexivity|].
  exact (X1_access_id_stops_at_first_match drs_response [s3] [VNone] gs "gs"
           eq_refl Hbefore eq_refl).
Defined.



(** ** Probes *)

(** Runs a probe on every outcome of its request. *)
Ltac probe_simpl :=
  cbn [fst snd sent set_sent set_clock_reads set_log].

Ltac one_more_sent := rewrite ?length_app; cbn [List.length]; lia.

Ltac run_probe :=
  unfold Monitor.log_request_url, Monitor.monitoring_info;
  unfold_monad; unfold_env; unfold modify; probe_simpl;
  match goal with
  | |- context [server ?w ?n ?rq] => destruct (server w n rq) as [?e | ?resp]
  end; probe_simpl; [one_more_sent |];
  match goal with
  | |- context [Requests.ok ?r] => destruct (Requests.ok r)
  end; probe_simpl; [| one_more_sent];
  match goal with
  | |- context [Requests.json ?r] => destruct (Requests.json r) as [?e | ?body]
  end; probe_simpl; [one_more_sent |];
  try match goal with
      | |- context [method_get ?b ?k] => destruct (method_get b k)
      end; probe_simpl; one_more_sent.

(** X3.  Every probe calls [requests.get] or [requests.post] exactly once,
    whatever comes of the call: a transport failure, an error status, a
    body that does not decode or a normal return all leave exactly one
    more call in the trace.  A probe never retries and never returns
    without having called.  What is counted is the call: the exchanges
    that [requests] makes within it when it follows a redirect are not
    told apart.  (The two index lookups are taken on a DRS URI.) *)
Theorem X3_probe_calls_requests_once
        (w : world) (terra_user_token : string) (fence_user_token : pyval)
        (drs_uri : option string) (access_id : string) :
  is_drs_uri drs_uri ->
  let one_more (after : world) := List.length (sent after) = S (List.length (sent w)) in
  one_more (snd (Monitor.get_fence_token_from_bond terra_user_token w)) /\
  one_more (snd (Monitor.get_service_account_key_from_bond terra_user_token w)) /\
  one_more (snd (Monitor.get_martha_drs_response terra_user_token drs_uri w)) /\
  one_more (snd (Monitor.get_gen3_drs_resolution drs_uri w)) /\
  one_more (snd (Monitor.get_gen3_drs_access fence_user_token drs_uri access_id w)) /\
  one_more (snd (Monitor.get_fence_userinfo fence_user_token w)).
Proof.
  intros Huri one_more. subst one_more. cbv beta.
  destruct (effective_uri_object_id drs_uri Huri) as [Hpre [object_id Hid]].
  repeat split.
  - unfold Monitor.get_fence_token_from_bond. run_probe.
  - unfold Monitor.get_service_account_key_from_bond. run_probe.
  - unfold Monitor.get_martha_drs_response. run_probe.
  - unfold Monitor.get_gen3_drs_resolution. rewrite Hpre, Hid. run_probe.
  - unfold Monitor.get_gen3_drs_access. rewrite Hpre, Hid. run_probe.
  - unfold Monitor.get_fence_userinfo. run_probe.
Qed.

(** X3 on the public URI of the deployment, with every call failing in
    transport. *)
Lemma X3_witness :
  let w := example_world example_clock (fun _ _ => inl RequestException) in
  is_drs_uri None /\
  List.length (sent w) = 0%nat /\
  List.length (sent (snd (Monitor.get_gen3_drs_resolution None w))) = 1%nat.
Proof.
  intros w. split; [exact I|]. split; [reflexivity|].
  destruct (X3_probe_calls_requests_once w "token" (VStr "fence") None "gs" I)
    as (_ & _ & _ & H & _).
  exact H.
Defined.

(** X4.  The two index lookups refuse a URI that does not start with
    "drs://" before any input or output: they raise an [AssertionError]
    and leave the world as it was, with no clock reading and no request.
    The Martha probe makes no such check and posts whatever URI it is
    given as the "url" of its body. *)
Theorem X4_lookups_refuse_non_drs_uri
        (drs_uri : string) (terra_user_token : string) (fence_user_token : pyval)
        (access_id : string) (w : world) :
  str_startswith drs_uri "drs://" = false ->
  Monitor.get_gen3_drs_resolution (Some drs_uri) w = (inl (AssertionError ""), w) /\
  Monitor.get_gen3_drs_access fence_user_token (Some drs_uri) access_id w
  = (inl (AssertionError ""), w) /\
  sent (snd (Monitor.get_martha_drs_response terra_user_token (Some drs_uri) w)) =
  sent w ++ [mk_request POST
               "https://us-central1-broad-dsde-dev.cloudfunctions.net/martha_v3/"
               (Monitor.bearer_headers (VStr terra_user_token))
               (Some (VDict [("url", VStr drs_uri)]))].
Proof.
  intros Hpre. split; [|split].
  - unfold Monitor.get_gen3_drs_resolution. rewrite Hpre. reflexivity.
  - unfold Monitor.get_gen3_drs_access. rewrite Hpre. reflexivity.
  - unfold Monitor.get_martha_drs_response, Monitor.log_request_url,
      Monitor.monitoring_info.
    unfold_monad. unfold_env. unfold modify. probe_simpl.
    match goal with
    | |- context [server ?w ?n ?rq] => destruct (server w n rq) as [e | resp]
    end; probe_simpl; [reflexivity|].
    destruct (Requests.ok resp); probe_simpl; [|reflexivity].
    destruct (Requests.json resp); reflexivity.
Qed.

(** X4 on an https URL. *)
Lemma X4_witness :
  let w := example_world example_clock (fun _ _ => inl RequestException) in
  str_startswith "https://example.org/object" "drs://" = false /\
  Monitor.get_gen3_drs_resolution (Some "https://example.org/object") w
  = (inl (AssertionError ""), w).
Proof.
  intros w. split; [reflexivity|].
  exact (proj1 (X4_lookups_refuse_non_drs_uri "https://example.org/object" "token"
                  (VStr "fence") "gs" w eq_refl)).
Defined.

(** Runs a probe whose request is answered by [resp] with [ok] true. *)
Ltac run_ok_probe Hsrv Hok :=
  unfold Monitor.log_request_url, Monitor.monitoring_info;
  unfold_monad; unfold_env; unfold modify;
  cbn [fst snd server sent set_clock_reads];
  rewrite Hsrv; cbn [fst snd]; rewrite Hok;
  unfold decoded_field, decoded_body, with_record, Requests.json, method_get;
  destruct (json_body _) as [[| | | | | |]|]; try reflexivity;
  try (destruct (dict_get _ _); reflexivity).

(** X5.  On a response that is no client or server error the probes decode
    the body.  The three probes that pick an entry ("token", "data", "url")
    return it, or [None] when the body is an object without it; they raise
    an [AttributeError] when the body is JSON but no object.  The three
    others return the body whole.  All six raise a decoding error when the
    body is not JSON, and then no monitoring info comes back although the
    request was made. *)
Theorem X5_probe_decodes_ok_response
        (w : world) (resp : response) (terra_user_token : string)
        (fence_user_token : pyval) (drs_uri : option string) (access_id : string) :
  (forall rq, server w (List.length (sent w)) rq = inr resp) ->
  Requests.ok resp = true ->
  is_drs_uri drs_uri ->
  fst (Monitor.get_fence_token_from_bond terra_user_token w)
  = with_record (decoded_field resp "token") w resp /\
  fst (Monitor.get_service_account_key_from_bond terra_user_token w)
  = with_record (decoded_field resp "data") w resp /\
  fst (Monitor.get_gen3_drs_access fence_user_token drs_uri access_id w)
  = with_record (decoded_field resp "url") w resp /\
  fst (Monitor.get_martha_drs_response terra_user_token drs_uri w)
  = with_record (decoded_body resp) w resp /\
  fst (Monitor.get_gen3_drs_resolution drs_uri w)
  = with_record (decoded_body resp) w resp /\
  fst (Monitor.get_fence_userinfo fence_user_token w)
  = with_record (decoded_body resp) w resp.
Proof.
  intros Hsrv Hok Huri.
  destruct (effective_uri_object_id drs_uri Huri) as [Hpre [object_id Hid]].
  repeat split.
  - unfold Monitor.get_fence_token_from_bond. run_ok_probe Hsrv Hok.
  - unfold Monitor.get_service_account_key_from_bond. run_ok_probe Hsrv Hok.
  - unfold Monitor.get_gen3_drs_access. rewrite Hpre, Hid. run_ok_probe Hsrv Hok.
  - unfold Monitor.get_martha_drs_response. run_ok_probe Hsrv Hok.
  - unfold Monitor.get_gen3_drs_resolution. rewrite Hpre, Hid. run_ok_probe Hsrv Hok.
  - unfold Monitor.get_fence_userinfo. run_ok_probe Hsrv Hok.
Qed.

(** X5 on a 200 whose body is an object without a token: the token is
    [None], as after an error status. *)
Lemma X5_witness :
  let resp := mk_response 200 "OK" "https://example.org/" (Some (VDict [])) in
  let w := example_world example_clock (always resp) in
  (forall rq, server w (List.length (sent w)) rq = inr resp) /\
  Requests.ok resp = true /\
  is_drs_uri None /\
  fst (Monitor.get_fence_token_from_bond "token" w) = inr (VNone, probe_record w resp).
Proof.
  intros resp w.
  assert (Hsrv : forall rq, server w (List.length (sent w)) rq = inr resp)
    by (intros rq; reflexivity).
  split; [exact Hsrv|]. split; [reflexivity|]. split; [exact I|].
  exact (proj1 (X5_probe_decodes_ok_response w resp "token" (VStr "fence") None "gs"
                  Hsrv eq_refl I)).
Defined.

(** X6.  For a hostname-based URI, "drs://" followed by a text without a
    colon, the only colon is the one of the scheme, so the object id of
    the index lookups is that text with the two slashes in front. *)
Theorem X6_object_id_of_hostname_uri (rest : string) :
  occurs ":" rest = false ->
  Monitor.object_id_of ("drs://" ++ rest) = inr ("//" ++ rest)%string.
Proof.
  intros Hno. unfold Monitor.object_id_of.
  assert (Hsplit : str_split ":" ("//" ++ rest) = [("//" ++ rest)%string]).
  { apply str_split_no_sep. cbn. exact Hno. }
  change ("drs://" ++ rest)%string
    with (String "d" (String "r" (String "s" (String ":" ("//" ++ rest)))))%string.
  cbn [str_split]. rewrite Hsplit. reflexivity.
Qed.

(** X6 on a host and a path. *)
Lemma X6_witness :
  occurs ":" "example.org/abc" = false /\
  Monitor.object_id_of "drs://example.org/abc" = inr "//example.org/abc".
Proof.
  split; [reflexivity|].
  exact (X6_object_id_of_hostname_uri "example.org/abc" eq_refl).
Defined.

(** ** The flow and its requests *)

Lemma token_step_frame (w w1 : world) (r : result string) :
  Monitor.get_terra_user_pet_sa_token w = (r, w1) ->
  sent w1 = sent w /\ log w1 = log w.
Proof.
  unfold Monitor.get_terra_user_pet_sa_token, google_auth_token.
  intros [= _ <-]. split; reflexivity.
Qed.

Lemma flow_probes_send_one_request (w : world) (token : string) (fence : pyval) :
  List.length (sent (snd (Monitor.get_gen3_drs_resolution None w))) = S (List.length (sent w)) /\
  List.length (sent (snd (Monitor.get_fence_token_from_bond token w)))
  = S (List.length (sent w)) /\
  List.length (sent (snd (Monitor.get_service_account_key_from_bond token w)))
  = S (List.length (sent w)) /\
  List.length (sent (snd (Monitor.get_gen3_drs_access fence None "gs" w)))
  = S (List.length (sent w)).
Proof.
  destruct (effective_uri_object_id None I) as [Hpre [object_id Hid]].
  repeat split.
  - unfold Monitor.get_gen3_drs_resolution. rewrite Hpre, Hid. run_probe.
  - unfold Monitor.get_fence_token_from_bond. run_probe.
  - unfold Monitor.get_service_account_key_from_bond. run_probe.
  - unfold Monitor.get_gen3_drs_access. rewrite Hpre, Hid. run_probe.
Qed.

(** The requests of one step of the flow, from its run. *)
Ltac count_step H E :=
  let C := fresh "C" in
  pose proof H as C; rewrite E in C; cbn [snd] in C.

(** X7.  In a run of the DRS flow the requests sent and the hops recorded
    go together: the run sends as many requests as it records hops, or one
    more, the one of a probe that raised after its request was made.  When
    the credential provider fails the run records nothing, sends nothing
    and logs one warning. *)
Theorem X7_flow_requests_and_hops (w : world) :
  exists (monitoring_infos : dict (dict pyval)) (w' : world),
    Monitor.measure_response_times w = (inr monitoring_infos, w') /\
    (List.length (sent w') = (List.length (sent w) + List.length monitoring_infos)%nat \/
     List.length (sent w') = S (List.length (sent w) + List.length monitoring_infos)%nat) /\
    (forall e w1,
        Monitor.get_terra_user_pet_sa_token w = (inl e, w1) ->
        monitoring_infos = [] /\
        sent w' = sent w /\
        log w' = log w ++ [(WARNING, [Lit "Exception occurred: "; FmtExn e])]).
Proof.
  unfold Monitor.measure_response_times, Monitor.try_drs_flow, Monitor.drs_flow,
    Monitor.record_hop.
  unfold_monad. unfold logger_warning, modify. cbn [fst snd].
  destruct (Monitor.get_terra_user_pet_sa_token w) as [[e0 | token] w1] eqn:E0;
    cbn [fst snd negb].
  { destruct (token_step_frame _ _ _ E0) as [Hs Hl].
    do 2 eexists. split; [reflexivity|]. cbn [sent set_log log List.length].
    rewrite Hs, Hl. split; [left; lia|].
    intros e w1' [= <- <-]. repeat split. }
  destruct (token_step_frame _ _ _ E0) as [Hs _].
  assert (Hnone : forall e v, (inr token, w1) = (@inl exn string e, v) -> False)
    by (intros e v H; discriminate H).
  destruct (Monitor.get_gen3_drs_resolution None w1) as [[e1 | [metadata info1]] w2] eqn:E1;
    cbn [fst snd negb];
    count_step (proj1 (flow_probes_send_one_request w1 token VNone)) E1;
    rewrite Hs in *.
  { do 2 eexists. split; [reflexivity|]. cbn [sent set_log List.length].
    split; [right; lia|]. intros e v H. destruct (Hnone e v H). }
  destruct (Monitor.get_fence_token_from_bond token w2) as [[e2 | [fence info2]] w3] eqn:E2;
    cbn [fst snd negb];
    count_step (proj1 (proj2 (flow_probes_send_one_request w2 token VNone))) E2.
  { do 2 eexists. split; [reflexivity|]. cbn [sent set_log List.length dict_set].
    split; [right; lia|]. intros e v H. destruct (Hnone e v H). }
  destruct (is_none fence) eqn:Hfence; cbn [fst snd negb].
  { do 2 eexists. split; [reflexivity|]. cbn. split; [left; lia|].
    intros e v H. destruct (Hnone e v H). }
  destruct (Monitor.get_service_account_key_from_bond token w3)
    as [[e3 | [sa_key info3]] w4] eqn:E3; cbn [fst snd negb];
    count_step (proj1 (proj2 (proj2 (flow_probes_send_one_request w3 token VNone)))) E3.
  { do 2 eexists. split; [reflexivity|]. cbn. split; [right; lia|].
    intros e v H. destruct (Hnone e v H). }
  destruct (Monitor.get_gen3_drs_access fence None "gs" w4)
    as [[e4 | [access_url info4]] w5] eqn:E4; cbn [fst snd negb];
    count_step (proj2 (proj2 (proj2 (flow_probes_send_one_request w4 token fence)))) E4.
  { do 2 eexists. split; [reflexivity|]. cbn. split; [right; lia|].
    intros e v H. destruct (Hnone e v H). }
  do 2 eexists. split; [reflexivity|]. cbn. split; [left; lia|].
  intros e v H. destruct (Hnone e v H).
Qed.

(** X8.  When the token is issued, the four probes return and the access
    token is not [None], the flow returns exactly the four hops, in the
    order of the steps and each with the monitoring info of its probe,
    and logs no warning: the world is the one the last probe left. *)
Theorem X8_complete_flow_records_four_hops
        (w w1 w2 w3 w4 w5 : world) (token : string)
        (metadata fence sa_key access_url : pyval) (info1 info2 info3 info4 : dict pyval) :
  Monitor.get_terra_user_pet_sa_token w = (inr token, w1) ->
  Monitor.get_gen3_drs_resolution None w1 = (inr (metadata, info1), w2) ->
  Monitor.get_fence_token_from_bond token w2 = (inr (fence, info2), w3) ->
  fence <> VNone ->
  Monitor.get_service_account_key_from_bond token w3 = (inr (sa_key, info3), w4) ->
  Monitor.get_gen3_drs_access fence None "gs" w4 = (inr (access_url, info4), w5) ->
  Monitor.measure_response_times w =
  (inr [("indexd_get_metadata", info1); ("bond_get_access_token", info2);
        ("bond_get_sa_key", info3); ("fence_get_signed_url", info4)], w5).
Proof.
  intros E0 E1 E2 Hfence E3 E4.
  unfold Monitor.measure_response_times, Monitor.try_drs_flow, Monitor.drs_flow,
    Monitor.record_hop.
  unfold_monad. cbn [fst snd].
  rewrite E0. cbn [fst snd]. rewrite E1. cbn [fst snd]. rewrite E2. cbn [fst snd].
  rewrite (is_none_false _ Hfence). cbn [fst snd negb].
  rewrite E3. cbn [fst snd]. rewrite E4. reflexivity.
Qed.

(** X8 on a server that answers every request 200. *)
Lemma X8_witness :
  let w := example_world example_clock all_ok in
  exists infos w',
    Monitor.measure_response_times w = (inr infos, w') /\
    dict_keys infos = drs_flow_hops /\
    List.length (sent w') = 4%nat /\
    log w' = map (fun rq => (DEBUG, [Lit "Request URL: "; Fmt (VStr (url rq))])) (sent w').
Proof.
  intros w. do 2 eexists.
  split.
  - eapply (X8_complete_flow_records_four_hops w);
      try (vm_compute; reflexivity); discriminate.
  - repeat split.
Defined.

(** ** The csv file over several writes *)

(** The world [write_monitoring_info_to_csv] leaves: the clock has moved
    and the file of the run holds its rows; nothing else has changed. *)
Lemma write_csv_world (monitoring_info_dict : dict (dict pyval)) (basename : string)
      (row_info : dict pyval) (w w1 : world) :
  Monitor.flatten_monitoring_info_dict monitoring_info_dict w = (inr row_info, w1) ->
  exists new_files,
    Monitor.write_monitoring_info_to_csv monitoring_info_dict basename w
    = (inr tt, set_files new_files w1) /\
    dict_get new_files (csv_filename basename w) =
    Some (match dict_get (files w) (csv_filename basename w) with
          | Some rows => rows ++ [data_row (sorted (dict_keys row_info)) row_info]
          | None => [map VStr (sorted (dict_keys row_info));
                     data_row (sorted (dict_keys row_info)) row_info]
          end).
Proof.
  intros Hflat.
  destruct (flatten_keys _ _ _ _ Hflat) as (_ & _ & [n ->]).
  assert (Hrow : Monitor.dict_to_list (sorted (dict_keys row_info)) row_info
                 = inr (data_row (sorted (dict_keys row_info)) row_info)).
  { apply dict_to_list_row. intros k Hk.
    exact (Permutation_in _ (sorted_is_permutation _) Hk). }
  unfold Monitor.write_monitoring_info_to_csv,
    Monitor.get_output_filename_with_run_timestamp, Monitor.writeheader, Monitor.writerow.
  unfold_monad. unfold_env. unfold modify. cbn [fst snd].
  change (basename ++ "_" ++ run_date_time_stamp w ++ "." ++ "csv")%string
    with (csv_filename basename w).
  rewrite Hflat, Hrow, dict_to_list_header.
  change (files (set_clock_reads n w)) with (files w).
  unfold dict_contains.
  destruct (dict_get (files w) (csv_filename basename w)) as [rows|] eqn:Hfile.
  - eexists. split; [reflexivity|].
    change (files (set_clock_reads n w)) with (files w).
    rewrite Hfile. apply dict_get_set_same.
  - eexists. split; [reflexivity|].
    cbn [files set_files]. rewrite !dict_get_set_same. reflexivity.
Qed.

(** X9.  The header is written once.  A first write to a file that does
    not exist yet leaves the header of its own columns and its row; a
    second write of the same run then appends its row only, under the
    columns of that second row, with no new header, also when its columns
    differ from the header's. *)
Theorem X9_header_written_once
        (first second : dict (dict pyval)) (basename : string)
        (row1 row2 : dict pyval) (w w1 w2 w3 : world) :
  dict_get (files w) (csv_filename basename w) = None ->
  Monitor.flatten_monitoring_info_dict first w = (inr row1, w1) ->
  Monitor.write_monitoring_info_to_csv first basename w = (inr tt, w2) ->
  Monitor.flatten_monitoring_info_dict second w2 = (inr row2, w3) ->
  exists w4,
    Monitor.write_monitoring_info_to_csv second basename w2 = (inr tt, w4) /\
    dict_get (files w4) (csv_filename basename w) =
    Some [map VStr (sorted (dict_keys row1));
          data_row (sorted (dict_keys row1)) row1;
          data_row (sorted (dict_keys row2)) row2].
Proof.
  intros Hnew Hflat1 Hwrite1 Hflat2.
  destruct (write_csv_world first basename row1 w w1 Hflat1) as (files1 & Hw1 & Hrows1).
  rewrite Hwrite1 in Hw1. injection Hw1 as ->. rewrite Hnew in Hrows1.
  destruct (flatten_keys _ _ _ _ Hflat1) as (_ & _ & [n ->]).
  destruct (write_csv_world second basename row2 _ w3 Hflat2) as (files2 & Hw2 & Hrows2).
  change (csv_filename basename (set_files files1 (set_clock_reads n w)))
    with (csv_filename basename w) in Hrows2.
  change (files (set_files files1 (set_clock_reads n w))) with files1 in Hrows2.
  rewrite Hrows1 in Hrows2.
  eexists. split; [exact Hw2|]. exact Hrows2.
Qed.

(** X9 on a first row of two hops and a second row of one hop: the file
    keeps the header of eight columns, and the second row has four
    cells. *)
Lemma X9_witness :
  let w := example_world example_clock (fun _ _ => inl RequestException) in
  let second := [("indexd_get_metadata", example_hop_info)] in
  exists w2 w4 header row1 row2,
    dict_get (files w) (csv_filename "drs_flow_response_times" w) = None /\
    Monitor.write_monitoring_info_to_csv example_flow_result "drs_flow_response_times" w
    = (inr tt, w2) /\
    Monitor.write_monitoring_info_to_csv second "drs_flow_response_times" w2 = (inr tt, w4) /\
    dict_get (files w4) (csv_filename "drs_flow_response_times" w)
    = Some [header; row1; row2] /\
    List.length header = 8%nat /\ List.length row1 = 8%nat /\ List.length row2 = 4%nat.
Proof.
  intros w second.
  destruct (Monitor.flatten_monitoring_info_dict example_flow_result w)
    as [[e | row1] w1] eqn:F1; [vm_compute in F1; discriminate F1|].
  destruct (Monitor.write_monitoring_info_to_csv example_flow_result
              "drs_flow_response_times" w) as [[e | []] w2] eqn:W1;
    [vm_compute in W1; discriminate W1|].
  pose proof W1 as W1'. vm_compute in W1'. injection W1' as <-.
  match type of W1 with
  | _ = (_, ?v) =>
      destruct (Monitor.flatten_monitoring_info_dict second v)
        as [[e | row2] w3] eqn:F2; [vm_compute in F2; discriminate F2|]
  end.
  destruct (X9_header_written_once example_flow_result second "drs_flow_response_times"
              row1 row2 w w1 _ w3 eq_refl F1 W1 F2) as (w4 & Hw4 & Hrows).
  vm_compute in F1. injection F1 as <- _.
  vm_compute in F2. injection F2 as <- _.
  do 5 eexists. split; [reflexivity|]. split; [exact W1|].
  split; [exact Hw4|]. split; [exact Hrows|]. repeat split.
Defined.

(** ** A tick without a credential *)

(** Without a credential the flow records nothing and logs a warning. *)
Lemma measure_without_credential (w : world) (e : exn) :
  credentials w (credential_calls w) = inl e ->
  Monitor.measure_response_times w =
  (inr [], set_log (log w ++ [(WARNING, [Lit "Exception occurred: "; FmtExn e])])
                   (set_credential_calls (S (credential_calls w)) w)).
Proof.
  intros Hcred.
  unfold Monitor.measure_response_times, Monitor.try_drs_flow, Monitor.drs_flow,
    Monitor.record_hop.
  unfold Monitor.get_terra_user_pet_sa_token, google_auth_token.
  unfold_monad. unfold logger_warning, modify. cbn [fst snd]. rewrite Hcred.
  reflexivity.
Qed.

(** X10.  When the credential provider fails, [measure_and_report] still
    returns normally and still writes: the flow records no hop and sends
    no request, and the file of the run gets an empty row, after an empty
    header when the file is new. *)
Theorem X10_no_credential_writes_empty_row
        (w : world) (e : exn) (basename : string) :
  credentials w (credential_calls w) = inl e ->
  exists w',
    Monitor.measure_and_report basename w = (inr tt, w') /\
    sent w' = sent w /\
    log w' = log w ++ [(WARNING, [Lit "Exception occurred: "; FmtExn e])] /\
    dict_get (files w') (csv_filename basename w) =
    Some (match dict_get (files w) (csv_filename basename w) with
          | Some rows => rows ++ [[]]
          | None => [[]; []]
          end).
Proof.
  intros Hcred.
  unfold Monitor.measure_and_report, bind.
  rewrite (measure_without_credential w e Hcred).
  set (w0 := set_log _ _).
  destruct (write_csv_world [] basename [] w0 w0 eq_refl) as (new_files & Hwrite & Hrows).
  rewrite Hwrite. eexists. split; [reflexivity|].
  split; [reflexivity|]. split; [reflexivity|]. exact Hrows.
Qed.

(** X10 on a fresh world whose credential provider has nothing to give. *)
Lemma X10_witness :
  let w := mk_world example_clock 0 (fun _ => inl GoogleAuthError) 0
                    (fun _ _ => inl RequestException) [] [] [] [] [] "20240101_120000" in
  credentials w (credential_calls w) = inl GoogleAuthError /\
  exists w',
    Monitor.measure_and_report "drs_flow_response_times" w = (inr tt, w') /\
    files w' = [("drs_flow_response_times_20240101_120000.csv", [[]; []])].
Proof.
  intros w. split; [reflexivity|].
  destruct (X10_no_credential_writes_empty_row w GoogleAuthError
              "drs_flow_response_times" eq_refl) as (w' & Hrun & _).
  exists w'. split; [exact Hrun|].
  vm_compute in Hrun. injection Hrun as <-. reflexivity.
Defined.

(* ================================================================== *)
(** * Further properties of the workflow DAO *)
(* ================================================================== *)

(** X11.  [update] either replaces the snapshot or leaves the DAO alone.
    When it raises, for the lack of a credential, a transport failure, a
    client or server error status or a body that is not JSON, the DAO is
    exactly as before, so that the snapshot fetched earlier stays
    readable.  When it returns, only the snapshot has changed: it is the
    decoded body of a response that was no client or server error. *)
Theorem X11_update_replaces_or_keeps
        (self self' : WorkflowStatus.WorkflowDAO) (w w' : world) (r : result unit) :
  WorkflowStatus.update (self, w) = (r, (self', w')) ->
  match r with
  | inl _ => self' = self
  | inr _ =>
      exists token resp body,
        credentials w (credential_calls w) = inr token /\
        server w (List.length (sent w)) (submission_request self token) = inr resp /\
        Requests.ok resp = true /\
        json_body resp = Some body /\
        self' = WorkflowStatus.set_workflow_info body self
  end.
Proof.
  intros Hup.
  destruct (credentials w (credential_calls w)) as [e | token] eqn:Hcred.
  - unfold WorkflowStatus.update, WorkflowStatus._get_terra_user_token in Hup.
    unfold_monad. unfold_env. cbn in Hup. rewrite Hcred in Hup.
    injection Hup as <- <- _. reflexivity.
  - rewrite (update_outcome self w token Hcred) in Hup.
    destruct (server w _ _) as [e | resp] eqn:Hsrv.
    { injection Hup as <- <- _. reflexivity. }
    unfold Requests.ok.
    destruct (Requests.raise_for_status resp) as [e | []] eqn:Hstatus.
    { injection Hup as <- <- _. reflexivity. }
    unfold Requests.json in Hup.
    destruct (json_body resp) as [body |] eqn:Hbody.
    + injection Hup as <- <- _. exists token, resp, body.
      unfold Requests.ok. rewrite Hstatus. auto.
    + injection Hup as <- <- _. reflexivity.
Qed.

(** X11 on a refresh that is answered 503: the snapshot stays. *)
Lemma X11_witness :
  let self := example_dao_with (VDict [("status", VStr "Running")]) in
  let answer := mk_response 503 "Service Unavailable" "https://example.org/submission" None in
  let w := example_world example_clock (always answer) in
  exists w',
    WorkflowStatus.update (self, w) = (inl (HTTPError 503), (self, w')) /\
    WorkflowStatus.workflow_info self = VDict [("status", VStr "Running")].
Proof.
  intros self answer w.
  destruct (WorkflowStatus.update (self, w)) as [r [self' w']] eqn:Hup.
  pose proof (X11_update_replaces_or_keeps self self' w w' r Hup) as Hkeep.
  vm_compute in Hup. injection Hup as Hr Hs Hw. subst r self' w'.
  eexists. split; reflexivity.
Defined.

(** On a DAO that never fetched, [get_workflow_info] is [update] followed
    by the reading of what it stored. *)
Lemma get_workflow_info_unfetched (self : WorkflowStatus.WorkflowDAO) (w : world) :
  WorkflowStatus.workflow_info self = VNone ->
  WorkflowStatus.get_workflow_info (self, w) =
  match WorkflowStatus.update (self, w) with
  | (inl e, s) => (inl e, s)
  | (inr _, (self', w')) => (inr (WorkflowStatus.workflow_info self'), (self', w'))
  end.
Proof.
  intros Hnone. unfold WorkflowStatus.get_workflow_info.
  unfold_monad. cbn [fst snd]. rewrite Hnone. cbn [is_none].
  destruct (WorkflowStatus.update (self, w)) as [[e | []] [self' w']]; reflexivity.
Qed.

(** X12.  A body that is the JSON null is stored as [None], which is also
    the mark of a DAO that never fetched: [is_in_process] on an unfetched
    DAO then fetches, fails with a [TypeError] on the null snapshot, and
    leaves the DAO unfetched, so that the next call fetches again. *)
Theorem X12_null_body_is_no_snapshot
        (self : WorkflowStatus.WorkflowDAO) (w : world) (token : string) (resp : response) :
  WorkflowStatus.workflow_info self = VNone ->
  credentials w (credential_calls w) = inr token ->
  server w (List.length (sent w)) (submission_request self token) = inr resp ->
  Requests.ok resp = true ->
  json_body resp = Some VNone ->
  let after := WorkflowStatus.is_in_process (self, w) in
  fst after = inl TypeError /\
  WorkflowStatus.workflow_info (fst (snd after)) = VNone /\
  sent (snd (snd after)) = sent w ++ [submission_request self token].
Proof.
  intros Hnone Hcred Hsrv Hok Hbody after. subst after.
  assert (Hrun : WorkflowStatus.is_in_process (self, w) =
                 (inl TypeError,
                  (WorkflowStatus.set_workflow_info VNone self,
                   set_sent (sent w ++ [submission_request self token])
                            (set_credential_calls (S (credential_calls w)) w)))).
  { unfold WorkflowStatus.is_in_process, bind.
    rewrite (get_workflow_info_unfetched self w Hnone).
    rewrite (update_outcome self w token Hcred), Hsrv.
    unfold Requests.ok in Hok.
    destruct (Requests.raise_for_status resp) as [e | []]; [discriminate Hok|].
    unfold Requests.json. rewrite Hbody. reflexivity. }
  rewrite Hrun. repeat split.
Qed.

(** X12 on a server that answers 200 with the body null. *)
Lemma X12_witness :
  let w := example_world example_clock (always (ok_response VNone)) in
  WorkflowStatus.workflow_info example_dao = VNone /\
  credentials w (credential_calls w) = inr "token" /\
  Requests.ok (ok_response VNone) = true /\
  fst (WorkflowStatus.is_in_process (example_dao, w)) = inl TypeError /\
  WorkflowStatus.workflow_info (fst (snd (WorkflowStatus.is_in_process (example_dao, w))))
  = VNone.
Proof.
  intros w.
  destruct (X12_null_body_is_no_snapshot example_dao w "token" (ok_response VNone)
              eq_refl eq_refl eq_refl eq_refl eq_refl) as (Hr & Hinfo & _).
  repeat split; assumption.
Defined.

(** ** The submission time *)

Lemma str_replace_absent (old : ascii) (new s : string) :
  occurs old s = false -> str_replace old new s = s.
Proof.
  induction s as [|c s IH]; cbn; intros H; [reflexivity|].
  apply orb_false_iff in H as [Hc Hs]. rewrite Hc, (IH Hs). reflexivity.
Qed.

Lemma append_empty_r (s : string) : (s ++ "")%string = s.
Proof. induction s as [|c s IH]; cbn; [reflexivity | rewrite IH; reflexivity]. Qed.

Lemma str_replace_last (old : ascii) (new s : string) :
  occurs old s = false ->
  str_replace old new (s ++ String old EmptyString) = (s ++ new)%string.
Proof.
  induction s as [|c s IH]; cbn; intros H.
  - rewrite Ascii.eqb_refl. apply append_empty_r.
  - apply orb_false_iff in H as [Hc Hs]. rewrite Hc, (IH Hs). reflexivity.
Qed.

(** The result of formatting a parsed date. *)
Lemma formatted_time {datetime : Type} (fromisoformat : string -> result datetime)
      (strftime : datetime -> string -> result string)
      (fields : dict pyval) (date format : string) :
  dict_get fields "submissionDate" = Some (VStr date) ->
  submission_time_of fromisoformat strftime (VDict fields) (Some format) =
  match fromisoformat (str_replace "Z" "+00:00" date) with
  | inl e => inl e
  | inr dt => match strftime dt format with
              | inl e => inl e
              | inr formatted => inr (VStr formatted)
              end
  end.
Proof. intros H. unfold submission_time_of. cbn. rewrite H. reflexivity. Qed.

(** X13.  [get_submission_time] on a stored snapshot, for any
    [fromisoformat] and [strftime].  Without a format string it returns
    the "submissionDate" entry as it is stored, of whatever type, and
    parses nothing.  With a format string, a date that ends with its only
    "Z" is parsed as the same text with "+00:00" in the place of the "Z",
    and a date without a "Z" is parsed unchanged; a date that is not a
    str raises an [AttributeError], and a snapshot without the entry a
    [KeyError].  In every case the DAO and the world stay as they are. *)
Theorem X13_submission_time_cases
        (datetime : Type) (fromisoformat : string -> result datetime)
        (strftime : datetime -> string -> result string)
        (self : WorkflowStatus.WorkflowDAO) (w : world) (fields : dict pyval) :
  WorkflowStatus.workflow_info self = VDict fields ->
  let run := WorkflowStatus.get_submission_time datetime fromisoformat strftime in
  let parsed (text format : string) : result pyval :=
    match fromisoformat text with
    | inl e => inl e
    | inr dt => match strftime dt format with
                | inl e => inl e
                | inr formatted => inr (VStr formatted)
                end
    end in
  (forall date, dict_get fields "submissionDate" = Some date ->
                run None (self, w) = (inr date, (self, w))) /\
  (forall prefix format,
      dict_get fields "submissionDate" = Some (VStr (prefix ++ "Z")) ->
      occurs "Z" prefix = false ->
      run (Some format) (self, w) = (parsed (prefix ++ "+00:00")%string format, (self, w))) /\
  (forall date format,
      dict_get fields "submissionDate" = Some (VStr date) ->
      occurs "Z" date = false ->
      run (Some format) (self, w) = (parsed date format, (self, w))) /\
  (forall date format,
      dict_get fields "submissionDate" = Some date ->
      (forall s, date <> VStr s) ->
      run (Some format) (self, w) = (inl AttributeError, (self, w))) /\
  (forall strftime_format_string,
      dict_get fields "submissionDate" = None ->
      run strftime_format_string (self, w) = (inl (KeyError "submissionDate"), (self, w))).
Proof.
  intros Hinfo run parsed. subst run parsed. cbv beta.
  assert (Hsome : WorkflowStatus.workflow_info self <> VNone) by (rewrite Hinfo; discriminate).
  pose proof (fun fmt => package_get_submission_time_stored datetime fromisoformat strftime
                           self w fmt Hsome) as Hrun.
  rewrite Hinfo in Hrun.
  split; [|split; [|split; [|split]]].
  - intros date Hdate. rewrite Hrun. unfold submission_time_of. cbn. rewrite Hdate.
    reflexivity.
  - intros prefix format Hdate Hno.
    rewrite Hrun, (formatted_time _ _ _ _ _ Hdate), (str_replace_last _ _ _ Hno).
    reflexivity.
  - intros date format Hdate Hno.
    rewrite Hrun, (formatted_time _ _ _ _ _ Hdate), (str_replace_absent _ _ _ Hno).
    reflexivity.
  - intros date format Hdate Hnot. rewrite Hrun. unfold submission_time_of. cbn.
    rewrite Hdate. destruct date; try reflexivity. destruct (Hnot s eq_refl).
  - intros fmt Hdate. rewrite Hrun. unfold submission_time_of. cbn. rewrite Hdate.
    reflexivity.
Qed.

(** X13 on a submission date in the format of the orchestration service. *)
Lemma X13_witness :
  let fields := [("status", VStr "Running");
                 ("submissionDate", VStr "2021-03-04T05:06:07.089Z")] in
  let self := example_dao_with (VDict fields) in
  let w := example_world example_clock (fun _ _ => inl RequestException) in
  WorkflowStatus.workflow_info self = VDict fields /\
  occurs "Z" "2021-03-04T05:06:07.089" = false /\
  WorkflowStatus.get_submission_time string (fun s => inr s) (fun dt _ => inr dt)
    (Some "%Y/%m/%d %H:%M:%S") (self, w)
  = (inr (VStr "2021-03-04T05:06:07.089+00:00"), (self, w)).
Proof.
  intros fields self w. split; [reflexivity|]. split; [reflexivity|].
  destruct (X13_submission_time_cases string (fun s => inr s) (fun dt _ => inr dt)
              self w fields eq_refl) as (_ & Hz & _).
  exact (Hz "2021-03-04T05:06:07.089" "%Y/%m/%d %H:%M:%S" eq_refl eq_refl).
Defined.

(** ** Polling *)

(** X14.  One poll that finds the submission finished.  From a stored
    status that is in process, when the refresh is answered with a body
    whose status is not in process, [wait_for_workflow_to_complete]
    returns after exactly one request and one sleep of thirty seconds; it
    has printed the old status, the two progress lines and the final
    status, in that order, and the DAO holds the new snapshot. *)
Theorem X14_one_poll_then_done
        (self : WorkflowStatus.WorkflowDAO) (w : world) (status status' body : pyval)
        (token : string) (resp : response) (fuel : nat) :
  subscript (WorkflowStatus.workflow_info self) "status" = inr status ->
  in_process_status status ->
  credentials w (credential_calls w) = inr token ->
  server w (List.length (sent w)) (submission_request self token) = inr resp ->
  Requests.ok resp = true ->
  json_body resp = Some body ->
  subscript body "status" = inr status' ->
  ~ in_process_status status' ->
  let run := WorkflowStatus.wait_for_workflow_to_complete (S (S fuel)) (self, w) in
  fst run = inr (Some tt) /\
  fst (snd run) = WorkflowStatus.set_workflow_info body self /\
  sent (snd (snd run)) = sent w ++ [submission_request self token] /\
  slept (snd (snd run)) = slept w ++ [30] /\
  stdout (snd (snd run)) =
  stdout w ++ [[Lit "Submission status: "; Fmt status];
               [Lit "Sleeping for "; Fmt (VInt 30); Lit " seconds ..."];
               [Lit "Getting current submission status ... "];
               [Lit "Final Submission status: "; Fmt status']].
Proof.
  intros Hst Hin Hcred Hsrv Hok Hbody Hst' Hout run. subst run.
  assert (Hcred' : credentials (world_before_update status w)
                     (credential_calls (world_before_update status w)) = inr token)
    by exact Hcred.
  pose proof (update_outcome self (world_before_update status w) token Hcred') as Hup.
  cbn zeta in Hup.
  change (server (world_before_update status w)) with (server w) in Hup.
  change (sent (world_before_update status w)) with (sent w) in Hup.
  rewrite Hsrv in Hup. unfold Requests.ok in Hok.
  destruct (Requests.raise_for_status resp) as [e | []]; [discriminate Hok|].
  unfold Requests.json in Hup. rewrite Hbody in Hup.
  set (self' := WorkflowStatus.set_workflow_info body self) in *.
  set (w' := set_sent _ _) in Hup.
  assert (Hinfo : WorkflowStatus.workflow_info self' = body) by reflexivity.
  assert (Hsome : WorkflowStatus.workflow_info self' <> VNone).
  { rewrite Hinfo. exact (subscript_not_none _ _ _ Hst'). }
  assert (Hfalse : in_str_list status' ["Queued"; "Submitted"; "Running"] = false).
  { destruct (in_str_list status' _) eqn:E; [|reflexivity].
    apply in_process_statuses_spec in E. destruct (Hout E). }
  assert (Hrun : WorkflowStatus.wait_for_workflow_to_complete (S (S fuel)) (self, w) =
                 (inr (Some tt),
                  (self', set_stdout (stdout w' ++ [[Lit "Final Submission status: ";
                                                     Fmt status']]) w'))).
  { rewrite (wait_iteration self w status (S fuel) Hst Hin), Hup.
    cbn [WorkflowStatus.wait_for_workflow_to_complete].
    unfold bind at 1. rewrite (is_in_process_stored self' w' Hsome), Hinfo, Hst', Hfalse.
    unfold bind at 1. rewrite (get_submission_status_stored self' w' Hsome), Hinfo, Hst'.
    reflexivity. }
  rewrite Hrun. subst w'. cbn [fst snd].
  split; [reflexivity|]. split; [reflexivity|]. split; [reflexivity|].
  split; [reflexivity|].
  cbn [stdout set_stdout set_sent set_slept set_credential_calls world_before_update].
  rewrite <- !app_assoc. reflexivity.
Qed.

(** X14 on a running submission whose refresh reports "Succeeded". *)
Lemma X14_witness :
  let self := example_dao_with (VDict [("status", VStr "Running")]) in
  let body := VDict [("status", VStr "Succeeded")] in
  let w := example_world example_clock (always (ok_response body)) in
  in_process_status (VStr "Running") /\
  ~ in_process_status (VStr "Succeeded") /\
  fst (WorkflowStatus.wait_for_workflow_to_complete 2 (self, w)) = inr (Some tt) /\
  slept (snd (snd (WorkflowStatus.wait_for_workflow_to_complete 2 (self, w)))) = [30].
Proof.
  intros self body w.
  assert (Hin : in_process_status (VStr "Running")) by (right; right; reflexivity).
  assert (Hout : ~ in_process_status (VStr "Succeeded"))
    by (intros [H | [H | H]]; discriminate H).
  destruct (X14_one_poll_then_done self w (VStr "Running") (VStr "Succeeded") body "token"
              (ok_response body) 0 eq_refl Hin eq_refl eq_refl eq_refl eq_refl eq_refl Hout)
    as (Hr & _ & _ & Hslept & _).
  split; [exact Hin|]. split; [exact Hout|]. split; [exact Hr|]. exact Hslept.
Defined.

(** ** The two [update] *)



(** ** A token for every poll *)

Lemma polled_refl (w : world) : polled w w 0.
Proof. unfold polled. lia. Qed.

Lemma polled_trans (w1 w2 w3 : world) (n m : nat) :
  polled w1 w2 n -> polled w2 w3 m -> polled w1 w3 (n + m).
Proof. unfold polled. lia. Qed.

Lemma update_polled (self self' : WorkflowStatus.WorkflowDAO) (w w' : world) (u : unit) :
  WorkflowStatus.update (self, w) = (inr u, (self', w')) -> polled w w' 1.
Proof.
  intros Hup.
  destruct (credentials w (credential_calls w)) as [e | token] eqn:Hcred.
  - unfold WorkflowStatus.update, WorkflowStatus._get_terra_user_token in Hup.
    unfold_monad. unfold_env. cbn in Hup. rewrite Hcred in Hup. discriminate Hup.
  - rewrite (update_outcome self w token Hcred) in Hup.
    destruct (server w _ _) as [e | resp]; [discriminate Hup|].
    destruct (Requests.raise_for_status resp) as [e | []]; [discriminate Hup|].
    destruct (Requests.json resp) as [e | body]; [discriminate Hup|].
    injection Hup as _ _ <-. unfold polled. cbn. rewrite length_app. cbn. lia.
Qed.

Lemma get_workflow_info_polled (self self' : WorkflowStatus.WorkflowDAO) (w w' : world)
      (info : pyval) :
  WorkflowStatus.get_workflow_info (self, w) = (inr info, (self', w')) ->
  exists n, polled w w' n.
Proof.
  intros H. destruct (is_none (WorkflowStatus.workflow_info self)) eqn:Hnone.
  - assert (Hinfo : WorkflowStatus.workflow_info self = VNone)
      by (destruct (WorkflowStatus.workflow_info self); try discriminate Hnone; reflexivity).
    rewrite (get_workflow_info_unfetched self w Hinfo) in H.
    destruct (WorkflowStatus.update (self, w)) as [[e | u] [s1 w1]] eqn:Hup;
      [discriminate H|].
    injection H as _ _ <-. exists 1%nat. exact (update_polled _ _ _ _ _ Hup).
  - assert (Hinfo : WorkflowStatus.workflow_info self <> VNone)
      by (intros E; rewrite E in Hnone; discriminate Hnone).
    rewrite (get_workflow_info_stored self w Hinfo) in H.
    injection H as _ _ <-. exists 0%nat. apply polled_refl.
Qed.

Lemma is_in_process_polled (self self' : WorkflowStatus.WorkflowDAO) (w w' : world)
      (b : bool) :
  WorkflowStatus.is_in_process (self, w) = (inr b, (self', w')) ->
  exists n, polled w w' n.
Proof.
  unfold WorkflowStatus.is_in_process, bind at 1. intros H.
  destruct (WorkflowStatus.get_workflow_info (self, w)) as [[e | info] [s1 w1]] eqn:Hget;
    [discriminate H|].
  unfold_monad. destruct (subscript info "status"); [discriminate H|].
  injection H as _ _ <-. exact (get_workflow_info_polled _ _ _ _ _ Hget).
Qed.

Lemma get_submission_status_polled (self self' : WorkflowStatus.WorkflowDAO)
      (w w' : world) (status : pyval) :
  WorkflowStatus.get_submission_status (self, w) = (inr status, (self', w')) ->
  exists n, polled w w' n.
Proof.
  unfold WorkflowStatus.get_submission_status, bind at 1. intros H.
  destruct (WorkflowStatus.get_workflow_info (self, w)) as [[e | info] [s1 w1]] eqn:Hget;
    [discriminate H|].
  unfold_monad. destruct (subscript info "status"); [discriminate H|].
  injection H as _ _ <-. exact (get_workflow_info_polled _ _ _ _ _ Hget).
Qed.

(** X16.  The poller asks for a fresh token for every request.  In any
    run of [wait_for_workflow_to_complete] that does not raise, the
    number of calls to the credential provider equals the number of
    requests sent, from any DAO and for any number of iterations. *)
Theorem X16_one_token_per_request
        (fuel : nat) (self self' : WorkflowStatus.WorkflowDAO) (w w' : world)
        (r : option unit) :
  WorkflowStatus.wait_for_workflow_to_complete fuel (self, w) = (inr r, (self', w')) ->
  exists n, polled w w' n.
Proof.
  revert self w. induction fuel as [|fuel IH]; intros self w H.
  - injection H as _ _ <-. exists 0%nat. apply polled_refl.
  - cbn [WorkflowStatus.wait_for_workflow_to_complete] in H. unfold bind at 1 in H.
    destruct (WorkflowStatus.is_in_process (self, w)) as [[e | b] [s1 w1]] eqn:Hin;
      [discriminate H|].
    destruct (is_in_process_polled _ _ _ _ _ Hin) as [n1 P1].
    destruct b.
    + unfold bind at 1 in H.
      destruct (WorkflowStatus.get_submission_status (s1, w1))
        as [[e | status] [s2 w2]] eqn:Hst; [discriminate H|].
      destruct (get_submission_status_polled _ _ _ _ _ Hst) as [n2 P2].
      unfold bind at 1 2 3 4 in H. unfold on_snd, print, time_sleep, modify in H.
      cbn [fst snd] in H. unfold bind at 1 in H.
      match type of H with
      | context [WorkflowStatus.update (s2, ?v)] =>
          destruct (WorkflowStatus.update (s2, v)) as [[e | u] [s3 w3]] eqn:Hup;
          [discriminate H|];
          pose proof (update_polled _ _ _ _ _ Hup) as P3
      end.
      destruct (IH _ _ H) as [n4 P4].
      exists (n1 + n2 + 1 + n4)%nat.
      unfold polled in *. cbn [credential_calls sent set_stdout set_slept] in P3. lia.
    + unfold bind at 1 in H.
      destruct (WorkflowStatus.get_submission_status (s1, w1))
        as [[e | status] [s2 w2]] eqn:Hst; [discriminate H|].
      destruct (get_submission_status_polled _ _ _ _ _ Hst) as [n2 P2].
      unfold_monad. unfold print, modify in H. cbn [fst snd] in H.
      injection H as _ _ <-. exists (n1 + n2)%nat.
      unfold polled in *. cbn [credential_calls sent set_stdout]. lia.
Qed.

(** X16 on a running submission whose refresh reports "Succeeded". *)
Lemma X16_witness :
  let self := example_dao_with (VDict [("status", VStr "Running")]) in
  let w := example_world example_clock
             (always (ok_response (VDict [("status", VStr "Succeeded")]))) in
  fst (WorkflowStatus.wait_for_workflow_to_complete 2 (self, w)) = inr (Some tt) /\
  exists n, polled w (snd (snd (WorkflowStatus.wait_for_workflow_to_complete 2 (self, w)))) n.
Proof.
  intros self w.
  destruct (WorkflowStatus.wait_for_workflow_to_complete 2 (self, w))
    as [[e | r] [s' w']] eqn:H.
  - vm_compute in H. discriminate H.
  - split.
    + vm_compute in H. injection H as <- _ _. reflexivity.
    + exact (X16_one_token_per_request 2 self s' w w' r H).
Defined.

(** ** The values of a flattened row *)

Lemma dict_get_set_other {A} (d : dict A) (k k' : string) (v : A) :
  k <> k' -> dict_get (dict_set d k' v) k = dict_get d k.
Proof.
  intros Hne. induction d as [|[k0 v0] d IH]; cbn.
  - destruct (String.eqb_spec k' k); [congruence | reflexivity].
  - destruct (String.eqb_spec k0 k') as [-> | Hne0]; cbn.
    + destruct (String.eqb_spec k' k); [congruence | reflexivity].
    + destruct (String.eqb_spec k0 k); [reflexivity | exact IH].
Qed.

Lemma append_same_prefix (p s1 s2 : string) :
  (p ++ s1)%string = (p ++ s2)%string -> s1 = s2.
Proof.
  induction p as [|c p IH]; cbn; intros H; [exact H|].
  injection H as H. exact (IH H).
Qed.

(** A key [hop.metric] splits in one way when the metric has no dot. *)
Lemma split_at_last_dot (op1 op2 m1 m2 : string) :
  occurs "." m1 = false -> occurs "." m2 = false ->
  (op1 ++ "." ++ m1)%string = (op2 ++ "." ++ m2)%string ->
  op1 = op2 /\ m1 = m2.
Proof.
  intros H1 H2. revert op2. induction op1 as [|c op1 IH]; intros [|c' op2] H; cbn in H.
  - injection H as H. split; [reflexivity | exact H].
  - injection H as <- H. rewrite H in H1.
    rewrite (occurs_after_sep "." op2 m2) in H1. discriminate H1.
  - injection H as -> H. rewrite <- H in H2.
    rewrite (occurs_after_sep "." op1 m1) in H2. discriminate H2.
  - injection H as -> H. destruct (IH _ H) as [-> ->]. split; reflexivity.
Qed.

Lemma recorded_metric_no_dot (metric : string) :
  Monitor.str_in metric Monitor.recorded_metrics = true -> occurs "." metric = false.
Proof.
  rewrite str_in_spec. cbn. intros [<- | [<- | [<- | [<- | []]]]]; reflexivity.
Qed.

Lemma flat_key_injective (op1 op2 m1 m2 : string) :
  Monitor.str_in m1 Monitor.recorded_metrics = true ->
  Monitor.str_in m2 Monitor.recorded_metrics = true ->
  (op1 ++ "." ++ m1)%string = (op2 ++ "." ++ m2)%string ->
  op1 = op2 /\ m1 = m2.
Proof.
  intros H1 H2. apply split_at_last_dot; apply recorded_metric_no_dot; assumption.
Qed.

Lemma flattened_value_spec (metric : string) (value v' : pyval) (w w' : world) :
  (if String.eqb metric "start_time" then
     match value with
     | VFloat x => s <- Monitor.format_timestamp_as_utc x ;; ret (VStr s)
     | _ => ret value
     end
   else ret value) w = (inr v', w') ->
  if kept_as_is metric value then v' = value else exists s, v' = VStr s.
Proof.
  unfold kept_as_is. intros H.
  destruct (String.eqb metric "start_time"); cbn [andb negb].
  - destruct value as [| | |x| | |]; cbn [negb]; unfold ret in H;
      try (injection H as <- _; reflexivity).
    unfold bind in H.
    destruct (Monitor.format_timestamp_as_utc x w) as [[e | s] w2]; [discriminate H|].
    injection H as <- _. exists s. reflexivity.
  - unfold ret in H. injection H as <- _. reflexivity.
Qed.

Lemma flatten_metrics_frame (operation_name : string) (items flattened out : dict pyval)
      (w w1 : world) (k : string) :
  Monitor.flatten_metrics operation_name items flattened w = (inr out, w1) ->
  (forall metric, In metric (dict_keys items) ->
                  Monitor.str_in metric Monitor.recorded_metrics = true ->
                  k <> (operation_name ++ "." ++ metric)%string) ->
  dict_get out k = dict_get flattened k.
Proof.
  revert flattened w. induction items as [|[metric value] rest IH]; intros flattened w H Hk.
  - cbn in H. unfold ret in H. injection H as <- _. reflexivity.
  - cbn [Monitor.flatten_metrics] in H.
    assert (Hrest : forall m, In m (dict_keys rest) ->
                              Monitor.str_in m Monitor.recorded_metrics = true ->
                              k <> (operation_name ++ "." ++ m)%string)
      by (intros m Hin; apply Hk; right; exact Hin).
    destruct (Monitor.str_in metric Monitor.recorded_metrics) eqn:Hrec.
    + unfold bind at 1 in H.
      match type of H with
      | context [match ?m w with _ => _ end] =>
          destruct (m w) as [[e | v'] w'] eqn:Hstep
      end; [discriminate H|].
      rewrite (IH _ _ H Hrest). apply dict_get_set_other.
      apply Hk; [left; reflexivity | exact Hrec].
    + exact (IH _ _ H Hrest).
Qed.

Lemma flatten_metrics_values (operation_name : string) (items flattened out : dict pyval)
      (w w1 : world) (metric : string) (value : pyval) :
  NoDup (dict_keys items) ->
  Monitor.flatten_metrics operation_name items flattened w = (inr out, w1) ->
  In (metric, value) items ->
  Monitor.str_in metric Monitor.recorded_metrics = true ->
  flattened_entry out (operation_name ++ "." ++ metric) metric value.
Proof.
  revert flattened w. induction items as [|[m0 v0] rest IH]; intros flattened w Hnd H Hin Hrec.
  - destruct Hin.
  - cbn [dict_keys map fst] in Hnd. apply NoDup_cons_iff in Hnd as [Hfresh Hnd].
    cbn [Monitor.flatten_metrics] in H.
    destruct Hin as [[= -> ->] | Hin].
    + rewrite Hrec in H. unfold bind at 1 in H.
      match type of H with
      | context [match ?m w with _ => _ end] =>
          destruct (m w) as [[e | v'] w'] eqn:Hstep
      end; [discriminate H|].
      apply flattened_value_spec in Hstep.
      assert (Hget : dict_get out (operation_name ++ "." ++ metric) = Some v').
      { rewrite (flatten_metrics_frame _ _ _ _ _ _ _ H).
        - apply dict_get_set_same.
        - intros m Hm _ E. apply append_same_prefix in E. injection E as E.
          subst m. exact (Hfresh Hm). }
      unfold flattened_entry. destruct (kept_as_is metric value).
      * rewrite Hget, Hstep. reflexivity.
      * destruct Hstep as [s ->]. exists s. exact Hget.
    + destruct (Monitor.str_in m0 Monitor.recorded_metrics).
      * unfold bind at 1 in H.
        match type of H with
        | context [match ?m w with _ => _ end] =>
            destruct (m w) as [[e | v'] w'] eqn:Hstep
        end; [discriminate H|].
        exact (IH _ _ Hnd H Hin Hrec).
      * exact (IH _ _ Hnd H Hin Hrec).
Qed.

Lemma flatten_operations_frame (items : dict (dict pyval)) (flattened out : dict pyval)
      (w w1 : world) (k : string) :
  Monitor.flatten_operations items flattened w = (inr out, w1) ->
  ~ In k (flat_keys items) ->
  dict_get out k = dict_get flattened k.
Proof.
  revert flattened w. induction items as [|[operation_name mon_info] rest IH];
    intros flattened w H Hk.
  - cbn in H. unfold ret in H. injection H as <- _. reflexivity.
  - cbn [Monitor.flatten_operations] in H. unfold bind at 1 in H.
    destruct (Monitor.flatten_metrics operation_name mon_info flattened w)
      as [[e | flattened'] w'] eqn:Hstep; [discriminate H|].
    unfold flat_keys in Hk. cbn [flat_map fst snd] in Hk. rewrite in_app_iff in Hk.
    rewrite (IH _ _ H); [|intros Hin; apply Hk; right; exact Hin].
    apply (flatten_metrics_frame _ _ _ _ _ _ _ Hstep).
    intros metric Hin Hrec ->. apply Hk. left.
    apply (in_map (fun m => (operation_name ++ "." ++ m)%string)).
    apply filter_In. split; assumption.
Qed.

Lemma flatten_operations_values (items : dict (dict pyval)) (flattened out : dict pyval)
      (w w1 : world) (operation_name : string) (mon_info : dict pyval)
      (metric : string) (value : pyval) :
  NoDup (dict_keys items) ->
  (forall op info, In (op, info) items -> NoDup (dict_keys info)) ->
  Monitor.flatten_operations items flattened w = (inr out, w1) ->
  In (operation_name, mon_info) items ->
  In (metric, value) mon_info ->
  Monitor.str_in metric Monitor.recorded_metrics = true ->
  flattened_entry out (operation_name ++ "." ++ metric) metric value.
Proof.
  revert flattened w. induction items as [|[op0 info0] rest IH];
    intros flattened w Hnd Hinfo H Hop Hin Hrec.
  - destruct Hop.
  - cbn [dict_keys map fst] in Hnd. apply NoDup_cons_iff in Hnd as [Hfresh Hnd].
    cbn [Monitor.flatten_operations] in H. unfold bind at 1 in H.
    destruct (Monitor.flatten_metrics op0 info0 flattened w)
      as [[e | flattened'] w'] eqn:Hstep; [discriminate H|].
    destruct Hop as [[= -> ->] | Hop].
    + assert (Hhere : flattened_entry flattened' (operation_name ++ "." ++ metric)
                        metric value).
      { apply (flatten_metrics_values _ _ _ _ _ _ _ _
                 (Hinfo _ _ (or_introl eq_refl)) Hstep Hin Hrec). }
      unfold flattened_entry in *.
      rewrite (flatten_operations_frame _ _ _ _ _ _ H); [exact Hhere|].
      unfold flat_keys. rewrite in_flat_map. intros ([op' info'] & Hin' & Hk).
      cbn [fst snd] in Hk. apply in_map_iff in Hk as (m' & E & Hm').
      apply filter_In in Hm' as [_ Hrec'].
      apply flat_key_injective in E as [-> _]; [|assumption|assumption].
      apply Hfresh. apply (in_map fst) in Hin'. exact Hin'.
    + apply (IH _ _ Hnd (fun op info Hi => Hinfo op info (or_intror Hi)) H Hop Hin Hrec).
Qed.

(** X17.  Flattening keeps the measured values.  For a flow result whose
    hops, and the fields of each hop, have distinct names (as the keys of
    a Python dict have), whenever [flatten_monitoring_info_dict] returns,
    the row holds under ["{hop}.{metric}"] the value the hop recorded for
    each of the four recorded metrics, unchanged; the one exception is a
    [float] start time, under whose key the row holds a string.  No key of
    one hop overwrites the key of another, whatever the names of the
    hops. *)
Theorem X17_flattening_keeps_values
        (monitoring_info_dict : dict (dict pyval)) (row_info : dict pyval)
        (w w1 : world) :
  NoDup (dict_keys monitoring_info_dict) ->
  (forall op info, In (op, info) monitoring_info_dict -> NoDup (dict_keys info)) ->
  Monitor.flatten_monitoring_info_dict monitoring_info_dict w = (inr row_info, w1) ->
  forall operation_name mon_info metric value,
    In (operation_name, mon_info) monitoring_info_dict ->
    In (metric, value) mon_info ->
    Monitor.str_in metric Monitor.recorded_metrics = true ->
    (kept_as_is metric value = true ->
     dict_get row_info (operation_name ++ "." ++ metric) = Some value) /\
    (forall x, metric = "start_time" -> value = VFloat x ->
               exists s, dict_get row_info (operation_name ++ "." ++ metric) = Some (VStr s)).
Proof.
  intros Hnd Hinfo H operation_name mon_info metric value Hop Hin Hrec.
  pose proof (flatten_operations_values _ _ _ _ _ _ _ _ _ Hnd Hinfo H Hop Hin Hrec) as He.
  unfold flattened_entry in He. split.
  - intros Hkept. rewrite Hkept in He. exact He.
  - intros x -> ->. exact He.
Qed.

(** X17 on the example flow result: the status code of the token hop. *)
Lemma X17_witness :
  let w := example_world example_clock all_ok in
  exists row_info w1,
    Monitor.flatten_monitoring_info_dict example_flow_result w = (inr row_info, w1) /\
    dict_get row_info "bond_get_access_token.response_code" = Some (VInt 401).
Proof.
  intros w.
  destruct (Monitor.flatten_monitoring_info_dict example_flow_result w)
    as [[e | row_info] w1] eqn:H.
  - vm_compute in H. discriminate H.
  - exists row_info, w1. split; [reflexivity|].
    refine (proj1 (X17_flattening_keeps_values example_flow_result row_info w w1
                     _ _ H "bond_get_access_token" _ "response_code" (VInt 401)
                     (or_intror (or_introl eq_refl))
                     (or_intror (or_intror (or_introl eq_refl))) eq_refl) eq_refl).
    + repeat constructor; cbn; intuition discriminate.
    + intros op info [[= <- <-] | [[= <- <-] | []]];
        repeat constructor; cbn; intuition discriminate.
Defined.

(** ** The getters of the snapshot *)

Lemma reads_only_ret {A} (a : A) : reads_only (ret a).
Proof. intros self w _. reflexivity. Qed.

Lemma reads_only_lift {A} (r : result A) : reads_only (lift r).
Proof. intros self w _. reflexivity. Qed.

Lemma reads_only_raise {A} (e : exn) :
  reads_only (raise e : M (WorkflowStatus.WorkflowDAO * world) A).
Proof. intros self w _. reflexivity. Qed.

Lemma reads_only_bind {A B} (m : M (WorkflowStatus.WorkflowDAO * world) A)
      (k : A -> M (WorkflowStatus.WorkflowDAO * world) B) :
  reads_only m -> (forall a, reads_only (k a)) -> reads_only (bind m k).
Proof.
  intros Hm Hk self w Hs. unfold bind. specialize (Hm self w Hs).
  destruct (m (self, w)) as [[e | a] s1]; cbn [snd] in Hm; subst s1; [reflexivity|].
  exact (Hk a self w Hs).
Qed.

Lemma reader_reads_only {A} (m : M (WorkflowStatus.WorkflowDAO * world) A) :
  snapshot_reader m -> reads_only m.
Proof. intros Hm self w. exact (proj1 (Hm self w)). Qed.

Lemma reader_bind {A B} (m : M (WorkflowStatus.WorkflowDAO * world) A)
      (k : A -> M (WorkflowStatus.WorkflowDAO * world) B) :
  snapshot_reader m -> (forall a, reads_only (k a)) -> snapshot_reader (bind m k).
Proof.
  intros Hm Hk self w. split.
  - apply reads_only_bind; [apply reader_reads_only; exact Hm | exact Hk].
  - intros Hn. destruct (Hm self w) as [_ Hun]. specialize (Hun Hn).
    destruct (WorkflowStatus.update (self, w)) as [[e | u] [self' w']].
    + unfold bind. rewrite Hun. reflexivity.
    + destruct Hun as [Hnull Hfetched]. split; intros Hs; unfold bind.
      * rewrite (Hnull Hs). reflexivity.
      * rewrite (Hfetched Hs). reflexivity.
Qed.

Lemma reader_get_workflow_info_then {A}
      (k : pyval -> M (WorkflowStatus.WorkflowDAO * world) A) :
  (forall s, k VNone s = (inl TypeError, s)) ->
  (forall info, reads_only (k info)) ->
  snapshot_reader (bind WorkflowStatus.get_workflow_info k).
Proof.
  intros Hnone Hk self w. split.
  - intros Hs. unfold bind. rewrite (get_workflow_info_stored self w Hs).
    exact (Hk _ self w Hs).
  - intros Hn.
    assert (Hrun : bind WorkflowStatus.get_workflow_info k (self, w) =
                   match WorkflowStatus.update (self, w) with
                   | (inl e, s) => (inl e, s)
                   | (inr _, (self', w')) =>
                       k (WorkflowStatus.workflow_info self') (self', w')
                   end).
    { unfold bind. rewrite (get_workflow_info_unfetched self w Hn).
      destruct (WorkflowStatus.update (self, w)) as [[e | u] [self' w']]; reflexivity. }
    rewrite Hrun.
    destruct (WorkflowStatus.update (self, w)) as [[e | u] [self' w']]; [reflexivity|].
    split; intros Hs.
    + rewrite Hs. apply Hnone.
    + unfold bind. rewrite (get_workflow_info_stored self' w' Hs). reflexivity.
Qed.

Lemma reader_field (key : string) :
  snapshot_reader (info <- WorkflowStatus.get_workflow_info ;; lift (subscript info key)).
Proof.
  apply reader_get_workflow_info_then; [reflexivity|].
  intros info. apply reads_only_lift.
Qed.

Lemma reader_method_configuration :
  snapshot_reader WorkflowStatus.get_method_configuration_display_name.
Proof.
  apply reader_get_workflow_info_then; [reflexivity|].
  intros info. apply reads_only_bind; [apply reads_only_lift|]. intros ns.
  apply reader_reads_only, reader_get_workflow_info_then; [reflexivity|].
  intros info'. apply reads_only_bind; [apply reads_only_lift|]. intros name.
  apply reads_only_ret.
Qed.

Lemma reader_submission_entity :
  snapshot_reader WorkflowStatus.get_submission_entity_display_name.
Proof.
  apply reader_get_workflow_info_then; [reflexivity|].
  intros info. repeat (apply reads_only_bind; [apply reads_only_lift|]; intros ?).
  apply reads_only_ret.
Qed.

Lemma update_sends_at_most_one (self : WorkflowStatus.WorkflowDAO) (w : world) :
  (List.length (sent (snd (snd (WorkflowStatus.update (self, w)))))
   <= S (List.length (sent w)))%nat.
Proof.
  destruct (credentials w (credential_calls w)) as [e | token] eqn:Hcred.
  - unfold WorkflowStatus.update, WorkflowStatus._get_terra_user_token.
    unfold_monad. unfold_env. cbn. rewrite Hcred. cbn. lia.
  - rewrite (update_outcome self w token Hcred).
    assert (Hlen : (List.length (sent w ++ [submission_request self token])
                    = S (List.length (sent w)))%nat)
      by (rewrite length_app; cbn; lia).
    destruct (server w _ _) as [e | resp]; [cbn; lia|].
    destruct (Requests.raise_for_status resp) as [e | []]; [cbn; lia|].
    destruct (Requests.json resp) as [e | body]; cbn; lia.
Qed.

(** What a reader of the snapshot does in any state. *)
Lemma reader_one_snapshot {A} (m : M (WorkflowStatus.WorkflowDAO * world) A)
      (self : WorkflowStatus.WorkflowDAO) (w : world) :
  snapshot_reader m ->
  (List.length (sent (snd (snd (m (self, w))))) <= S (List.length (sent w)))%nat /\
  (WorkflowStatus.workflow_info self <> VNone -> snd (m (self, w)) = (self, w)) /\
  (forall a, fst (m (self, w)) = inr a ->
             WorkflowStatus.workflow_info (fst (snd (m (self, w)))) <> VNone /\
             m (snd (m (self, w))) = m (self, w)).
Proof.
  intros Hm. destruct (Hm self w) as [Hst Hun].
  assert (Hstored : forall self0 w0, WorkflowStatus.workflow_info self0 <> VNone ->
                      m (self0, w0) = (fst (m (self0, w0)), (self0, w0))).
  { intros self0 w0 Hs. pose proof (proj1 (Hm self0 w0) Hs) as E.
    destruct (m (self0, w0)) as [r s]. cbn in E. subst s. reflexivity. }
  destruct (is_none (WorkflowStatus.workflow_info self)) eqn:Hnone.
  - assert (Hn : WorkflowStatus.workflow_info self = VNone)
      by (destruct (WorkflowStatus.workflow_info self); try discriminate Hnone; reflexivity).
    specialize (Hun Hn). pose proof (update_sends_at_most_one self w) as Hlen.
    destruct (WorkflowStatus.update (self, w)) as [[e | u] [self' w']]; cbn [snd] in Hlen.
    + rewrite Hun. cbn [fst snd]. split; [exact Hlen|]. split; [congruence|].
      intros a Ha. discriminate Ha.
    + destruct Hun as [Hnull Hfetched].
      destruct (is_none (WorkflowStatus.workflow_info self')) eqn:Hnone'.
      * assert (Hn' : WorkflowStatus.workflow_info self' = VNone)
          by (destruct (WorkflowStatus.workflow_info self'); try discriminate Hnone';
              reflexivity).
        rewrite (Hnull Hn'). cbn [fst snd]. split; [exact Hlen|]. split; [congruence|].
        intros a Ha. discriminate Ha.
      * assert (Hs' : WorkflowStatus.workflow_info self' <> VNone)
          by (intros E; rewrite E in Hnone'; discriminate Hnone').
        rewrite (Hfetched Hs'), (Hstored self' w' Hs'). cbn [fst snd].
        split; [exact Hlen|]. split; [congruence|].
        intros a _. split; [exact Hs'|]. exact (Hstored self' w' Hs').
  - assert (Hs : WorkflowStatus.workflow_info self <> VNone)
      by (intros E; rewrite E in Hnone; discriminate Hnone).
    rewrite (Hstored self w Hs). cbn [fst snd]. split; [lia|]. split; [reflexivity|].
    intros a _. split; [exact Hs|]. exact (Hstored self w Hs).
Qed.

Section Summary.

Variable datetime : Type.
Variable fromisoformat : string -> result datetime.
Variable strftime : datetime -> string -> result string.

Lemma reader_submission_time (format : option string) :
  snapshot_reader (WorkflowStatus.get_submission_time datetime fromisoformat strftime format).
Proof.
  apply reader_get_workflow_info_then; [reflexivity|].
  intros info. apply reads_only_bind; [apply reads_only_lift|]. intros submission_date.
  destruct format as [format|]; [|apply reads_only_ret].
  apply reads_only_bind.
  - destruct submission_date; first [apply reads_only_ret | apply reads_only_raise].
  - intros iso. repeat (apply reads_only_bind; [apply reads_only_lift|]; intros ?).
    apply reads_only_ret.
Qed.

Lemma reader_summary :
  snapshot_reader
    (WorkflowStatus.get_workflow_summary_display_string datetime fromisoformat strftime).
Proof.
  apply reader_bind; [apply reader_method_configuration|]. intros method_configuration.
  apply reads_only_bind; [apply reader_reads_only, reader_field|]. intros submitter.
  apply reads_only_bind; [apply reader_reads_only, reader_submission_time|].
  intros submitted.
  apply reads_only_bind; [apply reader_reads_only, reader_field|]. intros submission_id.
  apply reads_only_bind; [apply reader_reads_only, reader_submission_entity|].
  intros submission_entity.
  apply reads_only_bind; [apply reader_reads_only, reader_field|]. intros use_call_cache.
  apply reads_only_bind; [apply reader_reads_only, reader_field|]. intros status.
  apply reads_only_bind; [apply reader_reads_only, reader_field|]. intros user_comment.
  apply reads_only_ret.
Qed.

(** X18.  The summary is made from one snapshot.  In any state of the DAO
    and of the world, [get_workflow_summary_display_string] sends at most
    one request, although it asks for the snapshot ten times; with a
    snapshot stored it sends none and leaves the DAO and the world as they
    are; and whenever it returns a summary, a snapshot is stored
    afterwards and asking again gives the same summary without any
    further effect. *)
Theorem X18_summary_reads_one_snapshot
        (self : WorkflowStatus.WorkflowDAO) (w : world) :
  let summary :=
    WorkflowStatus.get_workflow_summary_display_string datetime fromisoformat strftime in
  (List.length (sent (snd (snd (summary (self, w))))) <= S (List.length (sent w)))%nat /\
  (WorkflowStatus.workflow_info self <> VNone -> snd (summary (self, w)) = (self, w)) /\
  (forall text, fst (summary (self, w)) = inr text ->
                WorkflowStatus.workflow_info (fst (snd (summary (self, w)))) <> VNone /\
                summary (snd (summary (self, w))) = summary (self, w)).
Proof.
  intros summary. exact (reader_one_snapshot summary self w reader_summary).
Qed.

(** X19.  Every getter of the package reads the snapshot in the same way.
    With a snapshot stored it has no effect.  With none stored it first
    does what [update] does: it raises what [update] raises, it raises
    [TypeError] when the body fetched is the JSON null, and otherwise it
    gives what it gives on the fetched snapshot.  So a getter fetches at
    most once, also [get_method_configuration_display_name], which asks
    for the snapshot twice. *)
Theorem X19_getters_read_the_snapshot :
  snapshot_reader WorkflowStatus.get_submission_status /\
  snapshot_reader WorkflowStatus.get_method_configuration_display_name /\
  snapshot_reader WorkflowStatus.get_submitter /\
  snapshot_reader WorkflowStatus.get_submission_id /\
  snapshot_reader WorkflowStatus.get_submission_entity_display_name /\
  snapshot_reader WorkflowStatus.get_use_call_cache /\
  snapshot_reader WorkflowStatus.get_user_comment /\
  (forall format,
      snapshot_reader
        (WorkflowStatus.get_submission_time datetime fromisoformat strftime format)).
Proof.
  repeat apply conj;
    first [ apply reader_field | apply reader_method_configuration
          | apply reader_submission_entity | intros format; apply reader_submission_time ].
Qed.

End Summary.

(** X20.  The summary needs every field.  When the stored snapshot is a
    dict that lacks one of the nine fields the summary reads, among them
    the user's comment, [get_workflow_summary_display_string] raises and
    gives no partial summary; the DAO and the world stay as they are. *)
Theorem X20_summary_needs_every_field
        (datetime : Type) (fromisoformat : string -> result datetime)
        (strftime : datetime -> string -> result string)
        (self : WorkflowStatus.WorkflowDAO) (w : world)
        (fields : dict pyval) (key : string) :
  WorkflowStatus.workflow_info self = VDict fields ->
  In key summary_fields ->
  dict_get fields key = None ->
  exists e,
    WorkflowStatus.get_workflow_summary_display_string datetime fromisoformat strftime
      (self, w) = (inl e, (self, w)).
Proof.
  intros Hinfo Hkey Hmiss.
  assert (Hs : WorkflowStatus.workflow_info self <> VNone)
    by (rewrite Hinfo; discriminate).
  pose proof (get_workflow_info_stored self w Hs) as Hg. rewrite Hinfo in Hg.
  unfold WorkflowStatus.get_workflow_summary_display_string,
    WorkflowStatus.get_method_configuration_display_name, WorkflowStatus.get_submitter,
    WorkflowStatus.get_submission_time, WorkflowStatus.get_submission_id,
    WorkflowStatus.get_submission_entity_display_name, WorkflowStatus.get_use_call_cache,
    WorkflowStatus.get_submission_status, WorkflowStatus.get_user_comment.
  unfold bind.
  cbn in Hkey.
  repeat first
    [ rewrite Hg
    | progress cbv beta iota
    | progress unfold lift, ret, raise
    | progress cbn [subscript]
    | match goal with
      | |- context [match dict_get fields ?k with _ => _ end] =>
          destruct (dict_get fields k) eqn:?
      | |- context [match subscript ?v ?k with _ => _ end] =>
          destruct (subscript v k) eqn:?
      | |- context [match fromisoformat ?s with _ => _ end] =>
          destruct (fromisoformat s) eqn:?
      | |- context [match strftime ?d ?f with _ => _ end] =>
          destruct (strftime d f) eqn:?
      | |- context [match ?v with VStr _ => _ | _ => _ end] =>
          is_var v; destruct v
      end ];
    try (eexists; reflexivity);
    exfalso; clear Hg;
    repeat match type of Hkey with
           | _ \/ _ => destruct Hkey as [Hkey | Hkey]
           | False => destruct Hkey
           end;
    subst key; congruence.
Qed.

(** X20 on a snapshot of a submission made without a comment. *)
Lemma X20_witness :
  let fields := [("methodConfigurationNamespace", VStr "drs-tests");
                 ("methodConfigurationName", VStr "md5sum");
                 ("submitter", VStr "user@example.org");
                 ("submissionDate", VStr "2021-03-04T05:06:07.089Z");
                 ("submissionId", VStr "32f74aa9-7779-4d28-aec7-641d26307beb");
                 ("submissionEntity",
                  VDict [("entityType", VStr "sample_set"); ("entityName", VStr "all")]);
                 ("useCallCache", VBool false);
                 ("status", VStr "Done")] in
  let self := example_dao_with (VDict fields) in
  let w := example_world example_clock (fun _ _ => inl RequestException) in
  exists e,
    WorkflowStatus.get_workflow_summary_display_string string
      (fun s => inr s) (fun dt _ => inr dt) (self, w) = (inl e, (self, w)).
Proof.
  intros fields self w.
  refine (X20_summary_needs_every_field string (fun s => inr s) (fun dt _ => inr dt)
            self w fields "userComment" eq_refl _ eq_refl).
  unfold summary_fields. repeat (first [left; reflexivity | right]).
Defined.
